(** * Site Memory Helper (bookmarklet.js): storage detection and clearing

    A shallow embedding of [src/bookmarklet.js].  The script is one
    [async] arrow function that probes the per-site storage surfaces of
    the page, renders an overlay with one checkbox per clearable surface
    and, on a click, clears the selected surfaces and refreshes the
    displayed counts.

    The script is a client of host objects ([localStorage], [caches],
    [navigator.serviceWorker], [indexedDB], [document.cookie], the DOM).
    The embedding therefore has two layers:

    - a model of the host (record [World]): what is stored, and which
      host objects are missing or throw when touched;
    - the script itself, written in a small state-and-exception monad
      [JS] over that host, statement by statement as in the source
      ([try]/[catch] is [try_catch], [for ... of] is [for_of], [await]
      is sequencing: the script is the only task that runs).

    What the model takes for granted:

    - the script is the only task that runs: an [await] is a sequence
      point, and nothing else touches the storage or the overlay during
      a run;
    - a host object that is missing or throws stays so during a run, and
      the host operations that do not throw do what the platform
      standards say ([clear()] empties the area, [caches.delete(k)]
      removes the cache [k], [unregister()] removes the registration, an
      expired assignment to [document.cookie] evicts the cookie of the
      same name, domain and path);
    - JavaScript strings are modelled by [string], a character standing
      for one code unit below 256;
    - the prototypes of the host objects are as the platform defines
      them: the page has added no member to [Storage.prototype] or
      [Object.prototype];
    - the page is served over https, its cookies are not partitioned,
      and the order of the jar is the order in which its cookies were
      created. *)

From Stdlib Require Import String Ascii List Bool Arith NArith Lia DecimalString.
Import ListNotations.
Local Open Scope list_scope.
Local Open Scope string_scope.

(* ===================================================================== *)
(** ** JavaScript string primitives used by the script                    *)
(* ===================================================================== *)

(** White space as [String.prototype.trim] sees it, for code units below
    256: TAB, LF, VT, FF, CR, SPACE and NBSP. *)
Definition is_whitespace (a : ascii) : bool :=
  let n := N_of_ascii a in
  ((n =? 9) || (n =? 10) || (n =? 11) || (n =? 12) || (n =? 13)
   || (n =? 32) || (n =? 160))%N.

Fixpoint trimStart (s : string) : string :=
  match s with
  | EmptyString => EmptyString
  | String a s' => if is_whitespace a then trimStart s' else s
  end.

Fixpoint trimEnd (s : string) : string :=
  match s with
  | EmptyString => EmptyString
  | String a s' =>
      match trimEnd s' with
      | EmptyString => if is_whitespace a then EmptyString else String a EmptyString
      | t => String a t
      end
  end.

(** [s.trim()] *)
Definition trim (s : string) : string := trimEnd (trimStart s).

(** [s.split(sep)] for a separator of one character: never the empty
    array, [""] splits to [[""]]. *)
Fixpoint split (sep : ascii) (s : string) : list string :=
  match s with
  | EmptyString => [EmptyString]
  | String a s' =>
      if Ascii.eqb a sep then EmptyString :: split sep s'
      else match split sep s' with
           | seg :: rest => String a seg :: rest
           | [] => [String a EmptyString]
           end
  end.

(** [xs.join(sep)] *)
Fixpoint join (sep : string) (xs : list string) : string :=
  match xs with
  | [] => EmptyString
  | [x] => x
  | x :: rest => x ++ sep ++ join sep rest
  end.

(** ToBoolean on a string: only the empty string is falsy. *)
Definition truthy (s : string) : bool :=
  match s with EmptyString => false | String _ _ => true end.

(** Template-literal conversion of a count, [`${n}`]. *)
Definition number_to_string (n : nat) : string :=
  NilEmpty.string_of_uint (Nat.to_uint n).

(** The double quote, which the HTML templates of the script contain. *)
Definition dq : string := String (ascii_of_nat 34) EmptyString.

(** An attribute value between double quotes. *)
Definition q (v : string) : string := dq ++ v ++ dq.

(* ===================================================================== *)
(** ** The host: per-site storage, location and the overlay's DOM         *)
(* ===================================================================== *)

(** The two Web Storage areas, [localStorage] and [sessionStorage]. *)
Inductive Area : Type := Local | Session.

(** A cookie of the jar (RFC 6265, section 5.3): name, value, domain with
    its host-only flag, path, and the http-only flag, which hides the
    cookie from scripts and protects it from them. *)
Record Cookie : Type := mkCookie {
  ck_name : string;
  ck_value : string;
  ck_domain : string;
  ck_host_only : bool;
  ck_path : string;
  ck_http_only : bool
}.

(** [caches]: the names [caches.keys()] resolves to; whether [keys()]
    rejects; the names for which [caches.delete(k)] rejects. *)
Record CacheStorage : Type := mkCacheStorage {
  cache_names : list string;
  keys_rejects : bool;
  delete_rejects : list string
}.

(** [navigator.serviceWorker]: the scopes of the registrations; whether
    [getRegistrations()] rejects; the registrations whose [unregister()]
    rejects. *)
Record ServiceWorkerContainer : Type := mkContainer {
  registrations : list string;
  getRegistrations_rejects : bool;
  unregister_rejects : list string
}.

Inductive NavigatorServiceWorker : Type :=
| SwMissing                                (* navigator has no such property *)
| SwThrows                                 (* the property is there, reading it throws *)
| SwContainer (sc : ServiceWorkerContainer).

(** [indexedDB]: the names [indexedDB.databases()] resolves to, and
    whether it rejects. *)
Record IDBFactory : Type := mkFactory {
  database_names : list string;
  databases_rejects : bool
}.

Inductive GlobalIndexedDB : Type :=
| IdbMissing                               (* evaluating [indexedDB.databases] throws:
                                              no such global, null, or a throwing getter *)
| IdbNoDatabases                           (* a factory without a [databases] method *)
| IdbFactory (f : IDBFactory).

(** [navigator.storage?.estimate]. *)
Inductive StorageManager : Type :=
| EstMissing                               (* no [navigator.storage], or no [estimate] in it *)
| EstRejects                               (* [estimate()] is there and rejects *)
| EstValue (usage quota : nat).

Record Host : Type := mkHost {
  localStorage : option (list (string * string));   (* None: touching it throws *)
  sessionStorage : option (list (string * string)); (* None: touching it throws *)
  caches : option CacheStorage;                     (* None: no "caches" in window *)
  serviceWorker : NavigatorServiceWorker;
  indexedDB : GlobalIndexedDB;
  cookie : option (list Cookie);                    (* None: document.cookie throws *)
  storage : StorageManager;
  hostname : string;                                (* location.hostname *)
  pathname : string                                 (* location.pathname *)
}.

(** The part of the document the script reads and writes: whether the
    overlay [o] is in the document (only then [d.getElementById] finds
    its elements), the ids whose element, as [d.getElementById] finds
    it, is checked, and the [innerHTML] of [#stats] and [#out]. *)
Record Dom : Type := mkDom {
  attached : bool;
  checked : list string;
  stats_innerHTML : string;
  out_innerHTML : string
}.

Definition set_stats (html : string) (d : Dom) : Dom :=
  mkDom (attached d) (checked d) html (out_innerHTML d).

Definition set_out (html : string) (d : Dom) : Dom :=
  mkDom (attached d) (checked d) (stats_innerHTML d) html.

(** What the script asks of the host, in the order it asks. *)
Inductive Call : Type :=
| Storage_keys (a : Area)                  (* Object.keys(localStorage) *)
| Storage_length (a : Area)                (* localStorage.length *)
| Storage_clear (a : Area)                 (* localStorage.clear() *)
| Caches_keys                              (* caches.keys() *)
| Caches_delete (k : string)               (* caches.delete(k) *)
| Sw_getRegistrations                      (* navigator.serviceWorker.getRegistrations() *)
| Sw_unregister (r : string)               (* r.unregister() *)
| Idb_databases                            (* indexedDB.databases() *)
| Cookie_get                               (* document.cookie *)
| Cookie_set (v : string)                  (* document.cookie = v *)
| Storage_estimate.                        (* navigator.storage.estimate() *)

Record World : Type := mkWorld {
  host : Host;
  dom : Dom;
  trace : list Call
}.

Definition set_localStorage (v : option (list (string * string))) (h : Host) : Host :=
  mkHost v (sessionStorage h) (caches h) (serviceWorker h) (indexedDB h)
         (cookie h) (storage h) (hostname h) (pathname h).

Definition set_sessionStorage (v : option (list (string * string))) (h : Host) : Host :=
  mkHost (localStorage h) v (caches h) (serviceWorker h) (indexedDB h)
         (cookie h) (storage h) (hostname h) (pathname h).

Definition set_caches (v : option CacheStorage) (h : Host) : Host :=
  mkHost (localStorage h) (sessionStorage h) v (serviceWorker h) (indexedDB h)
         (cookie h) (storage h) (hostname h) (pathname h).

Definition set_serviceWorker (v : NavigatorServiceWorker) (h : Host) : Host :=
  mkHost (localStorage h) (sessionStorage h) (caches h) v (indexedDB h)
         (cookie h) (storage h) (hostname h) (pathname h).

Definition set_cookie (v : option (list Cookie)) (h : Host) : Host :=
  mkHost (localStorage h) (sessionStorage h) (caches h) (serviceWorker h)
         (indexedDB h) v (storage h) (hostname h) (pathname h).

Definition set_host (h : Host) (w : World) : World := mkWorld h (dom w) (trace w).

Definition set_dom (d : Dom) (w : World) : World := mkWorld (host w) d (trace w).

Definition log_call (c : Call) (w : World) : World :=
  mkWorld (host w) (dom w) (trace w ++ [c])%list.

(** [w] with more calls in its trace. *)
Definition logged (calls : list Call) (w : World) : World :=
  mkWorld (host w) (dom w) (trace w ++ calls)%list.

Definition area (a : Area) (h : Host) : option (list (string * string)) :=
  match a with Local => localStorage h | Session => sessionStorage h end.

Definition set_area (a : Area) (v : option (list (string * string))) (h : Host) : Host :=
  match a with Local => set_localStorage v h | Session => set_sessionStorage v h end.

(* --------------------------------------------------------------------- *)
(** *** The cookie jar behind [document.cookie] (RFC 6265)                *)
(* --------------------------------------------------------------------- *)

Definition ends_with (suffix s : string) : bool :=
  let ls := String.length s in
  let lf := String.length suffix in
  Nat.leb lf ls && String.eqb (substring (ls - lf) lf s) suffix.

(** Section 5.1.3: the host is the domain, or a subdomain of it. *)
Definition domain_matches (hostname domain : string) : bool :=
  String.eqb hostname domain || ends_with ("." ++ domain) hostname.

(** Section 5.1.4: the cookie path is the request path, or a prefix of it
    that ends at a ["/"]. *)
Definition path_matches (request cookie_path : string) : bool :=
  String.eqb request cookie_path
  || (prefix cookie_path request
      && (ends_with "/" cookie_path
          || match get (String.length cookie_path) request with
             | Some a => Ascii.eqb a "/"
             | None => false
             end)).

(** Section 5.1.4: the default path of a cookie set without one. *)
Definition default_path (pathname : string) : string :=
  match join "/" (removelast (split "/" pathname)) with
  | EmptyString => "/"
  | p => p
  end.

(** The cookies a script of this page sees: those of the host and the
    path of the page that are not http-only. *)
Definition visible (hostname pathname : string) (c : Cookie) : bool :=
  negb (ck_http_only c)
  && (if ck_host_only c then String.eqb hostname (ck_domain c)
      else domain_matches hostname (ck_domain c))
  && path_matches pathname (ck_path c).

Definition cookie_pair (c : Cookie) : string :=
  if truthy (ck_name c) then ck_name c ++ "=" ++ ck_value c else ck_value c.

(** Section 5.4, step 2: cookies with longer paths are listed before
    cookies with shorter paths, and among cookies with paths of the same
    length the ones created earlier come first.  [c] was created before
    the cookies of [sorted]. *)
Fixpoint insert_by_path (c : Cookie) (sorted : list Cookie) : list Cookie :=
  match sorted with
  | [] => [c]
  | d :: rest =>
      if Nat.ltb (String.length (ck_path c)) (String.length (ck_path d))
      then d :: insert_by_path c rest
      else c :: sorted
  end.

Fixpoint by_path_length (cookies : list Cookie) : list Cookie :=
  match cookies with
  | [] => []
  | c :: later => insert_by_path c (by_path_length later)
  end.

(** The string the getter of [document.cookie] returns. *)
Definition cookie_string (hostname pathname : string) (jar : list Cookie) : string :=
  join "; " (map cookie_pair (by_path_length (filter (visible hostname pathname) jar))).

(** [s] cut at the first [sep]: what is before it, and what is after it
    when there is one. *)
Fixpoint cut (sep : ascii) (s : string) : string * option string :=
  match s with
  | EmptyString => (EmptyString, None)
  | String a s' =>
      if Ascii.eqb a sep then (EmptyString, Some s')
      else let (before, after) := cut sep s' in (String a before, after)
  end.

(** A parsed assignment to [document.cookie]. *)
Record SetCookie : Type := mkSetCookie {
  sc_name : string;
  sc_value : string;
  sc_expired : bool;
  sc_path : option string;
  sc_domain : option string
}.

(** The only date the script writes, and it is in the past. *)
Definition epoch : string := "Thu, 01 Jan 1970 00:00:00 GMT".

Definition strip_dot (s : string) : string :=
  match s with
  | String a s' => if Ascii.eqb a "." then s' else s
  | EmptyString => EmptyString
  end.

(** One attribute ([expires], [path], [domain]) folded into the parse;
    attribute names are matched as the script writes them, in lower
    case, and every date but [epoch] counts as in the future. *)
Definition parse_attribute (sc : SetCookie) (attr : string) : SetCookie :=
  let (key, val) := cut "=" attr in
  let v := match val with Some v => trim v | None => EmptyString end in
  let k := trim key in
  if String.eqb k "expires" then
    mkSetCookie (sc_name sc) (sc_value sc) (String.eqb v epoch) (sc_path sc) (sc_domain sc)
  else if String.eqb k "path" then
    mkSetCookie (sc_name sc) (sc_value sc) (sc_expired sc)
                (if prefix "/" v then Some v else None) (sc_domain sc)
  else if String.eqb k "domain" then
    mkSetCookie (sc_name sc) (sc_value sc) (sc_expired sc) (sc_path sc)
                (if truthy (strip_dot v) then Some (strip_dot v) else None)
  else sc.

(** Section 5.2: the name-value pair, then the attributes. *)
Definition parse_set_cookie (v : string) : SetCookie :=
  match split ";" v with
  | [] => mkSetCookie EmptyString EmptyString false None None
  | nv :: attrs =>
      let (name, value) :=
        match cut "=" nv with
        | (n, Some x) => (trim n, trim x)
        | (x, None) => (EmptyString, trim x)
        end in
      fold_left parse_attribute attrs (mkSetCookie name value false None None)
  end.

(** Section 5.3, step 11: the cookie of the store that a new cookie
    replaces is the one with the same name, domain and path. *)
Definition same_cookie (a b : Cookie) : bool :=
  String.eqb (ck_name a) (ck_name b)
  && String.eqb (ck_domain a) (ck_domain b)
  && String.eqb (ck_path a) (ck_path b).

(** A name that begins with [__Secure-] or [__Host-] asks for the
    [Secure] attribute. *)
Definition protected_name (n : string) : bool :=
  prefix "__Secure-" n || prefix "__Host-" n.

(** [fresh] stored in the place of the cookie it replaces (step 11.3: it
    takes the creation time of the old one), at the end when it replaces
    none. *)
Fixpoint put (fresh : Cookie) (jar : list Cookie) : list Cookie :=
  match jar with
  | [] => [fresh]
  | old :: rest =>
      if same_cookie old fresh
      then fresh :: filter (fun c => negb (same_cookie c fresh)) rest
      else old :: put fresh rest
  end.

(** Section 5.3, for an assignment to [document.cookie] (a non-HTTP
    API).  The assignment is ignored when it has neither name nor value,
    when its name has a protected prefix (no assignment read by
    [parse_attribute] carries [Secure]), when it is for a foreign
    domain, and when the cookie of the same name, domain and path is
    http-only (step 11.2).  Otherwise that cookie is evicted, and the
    new one is stored unless it has expired. *)
Definition store_cookie (hostname pathname : string) (sc : SetCookie) (jar : list Cookie)
  : list Cookie :=
  if negb (truthy (sc_name sc)) && negb (truthy (sc_value sc)) then jar
  else if protected_name (sc_name sc) then jar
  else
    let host_only := match sc_domain sc with Some _ => false | None => true end in
    let domain := match sc_domain sc with Some dm => dm | None => hostname end in
    if negb (domain_matches hostname domain) then jar
    else
      let path := match sc_path sc with Some p => p | None => default_path pathname end in
      let fresh := mkCookie (sc_name sc) (sc_value sc) domain host_only path false in
      if existsb (fun old => same_cookie old fresh && ck_http_only old) jar then jar
      else if sc_expired sc then filter (fun old => negb (same_cookie old fresh)) jar
      else put fresh jar.

(* ===================================================================== *)
(** ** The monad of the script: host state and thrown exceptions          *)
(* ===================================================================== *)

(** How a statement ends: normally with a value, or by a [throw] (for an
    awaited promise: fulfilled, or rejected). *)
Inductive Completion (A : Type) : Type :=
| Normal (a : A)
| Throw.

Arguments Normal {A} a.
Arguments Throw {A}.

Definition JS (A : Type) : Type := World -> Completion A * World.

Definition ret {A : Type} (a : A) : JS A := fun w => (Normal a, w).

Definition throw {A : Type} : JS A := fun w => (Throw, w).

Definition bind {A B : Type} (m : JS A) (k : A -> JS B) : JS B :=
  fun w =>
    match m w with
    | (Normal a, w') => k a w'
    | (Throw, w') => (Throw, w')
    end.

(** [try { body } catch (e) { handler }] *)
Definition try_catch {A : Type} (body handler : JS A) : JS A :=
  fun w =>
    match body w with
    | (Normal a, w') => (Normal a, w')
    | (Throw, w') => handler w'
    end.

Declare Scope js_scope.
Delimit Scope js_scope with js.
Bind Scope js_scope with JS.

Notation "x <- m ;; k" := (bind m (fun x => k))
  (at level 61, m at next level, right associativity) : js_scope.
Notation "m ;; k" := (bind m (fun _ => k))
  (at level 61, right associativity) : js_scope.

Local Open Scope js_scope.

(** [for (const x of xs) { body }]: a throwing iteration ends the loop. *)
Fixpoint for_of {A : Type} (xs : list A) (body : A -> JS unit) : JS unit :=
  match xs with
  | [] => ret tt
  | x :: rest => body x ;; for_of rest body
  end.

(** The calls a run of [m] from [w] adds to the trace. *)
Definition requests {A : Type} (m : JS A) (w : World) : list Call :=
  trace (snd (m (mkWorld (host w) (dom w) []))).

Definition call (c : Call) : JS unit := fun w => (Normal tt, log_call c w).

Definition the_host : JS Host := fun w => (Normal (host w), w).

Definition put_host (h : Host) : JS unit := fun w => (Normal tt, set_host h w).

(* --------------------------------------------------------------------- *)
(** *** The host operations the script uses                               *)
(* --------------------------------------------------------------------- *)

(** The members of [Storage.prototype] and of [Object.prototype].  A
    stored key with the name of one of them is not an own property of
    the storage object: the member of the prototype shadows it. *)
Definition prototype_members : list string :=
  ["length"; "key"; "getItem"; "setItem"; "removeItem"; "clear"; "constructor";
   "hasOwnProperty"; "isPrototypeOf"; "propertyIsEnumerable"; "toLocaleString";
   "toString"; "valueOf"; "__proto__"; "__defineGetter__"; "__defineSetter__";
   "__lookupGetter__"; "__lookupSetter__"].

Definition shadowed (k : string) : bool := existsb (String.eqb k) prototype_members.

(** The keys of the items that are own properties of the storage
    object. *)
Definition own_keys (items : list (string * string)) : list string :=
  filter (fun k => negb (shadowed k)) (map fst items).

(** [Object.keys(localStorage)]: the stored keys that are own properties
    of the object; [localStorage.length] below counts every item. *)
Definition Object_keys (a : Area) : JS (list string) :=
  call (Storage_keys a) ;;
  h <- the_host ;;
  match area a h with
  | Some items => ret (own_keys items)
  | None => throw
  end.

(** [localStorage.length] *)
Definition storage_length (a : Area) : JS nat :=
  call (Storage_length a) ;;
  h <- the_host ;;
  match area a h with
  | Some items => ret (List.length items)
  | None => throw
  end.

(** [localStorage.clear()] *)
Definition storage_clear (a : Area) : JS unit :=
  call (Storage_clear a) ;;
  h <- the_host ;;
  match area a h with
  | Some _ => put_host (set_area a (Some []) h)
  | None => throw
  end.

(** ["caches" in w] *)
Definition caches_in_w : JS bool :=
  h <- the_host ;;
  ret (match caches h with Some _ => true | None => false end).

(** [await caches.keys()] *)
Definition caches_keys : JS (list string) :=
  call Caches_keys ;;
  h <- the_host ;;
  match caches h with
  | Some cs => if keys_rejects cs then throw else ret (cache_names cs)
  | None => throw
  end.

(** [await caches.delete(k)] *)
Definition caches_delete (k : string) : JS unit :=
  call (Caches_delete k) ;;
  h <- the_host ;;
  match caches h with
  | Some cs =>
      if existsb (String.eqb k) (delete_rejects cs) then throw
      else put_host (set_caches
             (Some (mkCacheStorage
                      (filter (fun n => negb (String.eqb n k)) (cache_names cs))
                      (keys_rejects cs) (delete_rejects cs))) h)
  | None => throw
  end.

(** ["serviceWorker" in navigator] *)
Definition serviceWorker_in_navigator : JS bool :=
  h <- the_host ;;
  ret (match serviceWorker h with SwMissing => false | _ => true end).

(** [navigator.serviceWorker]: the container, [undefined], or a throw. *)
Definition navigator_serviceWorker : JS (option ServiceWorkerContainer) :=
  h <- the_host ;;
  match serviceWorker h with
  | SwMissing => ret None
  | SwThrows => throw
  | SwContainer sc => ret (Some sc)
  end.

(** [await navigator.serviceWorker.getRegistrations()] *)
Definition getRegistrations : JS (list string) :=
  call Sw_getRegistrations ;;
  o <- navigator_serviceWorker ;;
  match o with
  | Some sc => if getRegistrations_rejects sc then throw else ret (registrations sc)
  | None => throw
  end.

(** [await r.unregister()] *)
Definition unregister (r : string) : JS unit :=
  call (Sw_unregister r) ;;
  h <- the_host ;;
  match serviceWorker h with
  | SwContainer sc =>
      if existsb (String.eqb r) (unregister_rejects sc) then throw
      else put_host (set_serviceWorker
             (SwContainer (mkContainer
                      (filter (fun n => negb (String.eqb n r)) (registrations sc))
                      (getRegistrations_rejects sc) (unregister_rejects sc))) h)
  | _ => throw
  end.

(** [indexedDB.databases], read as a condition. *)
Definition indexedDB_databases : JS bool :=
  h <- the_host ;;
  match indexedDB h with
  | IdbMissing => throw
  | IdbNoDatabases => ret false
  | IdbFactory _ => ret true
  end.

(** [await indexedDB.databases()] *)
Definition indexedDB_databases_call : JS (list string) :=
  call Idb_databases ;;
  h <- the_host ;;
  match indexedDB h with
  | IdbFactory f => if databases_rejects f then throw else ret (database_names f)
  | _ => throw
  end.

(** [document.cookie], read. *)
Definition document_cookie : JS string :=
  call Cookie_get ;;
  h <- the_host ;;
  match cookie h with
  | Some jar => ret (cookie_string (hostname h) (pathname h) jar)
  | None => throw
  end.

(** [document.cookie = v] *)
Definition set_document_cookie (v : string) : JS unit :=
  call (Cookie_set v) ;;
  h <- the_host ;;
  match cookie h with
  | Some jar => put_host (set_cookie
        (Some (store_cookie (hostname h) (pathname h) (parse_set_cookie v) jar)) h)
  | None => throw
  end.

(** [navigator.storage?.estimate], read as a condition. *)
Definition navigator_storage_estimate : JS bool :=
  h <- the_host ;;
  ret (match storage h with EstMissing => false | _ => true end).

(** [await navigator.storage.estimate()] *)
Definition estimate : JS (nat * nat) :=
  call Storage_estimate ;;
  h <- the_host ;;
  match storage h with
  | EstValue usage quota => ret (usage, quota)
  | _ => throw
  end.

(** [d.getElementById(i).checked]: a TypeError when no element has the
    id, that is when the overlay is not in the document. *)
Definition getElementById_checked (i : string) : JS bool :=
  fun w =>
    if attached (dom w) then (Normal (existsb (String.eqb i) (checked (dom w))), w)
    else (Throw, w).

(** [d.getElementById("stats")]: [true] for the element, [false] for
    [null]. *)
Definition getElementById_stats : JS bool :=
  fun w => (Normal (attached (dom w)), w).

(** [stats.innerHTML = html]: a TypeError on [null]. *)
Definition set_stats_innerHTML (stats : bool) (html : string) : JS unit :=
  fun w =>
    if stats then (Normal tt, set_dom (set_stats html (dom w)) w)
    else (Throw, w).

(** [outDiv.innerHTML = html], with [outDiv = o.querySelector("#out")]
    looked up in the overlay itself. *)
Definition set_out_innerHTML (html : string) : JS unit :=
  fun w => (Normal tt, set_dom (set_out html (dom w)) w).

(* ===================================================================== *)
(** ** The script                                                         *)
(* ===================================================================== *)

(** The object [s] of the script: one count per surface and the storage
    estimate. *)
Record summary : Type := mkSummary {
  ls : nat;
  ss : nat;
  c : nat;
  sw : nat;
  idb : nat;
  ck : nat;
  est : option (nat * nat)
}.

Definition set_ls (n : nat) (s : summary) : summary :=
  mkSummary n (ss s) (c s) (sw s) (idb s) (ck s) (est s).
Definition set_ss (n : nat) (s : summary) : summary :=
  mkSummary (ls s) n (c s) (sw s) (idb s) (ck s) (est s).
Definition set_c (n : nat) (s : summary) : summary :=
  mkSummary (ls s) (ss s) n (sw s) (idb s) (ck s) (est s).
Definition set_sw (n : nat) (s : summary) : summary :=
  mkSummary (ls s) (ss s) (c s) n (idb s) (ck s) (est s).
Definition set_idb (n : nat) (s : summary) : summary :=
  mkSummary (ls s) (ss s) (c s) (sw s) n (ck s) (est s).
Definition set_ck (n : nat) (s : summary) : summary :=
  mkSummary (ls s) (ss s) (c s) (sw s) (idb s) n (est s).
Definition set_est (e : option (nat * nat)) (s : summary) : summary :=
  mkSummary (ls s) (ss s) (c s) (sw s) (idb s) (ck s) e.

(* --------------------------------------------------------------------- *)
(** *** Storage detection (lines 26-96)                                   *)
(* --------------------------------------------------------------------- *)

(** [document.cookie.split(";").filter(c => c.trim()).length] *)
Definition count_segments (cookie : string) : nat :=
  List.length (filter (fun x => truthy (trim x)) (split ";" cookie)).

(** Detect localStorage (lines 36-41) and sessionStorage (lines 43-48). *)
Definition detect_ls (s : summary) : JS summary :=
  try_catch
    (keys <- Object_keys Local ;; ret (set_ls (List.length keys) s))
    (ret s).

Definition detect_ss (s : summary) : JS summary :=
  try_catch
    (keys <- Object_keys Session ;; ret (set_ss (List.length keys) s))
    (ret s).

(** Detect Cache Storage (lines 50-57). *)
Definition detect_c (s : summary) : JS summary :=
  try_catch
    (present <- caches_in_w ;;
     if present : bool
     then keys <- caches_keys ;; ret (set_c (List.length keys) s)
     else ret s)
    (ret s).

(** Detect Service Workers (lines 59-66). *)
Definition detect_sw (s : summary) : JS summary :=
  try_catch
    (present <- serviceWorker_in_navigator ;;
     if present : bool
     then regs <- getRegistrations ;; ret (set_sw (List.length regs) s)
     else ret s)
    (ret s).

(** Detect IndexedDB databases (lines 68-75): the read of
    [indexedDB.databases] is inside the [try]. *)
Definition detect_idb (s : summary) : JS summary :=
  try_catch
    (present <- indexedDB_databases ;;
     if present : bool
     then dbs <- indexedDB_databases_call ;; ret (set_idb (List.length dbs) s)
     else ret s)
    (ret s).

(** Detect cookies (lines 78-87); [document.cookie] is read anew at each
    of its occurrences. *)
Definition detect_ck (s : summary) : JS summary :=
  try_catch
    (c1 <- document_cookie ;;
     cond <- (if truthy c1
              then c2 <- document_cookie ;; ret (truthy (trim c2))
              else ret false) ;;
     if cond : bool
     then c3 <- document_cookie ;; ret (set_ck (count_segments c3) s)
     else ret (set_ck 0 s))
    (ret (set_ck 0 s)).

(** Get storage estimate (lines 89-96). *)
Definition detect_est (s : summary) : JS summary :=
  try_catch
    (present <- navigator_storage_estimate ;;
     if present : bool
     then e <- estimate ;; ret (set_est (Some e) s)
     else ret s)
    (ret s).

Definition detect : JS summary :=
  let s := mkSummary 0 0 0 0 0 0 None in
  s <- detect_ls s ;;
  s <- detect_ss s ;;
  s <- detect_c s ;;
  s <- detect_sw s ;;
  s <- detect_idb s ;;
  s <- detect_ck s ;;
  s <- detect_est s ;;
  ret s.

(* --------------------------------------------------------------------- *)
(** *** Cookie clearing (lines 106-132)                                   *)
(* --------------------------------------------------------------------- *)

Definition expiring (n path : string) : string :=
  n ++ "=; expires=Thu, 01 Jan 1970 00:00:00 GMT; path=" ++ path.

Definition expiring_domain (n path dmn : string) : string :=
  n ++ "=; expires=Thu, 01 Jan 1970 00:00:00 GMT; path=" ++ path ++ "; domain=" ++ dmn.

(** The body of [for (const c of cookies)] (lines 115-130); [continue]
    ends the iteration. *)
Definition clearCookies_body (x : string) : JS unit :=
  let trimmed := trim x in
  if negb (truthy trimmed) then ret tt
  else
    let n := trim (hd "" (split "=" trimmed)) in
    if negb (truthy n) then ret tt
    else
      h <- the_host ;;
      for_of [hostname h; "." ++ hostname h] (fun dmn =>
        h' <- the_host ;;
        let paths := ["/"; pathname h'] in
        for_of paths (fun path =>
          set_document_cookie (expiring_domain n path dmn) ;;
          set_document_cookie (expiring n path))).

Definition clearCookies : JS unit :=
  c1 <- document_cookie ;;
  nothing <- (if negb (truthy c1) then ret true
              else c2 <- document_cookie ;; ret (String.eqb (trim c2) "")) ;;
  if nothing : bool then ret tt
  else
    all <- document_cookie ;;
    let cookies := split ";" all in
    for_of cookies clearCookies_body.

(* --------------------------------------------------------------------- *)
(** *** The overlay (lines 154-164 and 255-261)                           *)
(* --------------------------------------------------------------------- *)

Definition row (a b : string) : string :=
  "<div style=" ++ q "display:flex;justify-content:space-between;margin:6px 0;opacity:.9"
  ++ "><div>" ++ a ++ "</div><div style=" ++ q "opacity:.7" ++ ">" ++ b ++ "</div></div>".

(** [chk(i, l, d, x)]; the numbers [.5] and [1] print as [0.5] and [1]. *)
Definition chk (i l d : string) (x : bool) : string :=
  "<label style=" ++ q ("display:block;margin:12px 0;opacity:" ++ (if x then "0.5" else "1"))
  ++ "><input type=" ++ q "checkbox" ++ " id=" ++ q i ++ " "
  ++ (if x then "disabled" else "") ++ " style=" ++ q "margin-right:8px"
  ++ "><strong>" ++ l ++ "</strong><div style="
  ++ q "font-size:13px;opacity:.75;margin-left:22px" ++ ">" ++ d ++ "</div></label>".

(** The checkbox options of the overlay, in the order of the template. *)
Definition checkbox_options (s : summary) : list string :=
  [ chk "l" "Clear localStorage" "Small saved values used by the site." (ls s =? 0)%nat;
    chk "s" "Clear sessionStorage" "Temporary tab memory." (ss s =? 0)%nat;
    chk "c" "Delete Cache Storage" "Stored network responses." (c s =? 0)%nat;
    chk "w" "Unregister service workers"
        "Background logic that can keep old behavior." (sw s =? 0)%nat;
    chk "k" "Attempt to clear cookies"
        "Only cookies browsers allow scripts to remove." (ck s =? 0)%nat ].

(* --------------------------------------------------------------------- *)
(** *** Stats update (lines 324-389)                                      *)
(* --------------------------------------------------------------------- *)

(** The six counts in the order of the rows of [#stats]. *)
Record Counts : Type := mkCounts {
  lsCount : nat;
  ssCount : nat;
  cachesCount : nat;
  swCount : nat;
  idbCount : nat;
  cookieCount : nat
}.

Definition stats_rows (n : Counts) : string :=
  row "localStorage items" (number_to_string (lsCount n)) ++
  row "sessionStorage items" (number_to_string (ssCount n)) ++
  row "Cache Storage entries" (number_to_string (cachesCount n)) ++
  row "Service workers" (number_to_string (swCount n)) ++
  row "IndexedDB databases" (number_to_string (idbCount n)) ++
  row "Cookies (visible)" (number_to_string (cookieCount n)).

(** [cachesCount] (lines 325-336): the presence test is outside the
    [try]. *)
Definition updateStats_cachesCount : JS nat :=
  present <- caches_in_w ;;
  if present : bool
  then try_catch (keys <- caches_keys ;; ret (List.length keys)) (ret 0)
  else ret 0.

(** [swCount] (lines 326-345): [navigator.serviceWorker] is read outside
    the [try]. *)
Definition updateStats_swCount : JS nat :=
  container <- navigator_serviceWorker ;;
  match container with
  | Some _ => try_catch (regs <- getRegistrations ;; ret (List.length regs)) (ret 0)
  | None => ret 0
  end.

(** [idbCount] (lines 327-354): [indexedDB.databases] is read outside the
    [try]. *)
Definition updateStats_idbCount : JS nat :=
  present <- indexedDB_databases ;;
  if present : bool
  then try_catch (dbs <- indexedDB_databases_call ;; ret (List.length dbs)) (ret 0)
  else ret 0.

(** [lsCount] and [ssCount] (lines 358-372). *)
Definition updateStats_storageCount (a : Area) : JS nat :=
  try_catch (storage_length a) (ret 0).

(** [cookieCount] (lines 360-380). *)
Definition updateStats_cookieCount : JS nat :=
  try_catch
    (c1 <- document_cookie ;;
     cond <- (if truthy c1
              then c2 <- document_cookie ;; ret (truthy (trim c2))
              else ret false) ;;
     if cond : bool
     then c3 <- document_cookie ;; ret (count_segments c3)
     else ret 0)
    (ret 0).

Definition updateStats : JS unit :=
  cachesCount <- updateStats_cachesCount ;;
  swCount <- updateStats_swCount ;;
  idbCount <- updateStats_idbCount ;;
  stats <- getElementById_stats ;;
  lsCount <- updateStats_storageCount Local ;;
  ssCount <- updateStats_storageCount Session ;;
  cookieCount <- updateStats_cookieCount ;;
  set_stats_innerHTML stats
    (stats_rows (mkCounts lsCount ssCount cachesCount swCount idbCount cookieCount)).

(* --------------------------------------------------------------------- *)
(** *** The handler of the "Clear selected" button (lines 402-471)        *)
(* --------------------------------------------------------------------- *)

Definition push (log : list string) (line : string) : list string := (log ++ [line])%list.

Definition no_items : string :=
  "<div style='margin-top:8px;opacity:.7'>No items selected for clearing.</div>".

Definition results (log : list string) : string :=
  "<div style='margin-top:8px'><strong>Results:</strong><br>"
  ++ join "<br>" (map (fun x => "• " ++ x) log) ++ "</div>".

(** Clear localStorage / sessionStorage if selected (lines 405-423). *)
Definition clear_area (i : string) (a : Area) (cleared failed : string)
    (log : list string) : JS (list string) :=
  sel <- getElementById_checked i ;;
  if sel : bool
  then try_catch (storage_clear a ;; ret (push log cleared))
                 (ret (push log failed))
  else ret log.

(** Clear Cache Storage if selected (lines 425-435). *)
Definition clear_caches (log : list string) : JS (list string) :=
  sel <- getElementById_checked "c" ;;
  if sel : bool
  then try_catch (keys <- caches_keys ;;
                  for_of keys (fun k => caches_delete k) ;;
                  ret (push log "Cache Storage cleared"))
                 (ret (push log "Cache Storage failed"))
  else ret log.

(** Unregister Service Workers if selected (lines 437-447). *)
Definition clear_serviceWorkers (log : list string) : JS (list string) :=
  sel <- getElementById_checked "w" ;;
  if sel : bool
  then try_catch (regs <- getRegistrations ;;
                  for_of regs (fun r => unregister r) ;;
                  ret (push log "Service workers unregistered"))
                 (ret (push log "Service workers failed"))
  else ret log.

(** Clear cookies if selected (lines 449-457). *)
Definition clear_cookies (log : list string) : JS (list string) :=
  sel <- getElementById_checked "k" ;;
  if sel : bool
  then try_catch (clearCookies ;; ret (push log "Cookie cleanup attempted"))
                 (ret (push log "Cookie cleanup failed"))
  else ret log.

(** The five guarded blocks in the order of the handler; the value is
    [log]. *)
Definition clear_selected : JS (list string) :=
  log <- clear_area "l" Local "localStorage cleared" "localStorage failed" [] ;;
  log <- clear_area "s" Session "sessionStorage cleared" "sessionStorage failed" log ;;
  log <- clear_caches log ;;
  log <- clear_serviceWorkers log ;;
  log <- clear_cookies log ;;
  ret log.

(** What the handler writes into [#out] (lines 459-467). *)
Definition out_message (log : list string) : string :=
  if (List.length log =? 0)%nat then no_items else results log.

Definition run_onclick : JS unit :=
  log <- clear_selected ;;
  set_out_innerHTML (out_message log) ;;
  updateStats.

(* ===================================================================== *)
(** ** Vocabulary of the statements                                       *)
(* ===================================================================== *)

(** The six storage surfaces the script knows. *)
Inductive Surface : Type :=
| SurfLocal | SurfSession | SurfCaches | SurfWorkers | SurfIdb | SurfCookies.

(** The surfaces the handler has a clearing block for. *)
Definition clearable : list Surface :=
  [SurfLocal; SurfSession; SurfCaches; SurfWorkers; SurfCookies].

(** The id the handler looks a surface's checkbox up with. *)
Definition checkbox_id (x : Surface) : option string :=
  match x with
  | SurfLocal => Some "l"
  | SurfSession => Some "s"
  | SurfCaches => Some "c"
  | SurfWorkers => Some "w"
  | SurfCookies => Some "k"
  | SurfIdb => None
  end.

Definition surface_of (a : Area) : Surface :=
  match a with Local => SurfLocal | Session => SurfSession end.

Definition is_checked (d : Dom) (i : string) : bool :=
  existsb (String.eqb i) (checked d).

Definition selected (d : Dom) (x : Surface) : bool :=
  match checkbox_id x with
  | Some i => is_checked d i
  | None => false
  end.

(** What a surface holds, as the host stores it. *)
Inductive Content : Type :=
| InArea (v : option (list (string * string)))
| InCaches (v : option CacheStorage)
| InWorkers (v : NavigatorServiceWorker)
| InIdb (v : GlobalIndexedDB)
| InJar (v : option (list Cookie)).

Definition content (h : Host) (x : Surface) : Content :=
  match x with
  | SurfLocal => InArea (localStorage h)
  | SurfSession => InArea (sessionStorage h)
  | SurfCaches => InCaches (caches h)
  | SurfWorkers => InWorkers (serviceWorker h)
  | SurfIdb => InIdb (indexedDB h)
  | SurfCookies => InJar (cookie h)
  end.

Definition rejected (k : string) (rejects : list string) : bool :=
  existsb (String.eqb k) rejects.

(** Whether the clearing of a surface throws in this host: the storage
    area cannot be touched; [caches] is missing, [keys()] rejects or the
    [delete] of one of the names does; likewise for the registrations;
    [document.cookie] throws. *)
Definition clear_fails (h : Host) (x : Surface) : bool :=
  match x with
  | SurfLocal => match localStorage h with Some _ => false | None => true end
  | SurfSession => match sessionStorage h with Some _ => false | None => true end
  | SurfCaches =>
      match caches h with
      | Some cs => keys_rejects cs
                   || existsb (fun k => rejected k (delete_rejects cs)) (cache_names cs)
      | None => true
      end
  | SurfWorkers =>
      match serviceWorker h with
      | SwContainer sc => getRegistrations_rejects sc
                          || existsb (fun r => rejected r (unregister_rejects sc))
                                     (registrations sc)
      | _ => true
      end
  | SurfCookies => match cookie h with Some _ => false | None => true end
  | SurfIdb => false
  end.

(** The clearing of a surface as the handler's block does it, without
    the bookkeeping of the log: what [clear_fails] speaks of. *)
Definition clear_operation (x : Surface) : JS unit :=
  match x with
  | SurfLocal => storage_clear Local
  | SurfSession => storage_clear Session
  | SurfCaches => keys <- caches_keys ;; for_of keys (fun k => caches_delete k)
  | SurfWorkers => regs <- getRegistrations ;; for_of regs (fun r => unregister r)
  | SurfCookies => clearCookies
  | SurfIdb => ret tt
  end.

(** The count the cookie probes compute from a cookie string. *)
Definition guarded_count (cookie : string) : nat :=
  if truthy cookie && truthy (trim cookie) then count_segments cookie else 0.

(** The number of entries a probe of [updateStats] finds in the
    surface, 0 when the surface cannot be probed. *)
Definition entries (h : Host) (x : Surface) : nat :=
  match x with
  | SurfLocal => match localStorage h with Some items => List.length items | None => 0 end
  | SurfSession => match sessionStorage h with Some items => List.length items | None => 0 end
  | SurfCaches =>
      match caches h with
      | Some cs => if keys_rejects cs then 0 else List.length (cache_names cs)
      | None => 0
      end
  | SurfWorkers =>
      match serviceWorker h with
      | SwContainer sc =>
          if getRegistrations_rejects sc then 0 else List.length (registrations sc)
      | _ => 0
      end
  | SurfIdb =>
      match indexedDB h with
      | IdbFactory f => if databases_rejects f then 0 else List.length (database_names f)
      | _ => 0
      end
  | SurfCookies =>
      match cookie h with
      | Some jar => guarded_count (cookie_string (hostname h) (pathname h) jar)
      | None => 0
      end
  end.

(** The number of entries the initial detection finds.  For the two
    storage areas it counts [Object.keys], which leaves out the stored
    keys a member of the prototype shadows; for the other surfaces its
    probe is the probe of [updateStats]. *)
Definition listed (h : Host) (x : Surface) : nat :=
  match x with
  | SurfLocal =>
      match localStorage h with Some items => List.length (own_keys items) | None => 0 end
  | SurfSession =>
      match sessionStorage h with Some items => List.length (own_keys items) | None => 0 end
  | _ => entries h x
  end.

(** The field of [s] for a surface, and the row of [#stats] for it. *)
Definition detected (s : summary) (x : Surface) : nat :=
  match x with
  | SurfLocal => ls s
  | SurfSession => ss s
  | SurfCaches => c s
  | SurfWorkers => sw s
  | SurfIdb => idb s
  | SurfCookies => ck s
  end.

Definition displayed (n : Counts) (x : Surface) : nat :=
  match x with
  | SurfLocal => lsCount n
  | SurfSession => ssCount n
  | SurfCaches => cachesCount n
  | SurfWorkers => swCount n
  | SurfIdb => idbCount n
  | SurfCookies => cookieCount n
  end.

Definition counts_of (h : Host) : Counts :=
  mkCounts (entries h SurfLocal) (entries h SurfSession) (entries h SurfCaches)
           (entries h SurfWorkers) (entries h SurfIdb) (entries h SurfCookies).

(** The status line of a surface. *)
Definition status_line (x : Surface) (failed : bool) : string :=
  match x, failed with
  | SurfLocal, false => "localStorage cleared"
  | SurfLocal, true => "localStorage failed"
  | SurfSession, false => "sessionStorage cleared"
  | SurfSession, true => "sessionStorage failed"
  | SurfCaches, false => "Cache Storage cleared"
  | SurfCaches, true => "Cache Storage failed"
  | SurfWorkers, false => "Service workers unregistered"
  | SurfWorkers, true => "Service workers failed"
  | SurfCookies, false => "Cookie cleanup attempted"
  | SurfCookies, true => "Cookie cleanup failed"
  | SurfIdb, _ => ""
  end.

(** One line per selected surface, in the order of the handler. *)
Definition status_lines (h : Host) (d : Dom) : list string :=
  flat_map (fun x => if selected d x then [status_line x (clear_fails h x)] else [])
           clearable.

(** [s.includes(pat)] *)
Fixpoint includes (pat s : string) : bool :=
  prefix pat s
  || match s with
     | EmptyString => false
     | String _ s' => includes pat s'
     end.

(** What follows the first occurrence of [pat] in [s]. *)
Fixpoint after (pat s : string) : option string :=
  if prefix pat s then Some (substring (String.length pat) (String.length s) s)
  else match s with
       | EmptyString => None
       | String _ s' => after pat s'
       end.

(** The attributes of the first [<input>] tag of an HTML fragment whose
    attribute values hold no space. *)
Definition input_attributes (html : string) : list string :=
  match after "<input " html with
  | Some rest => split " " (fst (cut ">" rest))
  | None => []
  end.

(** The checkbox is rendered with the [disabled] attribute. *)
Definition input_disabled (html : string) : bool :=
  existsb (String.eqb "disabled") (input_attributes html).

(** The value of the [id] attribute of the checkbox. *)
Definition input_id (html : string) : option string :=
  match filter (prefix "id=") (input_attributes html) with
  | a :: _ => Some (substring 4 (String.length a - 5) a)
  | [] => None
  end.

(** A segment with a character that is not white space. *)
Definition has_ink (s : string) : bool :=
  existsb (fun a => negb (is_whitespace a)) (list_ascii_of_string s).

(** The cookie count in the words of the specification: the number of
    [";"]-separated segments that contain a character that is not white
    space.  One pass over the string; [ink] tells whether the segment
    being read has shown such a character. *)
Fixpoint scan_segments (ink : bool) (s : string) : nat :=
  match s with
  | EmptyString => if ink then 1 else 0
  | String a s' =>
      if Ascii.eqb a ";" then (if ink then 1 else 0) + scan_segments false s'
      else scan_segments (ink || negb (is_whitespace a)) s'
  end.

Definition nonblank_segments (cookie : string) : nat := scan_segments false cookie.

(** The cookie name [clearCookies] finds in a segment of the cookie
    string: what is before the first ["="], trimmed. *)
Definition cookie_name (x : string) : string := trim (fst (cut "=" (trim x))).

Definition cookie_names (cookie : string) : list string :=
  map cookie_name (split ";" cookie).

(** The eight assignments to [document.cookie] for one name: for each
    domain variant and each path variant, one with and one without the
    [domain] attribute. *)
Definition expiring_writes (hostname pathname n : string) : list string :=
  flat_map (fun dmn =>
    flat_map (fun path => [expiring_domain n path dmn; expiring n path])
             ["/"; pathname])
    [hostname; "." ++ hostname].

(** The names [for (const k of keys) await caches.delete(k)] leaves, the
    loop stopping at the first name whose deletion is rejected; the same
    for registrations. *)
Fixpoint delete_each (rejects ks names : list string) : list string :=
  match ks with
  | [] => names
  | k :: rest =>
      if rejected k rejects then names
      else delete_each rejects rest (filter (fun n => negb (String.eqb n k)) names)
  end.

(** The names the loop reaches: up to the first rejected one. *)
Fixpoint until_rejected (rejects ks : list string) : list string :=
  match ks with
  | [] => []
  | k :: rest => if rejected k rejects then [k] else k :: until_rejected rejects rest
  end.

(** What [clearCookies] assigns to [document.cookie], in order. *)
Definition cookie_writes (hostname pathname cookie : string) : list string :=
  flat_map (expiring_writes hostname pathname) (filter truthy (cookie_names cookie)).

Definition store_all (hostname pathname : string) (writes : list string)
    (jar : list Cookie) : list Cookie :=
  fold_left (fun j v => store_cookie hostname pathname (parse_set_cookie v) j) writes jar.

(** The host after the clearing block of a surface has run. *)
Definition cleared (h : Host) (x : Surface) : Host :=
  match x with
  | SurfLocal =>
      match localStorage h with Some _ => set_localStorage (Some []) h | None => h end
  | SurfSession =>
      match sessionStorage h with Some _ => set_sessionStorage (Some []) h | None => h end
  | SurfCaches =>
      match caches h with
      | Some cs =>
          if keys_rejects cs then h
          else set_caches
                 (Some (mkCacheStorage
                          (delete_each (delete_rejects cs) (cache_names cs) (cache_names cs))
                          (keys_rejects cs) (delete_rejects cs))) h
      | None => h
      end
  | SurfWorkers =>
      match serviceWorker h with
      | SwContainer sc =>
          if getRegistrations_rejects sc then h
          else set_serviceWorker
                 (SwContainer (mkContainer
                          (delete_each (unregister_rejects sc) (registrations sc)
                                       (registrations sc))
                          (getRegistrations_rejects sc) (unregister_rejects sc))) h
      | _ => h
      end
  | SurfCookies =>
      match cookie h with
      | Some jar =>
          let s := cookie_string (hostname h) (pathname h) jar in
          if truthy (trim s)
          then set_cookie
                 (Some (store_all (hostname h) (pathname h)
                                  (cookie_writes (hostname h) (pathname h) s) jar)) h
          else h
      | None => h
      end
  | SurfIdb => h
  end.

(** The calls of the clearing block of a surface. *)
Definition clear_calls (h : Host) (x : Surface) : list Call :=
  match x with
  | SurfLocal => [Storage_clear Local]
  | SurfSession => [Storage_clear Session]
  | SurfCaches =>
      Caches_keys ::
      match caches h with
      | Some cs =>
          if keys_rejects cs then []
          else map Caches_delete (until_rejected (delete_rejects cs) (cache_names cs))
      | None => []
      end
  | SurfWorkers =>
      Sw_getRegistrations ::
      match serviceWorker h with
      | SwContainer sc =>
          if getRegistrations_rejects sc then []
          else map Sw_unregister (until_rejected (unregister_rejects sc) (registrations sc))
      | _ => []
      end
  | SurfCookies =>
      Cookie_get ::
      match cookie h with
      | Some jar =>
          let s := cookie_string (hostname h) (pathname h) jar in
          if truthy s then
            Cookie_get ::
            (if truthy (trim s)
             then Cookie_get :: map Cookie_set (cookie_writes (hostname h) (pathname h) s)
             else [])
          else []
      | None => []
      end
  | SurfIdb => []
  end.

(** The selected surfaces cleared one after the other, in the order of
    the handler. *)
Definition after_clear (d : Dom) (h : Host) : Host :=
  fold_left (fun h' x => if selected d x then cleared h' x else h') clearable h.

Definition all_clear_calls (d : Dom) (h : Host) : list Call :=
  flat_map (fun x => if selected d x then clear_calls h x else []) clearable.

(** [m] does nothing but assign the strings [vs], in order, to
    [document.cookie], on a page at [hn], [pn] whose cookies can be
    touched. *)
Definition writes_as (hn pn : string) (m : JS unit) (vs : list string) : Prop :=
  forall w jar,
    cookie (host w) = Some jar ->
    hostname (host w) = hn ->
    pathname (host w) = pn ->
    m w = (Normal tt,
           logged (map Cookie_set vs)
             (set_host (set_cookie (Some (store_all hn pn vs jar)) (host w)) w)).

(** The two reads [updateStats] makes outside of any [try]:
    [navigator.serviceWorker] and [indexedDB.databases]. *)
Definition unguarded_read_throws (h : Host) : bool :=
  match serviceWorker h with SwThrows => true | _ => false end
  || match indexedDB h with IdbMissing => true | _ => false end.


(* --------------------------------------------------------------------- *)
(** *** A page to run the script on                                       *)
(* --------------------------------------------------------------------- *)

(** [https://example.com/app/page]: two localStorage items, one
    sessionStorage item, two caches, one service worker, one IndexedDB
    database, and two cookies: [sid], set for the path [/app], and
    [theme], set for the path [/]. *)
Definition example_host : Host :=
  mkHost (Some [("a", "1"); ("b", "2")])
         (Some [("tab", "x")])
         (Some (mkCacheStorage ["v1"; "v2"] false []))
         (SwContainer (mkContainer ["/"] false []))
         (IdbFactory (mkFactory ["db1"] false))
         (Some [mkCookie "sid" "42" "example.com" true "/app" false;
                mkCookie "theme" "dark" "example.com" true "/" false])
         (EstValue 1024 4096)
         "example.com" "/app/page".

(** The page with the overlay in the document and the checkboxes [ids]
    checked. *)
Definition example_world (ids : list string) : World :=
  mkWorld example_host (mkDom true ids "" "") [].

(** The same page in a browser context without [indexedDB]. *)
Definition without_indexedDB (w : World) : World :=
  mkWorld (mkHost (localStorage (host w)) (sessionStorage (host w)) (caches (host w))
                  (serviceWorker (host w)) IdbMissing (cookie (host w))
                  (storage (host w)) (hostname (host w)) (pathname (host w)))
          (dom w) (trace w).

(* ===================================================================== *)
(** ** The rest of the overlay: instructions and checkbox options         *)
(* ===================================================================== *)

(* The decimal rendering of a count and its inverse. *)
From Stdlib Require Import DecimalNat.

(* --------------------------------------------------------------------- *)
(** *** [getBrowserInstructions]                                          *)
(* --------------------------------------------------------------------- *)

(** The function reads [navigator.userAgent] and tests it with regular
    expressions that are alternations of plain words under the [i]
    flag: such a test succeeds exactly when one of the words occurs in
    the string, letter case apart.  The user agent is a parameter here.
    Only the letters A-Z have a counterpart of the other case among the
    words, so lower-casing those on both sides is the comparison the
    flag makes. *)
Definition to_lower (a : ascii) : ascii :=
  let n := N_of_ascii a in
  if ((65 <=? n) && (n <=? 90))%N then ascii_of_N (n + 32) else a.

Fixpoint lower (s : string) : string :=
  match s with
  | EmptyString => EmptyString
  | String a s' => String (to_lower a) (lower s')
  end.

(** [/w1|w2|...|wn/i.test(s)] *)
Definition test_i (words : list string) (s : string) : bool :=
  existsb (fun word => includes (lower word) (lower s)) words.

(* The four texts, as the template literals of the source give them:
   each starts and ends with a line break; a character above 255, the
   arrow, stands as its UTF-8 bytes. *)

(** The text for Chrome-based browsers. *)
Definition chrome_instructions : string :=
  "
<strong>Chrome/Edge/Brave:</strong>
1. Right-click anywhere on the page
2. Select " ++ q "Inspect" ++ " (or press F12)
3. Click the " ++ q "Application" ++ " tab at the top
4. In the left sidebar, find " ++ q "Storage" ++ "
5. Click " ++ q "Clear site data" ++ " button at the top
6. Or manually clear:
   - Cookies: Expand " ++ q "Cookies" ++ " → Right-click domain → " ++ q "Clear" ++ "
   - Cache Storage: Expand " ++ q "Cache Storage" ++ " → Right-click each entry → " ++ q "Delete" ++ "
   - Local Storage: Expand " ++ q "Local Storage" ++ " → Right-click domain → " ++ q "Clear" ++ "
   - IndexedDB: Expand " ++ q "IndexedDB" ++ " → Right-click database → " ++ q "Delete Database" ++ "
".

(** The text for Firefox. *)
Definition firefox_instructions : string :=
  "
<strong>Firefox:</strong>
1. Right-click anywhere on the page
2. Select " ++ q "Inspect" ++ " (or press F12)
3. Click the " ++ q "Storage" ++ " tab at the top
4. Expand each section and right-click to delete:
   - Cookies: Right-click cookie → " ++ q "Delete" ++ "
   - Cache Storage: Right-click cache → " ++ q "Delete" ++ "
   - Local Storage: Right-click domain → " ++ q "Delete All" ++ "
   - IndexedDB: Right-click database → " ++ q "Delete Database" ++ "
5. Or use: Menu → Settings → Privacy → Cookies and Site Data → " ++ q "Clear Data" ++ "
".

(** The text for Safari. *)
Definition safari_instructions : string :=
  "
<strong>Safari:</strong>
1. Enable Developer menu: Safari → Settings → Advanced → " ++ q "Show features for web developers" ++ "
2. Right-click on the page → " ++ q "Inspect Element" ++ "
3. Click the " ++ q "Storage" ++ " tab
4. Expand sections and delete items:
   - Cookies: Right-click → " ++ q "Delete" ++ "
   - Local Storage: Right-click → " ++ q "Delete All" ++ "
   - IndexedDB: Right-click → " ++ q "Delete Database" ++ "
5. Or use: Safari → Settings → Privacy → " ++ q "Manage Website Data" ++ " → Remove site
".

(** The text for any other browser. *)
Definition general_instructions : string :=
  "
<strong>General Instructions:</strong>
1. Right-click on the page and select " ++ q "Inspect" ++ " or " ++ q "Inspect Element" ++ "
2. Look for tabs like " ++ q "Application" ++ ", " ++ q "Storage" ++ ", or " ++ q "Debugger" ++ "
3. Find sections for Cookies, Cache, Local Storage, and IndexedDB
4. Right-click on items to delete them
5. Or use your browser's settings menu to clear site data
".

Definition getBrowserInstructions (ua : string) : string :=
  let isChrome :=
    test_i ["Chrome"; "Chromium"; "Brave"; "Edg"; "Opera"] ua
    && negb (test_i ["Firefox"; "Safari"] ua) in
  let isFirefox := test_i ["Firefox"] ua in
  let isSafari :=
    test_i ["Safari"] ua
    && negb (test_i ["Chrome"; "Chromium"; "Edg"; "Firefox"] ua) in
  if isChrome then chrome_instructions
  else if isFirefox then firefox_instructions
  else if isSafari then safari_instructions
  else general_instructions.

(* --------------------------------------------------------------------- *)
(** *** The checkbox options as the script renders them                   *)
(* --------------------------------------------------------------------- *)

(** The script detects (lines 26-96) and then renders the options from
    the summary (lines 255-261). *)
Definition overlay_options : JS (list string) :=
  s <- detect ;;
  ret (checkbox_options s).

(* --------------------------------------------------------------------- *)
(** *** Vocabulary of the further properties                              *)
(* --------------------------------------------------------------------- *)

(** [s] does not contain the character [a]. *)
Fixpoint lacks (a : ascii) (s : string) : bool :=
  match s with
  | EmptyString => true
  | String b s' => negb (Ascii.eqb b a) && lacks a s'
  end.

(** [s] has no white space at either end. *)
Definition trimmed (s : string) : bool := String.eqb (trim s) s.

(** A cookie name as servers set them: not empty, no white space around
    it, neither [";"] nor ["="] in it. *)
Definition plain_name (n : string) : bool :=
  truthy n && trimmed n && lacks ";" n && lacks "=" n.

(** A host name is not empty and has no white space around it, no [";"]
    and no leading dot; a path starts with ["/"] and has no white space
    around it; the script can only name a path without [";"] in an
    assignment to [document.cookie]. *)
Definition plain_hostname (hn : string) : bool :=
  truthy hn && trimmed hn && lacks ";" hn && negb (prefix "." hn).

Definition plain_path (p : string) : bool :=
  prefix "/" p && trimmed p && lacks ";" p.

Definition plain_location (h : Host) : bool :=
  plain_hostname (hostname h) && plain_path (pathname h).

(** A cookie with a plain name and a value without [";"]. *)
Definition plain_cookie (c : Cookie) : bool :=
  plain_name (ck_name c) && lacks ";" (ck_value c).

(** A name that begins with [__Secure-] or [__Host-] in some letter
    case.  User agents differ on whether the prefix rule looks at the
    letter case; the jars without such a name are those on which they
    agree. *)
Definition prefix_like (n : string) : bool :=
  prefix "__secure-" (lower n) || prefix "__host-" (lower n).

(** The cookie of the name, domain and path of [c] in the jar is
    http-only. *)
Definition behind_http_only (jar : list Cookie) (c : Cookie) : bool :=
  existsb (fun old => same_cookie old c && ck_http_only old) jar.

(** The cookies the platform keeps whatever a script assigns: those
    with a protected name, and those behind an http-only cookie. *)
Definition kept_by_platform (jar : list Cookie) (c : Cookie) : bool :=
  protected_name (ck_name c) || behind_http_only jar c.

(** What an expiring assignment for the name, domain and path of [k]
    does to the jar: it evicts the cookies of that name, domain and
    path, but the ones the platform keeps. *)
Definition evict (k : Cookie) (jar : list Cookie) : list Cookie :=
  filter (fun c => negb (same_cookie c k && negb (kept_by_platform jar c))) jar.

(** The name, domain and path of the eight assignments of [clearCookies]
    for the name [n], in their order. *)
Definition write_keys (hn pn n : string) : list Cookie :=
  let root := mkCookie n "" hn false "/" false in
  let page := mkCookie n "" hn false pn false in
  [root; root; page; page; root; root; page; page].

(** The cookies the assignments of [clearCookies] for the names [names]
    evict from [jar] on a page at [hn], [pn]: a cookie of one of the
    names, stored for the very host name, with the path ["/"] or the
    path of the page, that the platform does not keep. *)
Definition targeted (hn pn : string) (names : list string) (jar : list Cookie)
    (c : Cookie) : bool :=
  existsb (String.eqb (ck_name c)) names
  && String.eqb (ck_domain c) hn
  && (String.eqb (ck_path c) "/" || String.eqb (ck_path c) pn)
  && negb (kept_by_platform jar c).

(** The names [clearCookies] finds on the page. *)
Definition names_found (h : Host) : list string :=
  match cookie h with
  | Some jar =>
      filter truthy (cookie_names (cookie_string (hostname h) (pathname h) jar))
  | None => []
  end.

(** The names of a list are pairwise different, as the names of the
    caches of an origin and the scopes of its registrations are. *)
Fixpoint distinct (ks : list string) : bool :=
  match ks with
  | [] => true
  | k :: rest => negb (existsb (String.eqb k) rest) && distinct rest
  end.

(** [ks] from the first name on whose deletion is rejected. *)
Fixpoint from_rejected (rejects ks : list string) : list string :=
  match ks with
  | [] => []
  | k :: rest => if rejected k rejects then ks else from_rejected rejects rest
  end.

(** The stored keys of a storage area that a member of the prototype
    shadows: [localStorage.length] counts them, [Object.keys] does not
    list them. *)
Definition shadowed_keys (h : Host) (x : Surface) : nat :=
  match x with
  | SurfLocal =>
      match localStorage h with
      | Some items => List.length (filter shadowed (map fst items))
      | None => 0
      end
  | SurfSession =>
      match sessionStorage h with
      | Some items => List.length (filter shadowed (map fst items))
      | None => 0
      end
  | _ => 0
  end.
(* ===================================================================== *)
(** ** Strings: trimming, splitting and counting                          *)
(* ===================================================================== *)

Lemma semicolon_not_whitespace : forall a, Ascii.eqb a ";" = true -> is_whitespace a = false.
Proof.
  intros a H. apply Ascii.eqb_eq in H. subst a. reflexivity.
Qed.

Lemma has_ink_cons : forall a s,
  has_ink (String a s) = negb (is_whitespace a) || has_ink s.
Proof. reflexivity. Qed.

Lemma trimEnd_ink : forall a s,
  is_whitespace a = false -> truthy (trimEnd (String a s)) = true.
Proof.
  intros a s Ha. simpl. destruct (trimEnd s); [rewrite Ha|]; reflexivity.
Qed.

(** A trimmed string is empty exactly when the string is all white
    space. *)
Lemma truthy_trim : forall s, truthy (trim s) = has_ink s.
Proof.
  induction s as [|a s IH]; [reflexivity|].
  rewrite has_ink_cons. unfold trim in *. simpl trimStart.
  destruct (is_whitespace a) eqn:Ha; simpl negb; simpl orb.
  - exact IH.
  - apply trimEnd_ink; assumption.
Qed.

Lemma split_not_nil : forall sep s, split sep s <> [].
Proof.
  intros sep s. destruct s as [|a s]; simpl; [discriminate|].
  destruct (Ascii.eqb a sep); [discriminate|].
  destruct (split sep s); discriminate.
Qed.

Lemma hd_split : forall sep s, hd "" (split sep s) = fst (cut sep s).
Proof.
  intros sep. induction s as [|a s IH]; simpl; [reflexivity|].
  destruct (Ascii.eqb a sep); [reflexivity|].
  destruct (cut sep s) as [before rest]. simpl in *.
  destruct (split sep s) as [|seg segs] eqn:E.
  - exfalso. eapply split_not_nil; eassumption.
  - simpl in *. now subst.
Qed.

Lemma count_segments_cons : forall seg rest,
  List.length (filter (fun x => truthy (trim x)) (seg :: rest))
  = (if has_ink seg then 1 else 0)
    + List.length (filter (fun x => truthy (trim x)) rest).
Proof.
  intros seg rest. simpl. rewrite truthy_trim. destruct (has_ink seg); reflexivity.
Qed.

(** The one-pass count agrees with split-filter-length, whatever the
    segment being read has shown so far. *)
Lemma scan_segments_split : forall s ink,
  scan_segments ink s
  = match split ";" s with
    | seg :: rest =>
        (if ink || has_ink seg then 1 else 0)
        + List.length (filter (fun x => truthy (trim x)) rest)
    | [] => 0
    end.
Proof.
  induction s as [|a s IH]; intros ink.
  - simpl. rewrite orb_false_r. lia.
  - simpl. destruct (Ascii.eqb a ";") eqn:Ea.
    + rewrite orb_false_r. rewrite IH.
      destruct (split ";" s) as [|seg rest] eqn:E.
      * exfalso. eapply split_not_nil; eassumption.
      * rewrite count_segments_cons. reflexivity.
    + rewrite IH. destruct (split ";" s) as [|seg rest] eqn:E.
      * exfalso. eapply split_not_nil; eassumption.
      * rewrite has_ink_cons, orb_assoc. reflexivity.
Qed.

Lemma count_segments_scan : forall s, count_segments s = nonblank_segments s.
Proof.
  intros s. unfold count_segments, nonblank_segments.
  rewrite scan_segments_split.
  destruct (split ";" s) as [|seg rest]; [reflexivity|].
  apply count_segments_cons.
Qed.

Lemma scan_segments_blank : forall s, has_ink s = false -> scan_segments false s = 0.
Proof.
  induction s as [|a s IH]; intros H; [reflexivity|].
  rewrite has_ink_cons in H. apply orb_false_iff in H. destruct H as [Ha Hs].
  apply negb_false_iff in Ha. simpl.
  destruct (Ascii.eqb a ";") eqn:Ea.
  - apply semicolon_not_whitespace in Ea. congruence.
  - rewrite Ha. simpl. auto.
Qed.

(** The guard of the probes ([document.cookie && document.cookie.trim()])
    changes nothing: a string it turns away has no segment to count. *)
Lemma guarded_count_scan : forall s, guarded_count s = nonblank_segments s.
Proof.
  intros s. unfold guarded_count. rewrite truthy_trim.
  destruct (truthy s && has_ink s) eqn:G.
  - apply count_segments_scan.
  - unfold nonblank_segments. symmetry.
    destruct s as [|a s]; [reflexivity|].
    simpl in G. apply scan_segments_blank. exact G.
Qed.
(* ===================================================================== *)
(** ** Running the monad                                                  *)
(* ===================================================================== *)

Lemma logged_nil : forall w, logged [] w = w.
Proof. intros [h d t]. unfold logged. simpl. now rewrite app_nil_r. Qed.

Lemma logged_logged : forall a b w, logged b (logged a w) = logged (a ++ b)%list w.
Proof. intros a b w. unfold logged. simpl. now rewrite app_assoc. Qed.

Lemma set_host_same : forall w, set_host (host w) w = w.
Proof. now intros [h d t]. Qed.

Lemma set_host_logged : forall h calls w,
  set_host h (logged calls w) = logged calls (set_host h w).
Proof. reflexivity. Qed.

Lemma set_host_set_host : forall h1 h2 w, set_host h2 (set_host h1 w) = set_host h2 w.
Proof. reflexivity. Qed.

(** Worlds in normal form: one [logged] around one [set_host]. *)
Create Rewrite HintDb world.
#[global] Hint Rewrite set_host_logged set_host_set_host logged_logged
  set_host_same logged_nil : world.

Lemma run_bind : forall (A B : Type) (m : JS A) (k : A -> JS B) w,
  bind m k w
  = match m w with
    | (Normal a, w') => k a w'
    | (Throw, w') => (Throw, w')
    end.
Proof. reflexivity. Qed.

(* --------------------------------------------------------------------- *)
(** *** The clearing loops                                                *)
(* --------------------------------------------------------------------- *)

Lemma caches_delete_run : forall k w cs,
  caches (host w) = Some cs ->
  caches_delete k w
  = if rejected k (delete_rejects cs) then (Throw, logged [Caches_delete k] w)
    else (Normal tt,
          logged [Caches_delete k]
            (set_host (set_caches
               (Some (mkCacheStorage
                        (filter (fun n => negb (String.eqb n k)) (cache_names cs))
                        (keys_rejects cs) (delete_rejects cs))) (host w)) w)).
Proof.
  intros k w cs E. unfold caches_delete, bind, call, the_host, put_host, throw, rejected.
  simpl. rewrite E. destruct (existsb (String.eqb k) (delete_rejects cs)); reflexivity.
Qed.

Lemma set_caches_same : forall w cs,
  caches (host w) = Some cs -> set_host (set_caches (Some cs) (host w)) w = w.
Proof.
  intros [h d t] cs E. destruct h. simpl in E. subst. reflexivity.
Qed.

Lemma for_of_caches_delete : forall ks w names kr rejects,
  caches (host w) = Some (mkCacheStorage names kr rejects) ->
  for_of ks caches_delete w
  = (if existsb (fun k => rejected k rejects) ks then Throw else Normal tt,
     logged (map Caches_delete (until_rejected rejects ks))
       (set_host (set_caches
          (Some (mkCacheStorage (delete_each rejects ks names) kr rejects)) (host w)) w)).
Proof.
  induction ks as [|k ks IH]; intros w names kr rejects E.
  - simpl. unfold ret. now rewrite logged_nil, set_caches_same.
  - simpl for_of. rewrite run_bind, (caches_delete_run k w _ E). simpl.
    destruct (rejected k rejects) eqn:R.
    + now rewrite set_caches_same.
    + erewrite IH by reflexivity. simpl.
      f_equal. unfold logged, set_host, set_caches. simpl. now rewrite <- app_assoc.
Qed.

Lemma set_serviceWorker_same : forall w sc,
  serviceWorker (host w) = SwContainer sc ->
  set_host (set_serviceWorker (SwContainer sc) (host w)) w = w.
Proof.
  intros [h d t] sc E. destruct h. simpl in E. subst. reflexivity.
Qed.

Lemma unregister_run : forall r w sc,
  serviceWorker (host w) = SwContainer sc ->
  unregister r w
  = if rejected r (unregister_rejects sc) then (Throw, logged [Sw_unregister r] w)
    else (Normal tt,
          logged [Sw_unregister r]
            (set_host (set_serviceWorker
               (SwContainer (mkContainer
                        (filter (fun n => negb (String.eqb n r)) (registrations sc))
                        (getRegistrations_rejects sc) (unregister_rejects sc))) (host w)) w)).
Proof.
  intros r w sc E. unfold unregister, bind, call, the_host, put_host, throw, rejected.
  simpl. rewrite E. destruct (existsb (String.eqb r) (unregister_rejects sc)); reflexivity.
Qed.

Lemma for_of_unregister : forall rs w regs gr rejects,
  serviceWorker (host w) = SwContainer (mkContainer regs gr rejects) ->
  for_of rs unregister w
  = (if existsb (fun r => rejected r rejects) rs then Throw else Normal tt,
     logged (map Sw_unregister (until_rejected rejects rs))
       (set_host (set_serviceWorker
          (SwContainer (mkContainer (delete_each rejects rs regs) gr rejects)) (host w)) w)).
Proof.
  induction rs as [|r rs IH]; intros w regs gr rejects E.
  - simpl. unfold ret. now rewrite logged_nil, set_serviceWorker_same.
  - simpl for_of. rewrite run_bind, (unregister_run r w _ E). simpl.
    destruct (rejected r rejects) eqn:R.
    + now rewrite set_serviceWorker_same.
    + erewrite IH by reflexivity. simpl.
      f_equal. unfold logged, set_host, set_serviceWorker. simpl. now rewrite <- app_assoc.
Qed.

(* --------------------------------------------------------------------- *)
(** *** The clearing blocks of the handler                                *)
(* --------------------------------------------------------------------- *)

Lemma clear_localStorage_run : forall log w,
  attached (dom w) = true ->
  clear_area "l" Local "localStorage cleared" "localStorage failed" log w
  = (Normal (if selected (dom w) SurfLocal
             then push log (status_line SurfLocal (clear_fails (host w) SurfLocal))
             else log),
     logged (if selected (dom w) SurfLocal then clear_calls (host w) SurfLocal else [])
       (set_host (if selected (dom w) SurfLocal then cleared (host w) SurfLocal
                  else host w) w)).
Proof.
  intros log w A. unfold clear_area, bind, getElementById_checked. rewrite A.
  unfold selected, is_checked. simpl checkbox_id.
  destruct (existsb (String.eqb "l") (checked (dom w))).
  - unfold try_catch, storage_clear, bind, call, the_host, put_host, throw, ret.
    simpl. destruct (localStorage (host w)); reflexivity.
  - unfold ret. now rewrite logged_nil, set_host_same.
Qed.

Lemma clear_sessionStorage_run : forall log w,
  attached (dom w) = true ->
  clear_area "s" Session "sessionStorage cleared" "sessionStorage failed" log w
  = (Normal (if selected (dom w) SurfSession
             then push log (status_line SurfSession (clear_fails (host w) SurfSession))
             else log),
     logged (if selected (dom w) SurfSession then clear_calls (host w) SurfSession else [])
       (set_host (if selected (dom w) SurfSession then cleared (host w) SurfSession
                  else host w) w)).
Proof.
  intros log w A. unfold clear_area, bind, getElementById_checked. rewrite A.
  unfold selected, is_checked. simpl checkbox_id.
  destruct (existsb (String.eqb "s") (checked (dom w))).
  - unfold try_catch, storage_clear, bind, call, the_host, put_host, throw, ret.
    simpl. destruct (sessionStorage (host w)); reflexivity.
  - unfold ret. now rewrite logged_nil, set_host_same.
Qed.

Lemma caches_keys_run : forall w,
  caches_keys w
  = (match caches (host w) with
     | Some cs => if keys_rejects cs then Throw else Normal (cache_names cs)
     | None => Throw
     end, logged [Caches_keys] w).
Proof.
  intros w. unfold caches_keys, bind, call, the_host, throw, ret. simpl.
  destruct (caches (host w)) as [cs|]; [destruct (keys_rejects cs)|]; reflexivity.
Qed.

Lemma clear_caches_run : forall log w,
  attached (dom w) = true ->
  clear_caches log w
  = (Normal (if selected (dom w) SurfCaches
             then push log (status_line SurfCaches (clear_fails (host w) SurfCaches))
             else log),
     logged (if selected (dom w) SurfCaches then clear_calls (host w) SurfCaches else [])
       (set_host (if selected (dom w) SurfCaches then cleared (host w) SurfCaches
                  else host w) w)).
Proof.
  intros log w A. unfold clear_caches. rewrite run_bind.
  unfold getElementById_checked. rewrite A.
  unfold selected, is_checked. simpl checkbox_id.
  destruct (existsb (String.eqb "c") (checked (dom w))).
  - unfold try_catch. rewrite run_bind, caches_keys_run.
    simpl clear_fails. simpl clear_calls. simpl cleared.
    destruct (caches (host w)) as [[names kr rejects]|] eqn:E; simpl.
    + destruct kr; simpl.
      * unfold ret. now rewrite set_host_same.
      * rewrite run_bind. change (fun k : string => caches_delete k) with caches_delete.
        rewrite (for_of_caches_delete names (logged [Caches_keys] w) names false rejects E).
        destruct (existsb (fun k => rejected k rejects) names); unfold ret; simpl;
          f_equal; unfold logged, set_host; simpl; now rewrite <- app_assoc.
    + unfold ret. now rewrite set_host_same.
  - unfold ret. now rewrite logged_nil, set_host_same.
Qed.

Lemma getRegistrations_run : forall w,
  getRegistrations w
  = (match serviceWorker (host w) with
     | SwContainer sc => if getRegistrations_rejects sc then Throw
                         else Normal (registrations sc)
     | _ => Throw
     end, logged [Sw_getRegistrations] w).
Proof.
  intros w. unfold getRegistrations, navigator_serviceWorker, bind, call, the_host, throw, ret.
  simpl. destruct (serviceWorker (host w)) as [| |sc];
    [| |destruct (getRegistrations_rejects sc)]; reflexivity.
Qed.

Lemma clear_serviceWorkers_run : forall log w,
  attached (dom w) = true ->
  clear_serviceWorkers log w
  = (Normal (if selected (dom w) SurfWorkers
             then push log (status_line SurfWorkers (clear_fails (host w) SurfWorkers))
             else log),
     logged (if selected (dom w) SurfWorkers then clear_calls (host w) SurfWorkers else [])
       (set_host (if selected (dom w) SurfWorkers then cleared (host w) SurfWorkers
                  else host w) w)).
Proof.
  intros log w A. unfold clear_serviceWorkers. rewrite run_bind.
  unfold getElementById_checked. rewrite A.
  unfold selected, is_checked. simpl checkbox_id.
  destruct (existsb (String.eqb "w") (checked (dom w))).
  - unfold try_catch. rewrite run_bind, getRegistrations_run.
    simpl clear_fails. simpl clear_calls. simpl cleared.
    destruct (serviceWorker (host w)) as [| |[regs gr rejects]] eqn:E; simpl.
    + unfold ret. now rewrite set_host_same.
    + unfold ret. now rewrite set_host_same.
    + destruct gr; simpl.
      * unfold ret. now rewrite set_host_same.
      * rewrite run_bind. change (fun r : string => unregister r) with unregister.
        rewrite (for_of_unregister regs (logged [Sw_getRegistrations] w) regs false rejects E).
        destruct (existsb (fun k => rejected k rejects) regs); unfold ret; simpl;
          f_equal; unfold logged, set_host; simpl; now rewrite <- app_assoc.
  - unfold ret. now rewrite logged_nil, set_host_same.
Qed.

(* --------------------------------------------------------------------- *)
(** *** Cookie clearing                                                   *)
(* --------------------------------------------------------------------- *)

Lemma document_cookie_run : forall w,
  document_cookie w
  = (match cookie (host w) with
     | Some jar => Normal (cookie_string (hostname (host w)) (pathname (host w)) jar)
     | None => Throw
     end, logged [Cookie_get] w).
Proof.
  intros w. unfold document_cookie, bind, call, the_host, throw, ret. simpl.
  destruct (cookie (host w)); reflexivity.
Qed.

Lemma set_cookie_same : forall w jar,
  cookie (host w) = Some jar -> set_host (set_cookie (Some jar) (host w)) w = w.
Proof.
  intros [h d t] jar E. destruct h. simpl in E. subst. reflexivity.
Qed.

Lemma truthy_false : forall s, truthy s = false -> s = "".
Proof. intros [|a s]; [reflexivity|discriminate]. Qed.

Lemma store_all_app : forall hn pn a b jar,
  store_all hn pn (a ++ b)%list jar = store_all hn pn b (store_all hn pn a jar).
Proof. intros. unfold store_all. apply fold_left_app. Qed.

Lemma cookie_name_blank : forall x, truthy (trim x) = false -> cookie_name x = "".
Proof.
  intros x H. unfold cookie_name. now rewrite (truthy_false _ H).
Qed.

(** Assignments to [document.cookie] compose: on a page at [hn], [pn]
    whose cookies can be touched, a piece of script that only assigns is
    described by the list of what it assigns. *)
Section Writes.

Variables hn pn : string.

Lemma writes_ret : writes_as hn pn (ret tt) [].
Proof.
  intros w jar E _ _. unfold ret. simpl.
  now rewrite logged_nil, set_cookie_same.
Qed.

Lemma writes_set : forall v, writes_as hn pn (set_document_cookie v) [v].
Proof.
  intros v w jar E Hh Hp.
  unfold set_document_cookie, bind, call, the_host, put_host. simpl.
  rewrite E, Hh, Hp. reflexivity.
Qed.

Lemma writes_bind : forall m1 m2 v1 v2,
  writes_as hn pn m1 v1 -> writes_as hn pn m2 v2 ->
  writes_as hn pn (m1 ;; m2) (v1 ++ v2)%list.
Proof.
  intros m1 m2 v1 v2 H1 H2 w jar E Hh Hp.
  rewrite run_bind, (H1 w jar E Hh Hp).
  erewrite H2 by (simpl; first [reflexivity | assumption]).
  f_equal. unfold logged, set_host, set_cookie. simpl.
  now rewrite map_app, store_all_app, <- app_assoc.
Qed.

Lemma writes_for_of : forall (A : Type) (body : A -> JS unit) f xs,
  (forall x, writes_as hn pn (body x) (f x)) ->
  writes_as hn pn (for_of xs body) (flat_map f xs).
Proof.
  intros A body f xs H. induction xs as [|x xs IH]; simpl.
  - apply writes_ret.
  - apply writes_bind; [apply H | exact IH].
Qed.

Lemma writes_the_host : forall (k : Host -> JS unit) vs,
  (forall h, hostname h = hn -> pathname h = pn -> writes_as hn pn (k h) vs) ->
  writes_as hn pn (h <- the_host ;; k h) vs.
Proof.
  intros k vs H w jar E Hh Hp.
  unfold bind at 1. unfold the_host. apply H; assumption.
Qed.

Lemma clearCookies_body_writes : forall x,
  writes_as hn pn (clearCookies_body x)
    (if truthy (cookie_name x) then expiring_writes hn pn (cookie_name x) else []).
Proof.
  intros x. unfold clearCookies_body.
  destruct (truthy (trim x)) eqn:T; simpl negb; cbv iota.
  - rewrite hd_split. fold (cookie_name x).
    destruct (truthy (cookie_name x)) eqn:N; simpl negb; cbv iota.
    + apply writes_the_host. intros h Hh _. rewrite Hh.
      unfold expiring_writes. apply writes_for_of. intros dmn.
      apply writes_the_host. intros h' _ Hp. rewrite Hp.
      apply writes_for_of. intros path.
      apply (writes_bind _ _ [_] [_]); apply writes_set.
    + apply writes_ret.
  - rewrite (cookie_name_blank _ T). apply writes_ret.
Qed.

Lemma flat_map_filter_names : forall names,
  flat_map (fun n => if truthy n then expiring_writes hn pn n else []) names
  = flat_map (expiring_writes hn pn) (filter truthy names).
Proof.
  intros names. induction names as [|n names IH]; simpl; [reflexivity|].
  rewrite IH. destruct (truthy n); reflexivity.
Qed.

Lemma for_of_clearCookies_body : forall segs,
  writes_as hn pn (for_of segs clearCookies_body)
    (flat_map (expiring_writes hn pn) (filter truthy (map cookie_name segs))).
Proof.
  intros segs. rewrite <- flat_map_filter_names.
  replace (flat_map (fun n => if truthy n then expiring_writes hn pn n else [])
                    (map cookie_name segs))
    with (flat_map (fun x => if truthy (cookie_name x)
                             then expiring_writes hn pn (cookie_name x) else []) segs).
  - apply writes_for_of. intros x. apply clearCookies_body_writes.
  - induction segs as [|x segs IH]; simpl; [reflexivity|]. now rewrite IH.
Qed.

End Writes.

Lemma eqb_empty : forall s, String.eqb s "" = negb (truthy s).
Proof. intros [|a s]; reflexivity. Qed.

Lemma clearCookies_run : forall w,
  clearCookies w
  = (if clear_fails (host w) SurfCookies then Throw else Normal tt,
     logged (clear_calls (host w) SurfCookies)
       (set_host (cleared (host w) SurfCookies) w)).
Proof.
  intros w. unfold clearCookies. rewrite run_bind, document_cookie_run.
  simpl clear_fails. simpl clear_calls. simpl cleared.
  destruct (cookie (host w)) as [jar|] eqn:E; cbv beta iota.
  - destruct (truthy (cookie_string (hostname (host w)) (pathname (host w)) jar)) eqn:T1; simpl negb; cbv iota.
    + rewrite run_bind. rewrite run_bind. rewrite document_cookie_run. simpl host. rewrite E.
      cbv beta iota. unfold ret at 1. rewrite eqb_empty.
      destruct (truthy (trim (cookie_string (hostname (host w)) (pathname (host w)) jar))) eqn:T2;
        cbv beta iota; cbn [negb].
      * rewrite run_bind, document_cookie_run. simpl host. rewrite E. cbv beta iota.
        erewrite for_of_clearCookies_body by (simpl; first [reflexivity | eassumption]).
        f_equal. unfold logged, set_host, set_cookie, cookie_writes, cookie_names. simpl.
        now rewrite <- !app_assoc.
      * unfold ret. rewrite logged_logged, set_host_same. reflexivity.
    + rewrite run_bind. unfold ret.
      assert (T2 : truthy (trim (cookie_string (hostname (host w)) (pathname (host w)) jar)) = false).
      { now rewrite (truthy_false _ T1). }
      rewrite T2, set_host_same. reflexivity.
  - now rewrite set_host_same.
Qed.

Lemma clear_cookies_run : forall log w,
  attached (dom w) = true ->
  clear_cookies log w
  = (Normal (if selected (dom w) SurfCookies
             then push log (status_line SurfCookies (clear_fails (host w) SurfCookies))
             else log),
     logged (if selected (dom w) SurfCookies then clear_calls (host w) SurfCookies else [])
       (set_host (if selected (dom w) SurfCookies then cleared (host w) SurfCookies
                  else host w) w)).
Proof.
  intros log w A. unfold clear_cookies. rewrite run_bind.
  unfold getElementById_checked. rewrite A.
  unfold selected, is_checked. simpl checkbox_id.
  destruct (existsb (String.eqb "k") (checked (dom w))).
  - unfold try_catch. rewrite run_bind, clearCookies_run.
    destruct (clear_fails (host w) SurfCookies); reflexivity.
  - unfold ret. now rewrite logged_nil, set_host_same.
Qed.

(** [clear_fails] tells when the clearing of a surface, run from a host,
    throws. *)
Lemma clear_operation_run : forall x w,
  fst (clear_operation x w) = if clear_fails (host w) x then Throw else Normal tt.
Proof.
  intros x w. destruct x; simpl clear_operation; simpl clear_fails.
  - unfold storage_clear, bind, call, the_host, put_host, throw. simpl.
    destruct (localStorage (host w)); reflexivity.
  - unfold storage_clear, bind, call, the_host, put_host, throw. simpl.
    destruct (sessionStorage (host w)); reflexivity.
  - rewrite run_bind, caches_keys_run.
    destruct (caches (host w)) as [[names kr rejects]|] eqn:E; [|reflexivity].
    destruct kr; [reflexivity|]. simpl.
    change (fun k : string => caches_delete k) with caches_delete.
    rewrite (for_of_caches_delete names (logged [Caches_keys] w) names false rejects E).
    reflexivity.
  - rewrite run_bind, getRegistrations_run.
    destruct (serviceWorker (host w)) as [| |[regs gr rejects]] eqn:E; try reflexivity.
    destruct gr; [reflexivity|]. simpl.
    change (fun r : string => unregister r) with unregister.
    rewrite (for_of_unregister regs (logged [Sw_getRegistrations] w) regs false rejects E).
    reflexivity.
  - reflexivity.
  - rewrite clearCookies_run. reflexivity.
Qed.

(* --------------------------------------------------------------------- *)
(** *** The five blocks together                                          *)
(* --------------------------------------------------------------------- *)

Ltac break_match :=
  repeat (simpl;
          match goal with
          | |- context [match ?v with _ => _ end] => is_var v; destruct v
          | |- context [if ?b then _ else _] =>
              match type of b with bool => destruct b end
          end).

(** Clearing one surface changes nothing another surface's block looks
    at. *)
Lemma clear_fails_cleared : forall h x y,
  x <> y -> clear_fails (cleared h x) y = clear_fails h y.
Proof.
  intros h x y N. destruct h.
  destruct x, y; try (exfalso; apply N; reflexivity); simpl; break_match; reflexivity.
Qed.

Lemma clear_calls_cleared : forall h x y,
  x <> y -> clear_calls (cleared h x) y = clear_calls h y.
Proof.
  intros h x y N. destruct h.
  destruct x, y; try (exfalso; apply N; reflexivity); simpl; break_match; reflexivity.
Qed.

Lemma cleared_commute_content : forall h x y,
  x <> y -> content (cleared h x) y = content h y.
Proof.
  intros h x y N. destruct h.
  destruct x, y; try (exfalso; apply N; reflexivity); simpl; break_match; reflexivity.
Qed.

Lemma clear_selected_run : forall w,
  attached (dom w) = true ->
  clear_selected w
  = (Normal (status_lines (host w) (dom w)),
     logged (all_clear_calls (dom w) (host w))
       (set_host (after_clear (dom w) (host w)) w)).
Proof.
  intros w A. unfold clear_selected.
  rewrite run_bind, clear_localStorage_run by assumption.
  cbv beta iota.
  rewrite run_bind, clear_sessionStorage_run by assumption.
  cbv beta iota. cbn [dom host logged set_host].
  rewrite run_bind, clear_caches_run by assumption.
  cbv beta iota. cbn [dom host logged set_host].
  rewrite run_bind, clear_serviceWorkers_run by assumption.
  cbv beta iota. cbn [dom host logged set_host].
  rewrite run_bind, clear_cookies_run by assumption.
  cbv beta iota. cbn [dom host trace logged set_host].
  unfold ret, status_lines, all_clear_calls, after_clear.
  cbn [flat_map fold_left clearable].
  destruct (selected (dom w) SurfLocal), (selected (dom w) SurfSession),
    (selected (dom w) SurfCaches), (selected (dom w) SurfWorkers),
    (selected (dom w) SurfCookies);
    cbv beta iota;
    rewrite ?clear_fails_cleared, ?clear_calls_cleared by discriminate;
    autorewrite with world;
    unfold push; rewrite <- ?app_assoc; cbn [app]; rewrite ?app_nil_r;
    reflexivity.
Qed.

(* --------------------------------------------------------------------- *)
(** *** The probes of [updateStats]                                       *)
(* --------------------------------------------------------------------- *)

Lemma updateStats_cachesCount_run : forall w,
  exists calls,
    updateStats_cachesCount w = (Normal (entries (host w) SurfCaches), logged calls w).
Proof.
  intros w. unfold updateStats_cachesCount, caches_in_w, bind at 1, the_host.
  unfold bind at 1. unfold ret at 1. simpl entries.
  destruct (caches (host w)) as [cs|] eqn:E.
  - exists [Caches_keys]. unfold try_catch. rewrite run_bind, caches_keys_run, E.
    destruct (keys_rejects cs); reflexivity.
  - exists []. unfold ret. now rewrite logged_nil.
Qed.

Lemma updateStats_swCount_run : forall w,
  exists calls,
    updateStats_swCount w
    = (match serviceWorker (host w) with
       | SwThrows => Throw
       | _ => Normal (entries (host w) SurfWorkers)
       end, logged calls w).
Proof.
  intros w. unfold updateStats_swCount, navigator_serviceWorker, bind at 1, the_host.
  unfold bind at 1. simpl entries.
  destruct (serviceWorker (host w)) as [| |sc] eqn:E.
  - exists []. unfold ret. now rewrite logged_nil.
  - exists []. unfold throw. now rewrite logged_nil.
  - exists [Sw_getRegistrations]. unfold ret at 1. unfold try_catch.
    rewrite run_bind, getRegistrations_run, E.
    destruct (getRegistrations_rejects sc); reflexivity.
Qed.

Lemma updateStats_idbCount_run : forall w,
  exists calls,
    updateStats_idbCount w
    = (match indexedDB (host w) with
       | IdbMissing => Throw
       | _ => Normal (entries (host w) SurfIdb)
       end, logged calls w).
Proof.
  intros w. unfold updateStats_idbCount, indexedDB_databases, bind at 1, the_host.
  unfold bind at 1. simpl entries.
  destruct (indexedDB (host w)) as [| |f] eqn:E.
  - exists []. unfold throw. now rewrite logged_nil.
  - exists []. unfold ret. now rewrite logged_nil.
  - exists [Idb_databases]. unfold ret at 1. unfold try_catch.
    unfold indexedDB_databases_call, bind, call, the_host, throw, ret. simpl.
    rewrite E. destruct (databases_rejects f); reflexivity.
Qed.

Lemma updateStats_storageCount_run : forall a w,
  updateStats_storageCount a w
  = (Normal (entries (host w) (surface_of a)), logged [Storage_length a] w).
Proof.
  intros a w. unfold updateStats_storageCount, try_catch, storage_length.
  unfold bind, call, the_host, throw, ret. simpl.
  destruct a; simpl; [destruct (localStorage (host w))|destruct (sessionStorage (host w))];
    reflexivity.
Qed.

(** The guarded count, read by read. *)
Lemma cookie_probe_run : forall (A : Type) (f : nat -> A) w,
  exists calls,
    try_catch
      (c1 <- document_cookie ;;
       cond <- (if truthy c1
                then c2 <- document_cookie ;; ret (truthy (trim c2))
                else ret false) ;;
       if cond : bool
       then c3 <- document_cookie ;; ret (f (count_segments c3))
       else ret (f 0))
      (ret (f 0)) w
    = (Normal (f (entries (host w) SurfCookies)), logged calls w).
Proof.
  intros A f w. unfold try_catch. rewrite run_bind, document_cookie_run. simpl entries.
  destruct (cookie (host w)) as [jar|] eqn:E; cbv beta iota.
  - set (s := cookie_string (hostname (host w)) (pathname (host w)) jar) in *.
    unfold guarded_count. rewrite run_bind.
    destruct (truthy s) eqn:T1; cbn [andb].
    + rewrite run_bind, document_cookie_run. simpl host. rewrite E. cbv beta iota.
      fold s. unfold ret at 1.
      destruct (truthy (trim s)) eqn:T2; cbv beta iota.
      * rewrite run_bind, document_cookie_run. simpl host. rewrite E. cbv beta iota.
        fold s. unfold ret. rewrite !logged_logged. eexists. reflexivity.
      * unfold ret. rewrite !logged_logged. eexists. reflexivity.
    + unfold ret. eexists. reflexivity.
  - unfold ret. eexists. reflexivity.
Qed.

Lemma updateStats_cookieCount_run : forall w,
  exists calls,
    updateStats_cookieCount w = (Normal (entries (host w) SurfCookies), logged calls w).
Proof. intros w. apply (cookie_probe_run nat (fun n => n)). Qed.

Lemma detect_ck_run : forall s w,
  exists calls,
    detect_ck s w = (Normal (set_ck (entries (host w) SurfCookies) s), logged calls w).
Proof. intros s w. apply (cookie_probe_run summary (fun n => set_ck n s)). Qed.

Lemma updateStats_run : forall w,
  exists calls,
    updateStats w
    = if unguarded_read_throws (host w) || negb (attached (dom w))
      then (Throw, logged calls w)
      else (Normal tt,
            set_dom (set_stats (stats_rows (counts_of (host w))) (dom w)) (logged calls w)).
Proof.
  intros w. unfold updateStats, unguarded_read_throws.
  destruct (updateStats_cachesCount_run w) as [c1 E1].
  rewrite run_bind, E1.
  destruct (updateStats_swCount_run (logged c1 w)) as [c2 E2].
  rewrite run_bind, E2. simpl host.
  destruct (serviceWorker (host w)) eqn:SW; cbn [orb];
    try (rewrite logged_logged; eexists; reflexivity).
  all: destruct (updateStats_idbCount_run (logged c2 (logged c1 w))) as [c3 E3];
    rewrite run_bind, E3; simpl host;
    destruct (indexedDB (host w)) eqn:IDB; cbn [orb];
    try (rewrite !logged_logged; eexists; reflexivity).
  all: rewrite run_bind; unfold getElementById_stats at 1;
    rewrite run_bind, updateStats_storageCount_run;
    rewrite run_bind, updateStats_storageCount_run;
    rewrite run_bind;
    match goal with
    | |- context [updateStats_cookieCount ?w0] =>
        destruct (updateStats_cookieCount_run w0) as [c4 E4]; rewrite E4
    end;
    unfold set_stats_innerHTML; simpl dom; simpl host;
    destruct (attached (dom w)) eqn:A; cbn [negb];
    rewrite !logged_logged; eexists; unfold counts_of, set_stats; simpl surface_of;
    rewrite ?SW, ?IDB, ?A; reflexivity.
Qed.

(* --------------------------------------------------------------------- *)
(** *** The initial detection                                             *)
(* --------------------------------------------------------------------- *)

(** Each block of the detection, started with its field of [s] at the
    initial 0, ends normally and leaves in the field the entries its
    probe can reach: for the storage areas the keys [Object.keys]
    lists. *)
Lemma detect_ls_run : forall b c d e f g w,
  detect_ls (mkSummary 0 b c d e f g) w
  = (Normal (mkSummary (listed (host w) SurfLocal) b c d e f g),
     logged [Storage_keys Local] w).
Proof.
  intros. unfold detect_ls, try_catch, Object_keys, bind, call, the_host, throw, ret.
  simpl. destruct (localStorage (host w)); reflexivity.
Qed.

Lemma detect_ss_run : forall a c d e f g w,
  detect_ss (mkSummary a 0 c d e f g) w
  = (Normal (mkSummary a (listed (host w) SurfSession) c d e f g),
     logged [Storage_keys Session] w).
Proof.
  intros. unfold detect_ss, try_catch, Object_keys, bind, call, the_host, throw, ret.
  simpl. destruct (sessionStorage (host w)); reflexivity.
Qed.

Lemma detect_c_run : forall a b d e f g w,
  exists calls,
    detect_c (mkSummary a b 0 d e f g) w
    = (Normal (mkSummary a b (entries (host w) SurfCaches) d e f g), logged calls w).
Proof.
  intros. unfold detect_c, try_catch.
  rewrite run_bind. unfold caches_in_w, bind at 1, the_host, ret at 1. simpl entries.
  destruct (caches (host w)) as [cs|] eqn:E.
  - rewrite run_bind, caches_keys_run, E. exists [Caches_keys].
    destruct (keys_rejects cs); reflexivity.
  - exists []. unfold ret. now rewrite logged_nil.
Qed.

Lemma detect_sw_run : forall a b c e f g w,
  exists calls,
    detect_sw (mkSummary a b c 0 e f g) w
    = (Normal (mkSummary a b c (entries (host w) SurfWorkers) e f g), logged calls w).
Proof.
  intros. unfold detect_sw, try_catch.
  rewrite run_bind. unfold serviceWorker_in_navigator, bind at 1, the_host, ret at 1.
  simpl entries.
  destruct (serviceWorker (host w)) as [| |sc] eqn:E.
  - exists []. unfold ret. now rewrite logged_nil.
  - rewrite run_bind, getRegistrations_run, E. eexists. reflexivity.
  - rewrite run_bind, getRegistrations_run, E. exists [Sw_getRegistrations].
    destruct (getRegistrations_rejects sc); reflexivity.
Qed.

Lemma detect_idb_run : forall a b c d f g w,
  exists calls,
    detect_idb (mkSummary a b c d 0 f g) w
    = (Normal (mkSummary a b c d (entries (host w) SurfIdb) f g), logged calls w).
Proof.
  intros. unfold detect_idb, try_catch.
  rewrite run_bind. unfold indexedDB_databases, bind at 1, the_host. simpl entries.
  destruct (indexedDB (host w)) as [| |fac] eqn:E.
  - exists []. unfold throw, ret. now rewrite logged_nil.
  - exists []. unfold ret. now rewrite logged_nil.
  - unfold ret at 1. unfold indexedDB_databases_call, bind, call, the_host, throw, ret.
    simpl. rewrite E. exists [Idb_databases].
    destruct (databases_rejects fac); reflexivity.
Qed.

Lemma detect_est_run : forall a b c d e f w,
  exists calls,
    detect_est (mkSummary a b c d e f None) w
    = (Normal (mkSummary a b c d e f
                 (match storage (host w) with
                  | EstValue usage quota => Some (usage, quota)
                  | _ => None
                  end)), logged calls w).
Proof.
  intros. unfold detect_est, try_catch.
  rewrite run_bind. unfold navigator_storage_estimate, bind at 1, the_host, ret at 1.
  destruct (storage (host w)) eqn:E.
  - exists []. unfold ret. now rewrite logged_nil.
  - unfold estimate, bind, call, the_host, throw, ret. simpl. rewrite E.
    eexists. reflexivity.
  - unfold estimate, bind, call, the_host, throw, ret. simpl. rewrite E.
    eexists. reflexivity.
Qed.

(** The detection ends normally in every host, with the entries each
    probe can reach. *)
Lemma detect_run : forall w,
  exists calls,
    detect w
    = (Normal (mkSummary (listed (host w) SurfLocal) (listed (host w) SurfSession)
                         (entries (host w) SurfCaches) (entries (host w) SurfWorkers)
                         (entries (host w) SurfIdb) (entries (host w) SurfCookies)
                         (match storage (host w) with
                          | EstValue usage quota => Some (usage, quota)
                          | _ => None
                          end)),
       logged calls w).
Proof.
  intros w. unfold detect.
  rewrite run_bind, detect_ls_run.
  rewrite run_bind, detect_ss_run. cbn [host logged].
  rewrite run_bind.
  match goal with |- context [detect_c (mkSummary ?a ?b 0 ?d ?e ?f ?g) ?w0] =>
    destruct (detect_c_run a b d e f g w0) as [c1 E1]; rewrite E1 end.
  cbn [host logged]. rewrite run_bind.
  match goal with |- context [detect_sw (mkSummary ?a ?b ?c0 0 ?e ?f ?g) ?w0] =>
    destruct (detect_sw_run a b c0 e f g w0) as [c2 E2]; rewrite E2 end.
  cbn [host logged]. rewrite run_bind.
  match goal with |- context [detect_idb (mkSummary ?a ?b ?c0 ?d 0 ?f ?g) ?w0] =>
    destruct (detect_idb_run a b c0 d f g w0) as [c3 E3]; rewrite E3 end.
  cbn [host logged]. rewrite run_bind.
  match goal with |- context [detect_ck ?s0 ?w0] =>
    destruct (detect_ck_run s0 w0) as [c4 E4]; rewrite E4 end.
  unfold set_ck. cbn [host logged ls ss c sw idb ck est]. rewrite run_bind.
  match goal with |- context [detect_est (mkSummary ?a ?b ?c0 ?d ?e ?f None) ?w0] =>
    destruct (detect_est_run a b c0 d e f w0) as [c5 E5]; rewrite E5 end.
  cbn [host logged]. unfold ret. rewrite !logged_logged. eexists. reflexivity.
Qed.

(* --------------------------------------------------------------------- *)
(** *** The host after the clearing blocks                                *)
(* --------------------------------------------------------------------- *)

Lemma entries_cleared_other : forall h x y,
  x <> y -> entries (cleared h x) y = entries h y.
Proof.
  intros h x y N. destruct h.
  destruct x, y; try (exfalso; apply N; reflexivity); simpl; break_match; reflexivity.
Qed.

Lemma unguarded_read_cleared : forall h x,
  unguarded_read_throws (cleared h x) = unguarded_read_throws h.
Proof.
  intros h x. destruct h. destruct x; simpl; break_match; reflexivity.
Qed.

Lemma delete_each_accepted : forall rejects ks names,
  existsb (fun k => rejected k rejects) ks = false ->
  delete_each rejects ks names
  = filter (fun n => negb (existsb (String.eqb n) ks)) names.
Proof.
  induction ks as [|k ks IH]; intros names H; simpl.
  - induction names as [|n names IHn]; simpl; [reflexivity|]. now rewrite <- IHn.
  - simpl in H. apply orb_false_iff in H. destruct H as [Hk Hks].
    rewrite Hk, IH by assumption. clear.
    induction names as [|n names IHn]; simpl; [reflexivity|].
    destruct (String.eqb n k); simpl; [assumption|].
    destruct (existsb (String.eqb n) ks); simpl; [assumption|]. now rewrite IHn.
Qed.

Lemma existsb_eqb_self : forall n names,
  In n names -> existsb (String.eqb n) names = true.
Proof.
  intros n names H. apply existsb_exists. exists n. split; [assumption|].
  apply String.eqb_refl.
Qed.

Lemma delete_each_all : forall rejects names,
  existsb (fun k => rejected k rejects) names = false ->
  delete_each rejects names names = [].
Proof.
  intros rejects names H. rewrite delete_each_accepted by assumption.
  assert (G : forall l, (forall n, In n l -> In n names) ->
              filter (fun n => negb (existsb (String.eqb n) names)) l = []).
  { induction l as [|n l IH]; intros Hl; simpl; [reflexivity|].
    rewrite existsb_eqb_self by (apply Hl; left; reflexivity). simpl.
    apply IH. intros m Hm. apply Hl. right. assumption. }
  apply G. auto.
Qed.


(** A surface whose clearing block ran without a throw holds nothing
    afterwards: storage areas, caches and registrations. *)
Lemma entries_cleared_same : forall h x,
  In x [SurfLocal; SurfSession; SurfCaches; SurfWorkers] ->
  clear_fails h x = false ->
  entries (cleared h x) x = 0.
Proof.
  intros h x Hx F. destruct h as [l s cs sw i k e hn pn]. simpl in Hx.
  destruct Hx as [<-|[<-|[<-|[<-|[]]]]]; simpl in *.
  - destruct l; [reflexivity|discriminate].
  - destruct s; [reflexivity|discriminate].
  - destruct cs as [[names kr rj]|]; [|discriminate]. simpl in *.
    destruct kr; [discriminate|]. simpl in *. now rewrite delete_each_all.
  - destruct sw as [| |[regs gr rj]]; try discriminate. simpl in *.
    destruct gr; [discriminate|]. simpl in *. now rewrite delete_each_all.
Qed.

Lemma after_clear_unselected : forall d h x,
  selected d x = false -> content (after_clear d h) x = content h x.
Proof.
  intros d h x U. unfold after_clear. cbn [fold_left clearable].
  destruct (selected d SurfLocal) eqn:S1, (selected d SurfSession) eqn:S2,
    (selected d SurfCaches) eqn:S3, (selected d SurfWorkers) eqn:S4,
    (selected d SurfCookies) eqn:S5;
    destruct x; try congruence;
    rewrite ?cleared_commute_content by discriminate; reflexivity.
Qed.

Lemma after_clear_selected : forall d h x,
  In x [SurfLocal; SurfSession; SurfCaches; SurfWorkers] ->
  selected d x = true ->
  clear_fails h x = false ->
  entries (after_clear d h) x = 0.
Proof.
  intros d h x Hx Sx F. unfold after_clear. cbn [fold_left clearable].
  simpl in Hx.
  destruct (selected d SurfLocal) eqn:S1, (selected d SurfSession) eqn:S2,
    (selected d SurfCaches) eqn:S3, (selected d SurfWorkers) eqn:S4,
    (selected d SurfCookies) eqn:S5;
    destruct Hx as [<-|[<-|[<-|[<-|[]]]]]; try congruence;
    rewrite ?entries_cleared_other by discriminate;
    (apply entries_cleared_same; [simpl; tauto|]);
    rewrite ?clear_fails_cleared by discriminate; assumption.
Qed.

Lemma after_clear_unguarded : forall d h,
  unguarded_read_throws (after_clear d h) = unguarded_read_throws h.
Proof.
  intros d h. unfold after_clear. cbn [fold_left clearable].
  destruct (selected d SurfLocal), (selected d SurfSession), (selected d SurfCaches),
    (selected d SurfWorkers), (selected d SurfCookies);
    rewrite ?unguarded_read_cleared; reflexivity.
Qed.

Lemma after_clear_none : forall d h,
  (forall x, selected d x = false) -> after_clear d h = h.
Proof.
  intros d h U. unfold after_clear. cbn [fold_left clearable].
  now rewrite !U.
Qed.

(* --------------------------------------------------------------------- *)
(** *** The whole handler                                                 *)
(* --------------------------------------------------------------------- *)

Lemma run_onclick_run : forall w,
  attached (dom w) = true ->
  exists calls,
    let h' := after_clear (dom w) (host w) in
    let d' := set_out (out_message (status_lines (host w) (dom w))) (dom w) in
    run_onclick w
    = if unguarded_read_throws (host w)
      then (Throw, mkWorld h' d' calls)
      else (Normal tt, mkWorld h' (set_stats (stats_rows (counts_of h')) d') calls).
Proof.
  intros w A. unfold run_onclick.
  rewrite run_bind, clear_selected_run by assumption.
  rewrite run_bind. unfold set_out_innerHTML at 1. cbv beta iota.
  cbn [host dom trace logged set_host set_dom].
  match goal with |- context [updateStats ?w0] =>
    destruct (updateStats_run w0) as [calls E]; rewrite E end.
  eexists. cbv zeta. unfold out_message, set_out, set_stats, logged, set_dom.
  cbn [host dom trace attached checked out_innerHTML stats_innerHTML set_host].
  rewrite A, after_clear_unguarded. cbn [negb orb]. rewrite orb_false_r.
  destruct (unguarded_read_throws (host w)); reflexivity.
Qed.

Lemma run_onclick_detached : forall w,
  attached (dom w) = false -> run_onclick w = (Throw, w).
Proof.
  intros w A. unfold run_onclick, clear_selected, clear_area.
  rewrite !run_bind. unfold getElementById_checked. rewrite A. reflexivity.
Qed.

Lemma location_cleared : forall h x,
  hostname (cleared h x) = hostname h /\ pathname (cleared h x) = pathname h.
Proof.
  intros h x. destruct h. destruct x; simpl; break_match; split; reflexivity.
Qed.

(** What the clearing block of a surface leaves in it depends on what
    the surface held and on the location, and on nothing else. *)
Lemma content_cleared_congr : forall h g x,
  content h x = content g x ->
  hostname h = hostname g ->
  pathname h = pathname g ->
  content (cleared h x) x = content (cleared g x) x.
Proof.
  intros h g x C Hh Hp. destruct h, g. simpl in Hh, Hp. subst.
  destruct x; simpl in *; inversion C; subst; break_match; reflexivity.
Qed.

Lemma after_clear_content : forall d h x,
  selected d x = true ->
  content (after_clear d h) x = content (cleared h x) x.
Proof.
  intros d h x Sx. unfold after_clear. cbn [fold_left clearable].
  destruct (selected d SurfLocal) eqn:S1, (selected d SurfSession) eqn:S2,
    (selected d SurfCaches) eqn:S3, (selected d SurfWorkers) eqn:S4,
    (selected d SurfCookies) eqn:S5;
    destruct x; try congruence; try discriminate;
    rewrite ?cleared_commute_content by discriminate;
    try reflexivity;
    (apply content_cleared_congr;
     [rewrite ?cleared_commute_content by discriminate; reflexivity
     |repeat (rewrite (proj1 (location_cleared _ _))); reflexivity
     |repeat (rewrite (proj2 (location_cleared _ _))); reflexivity]).
Qed.

Lemma requests_clear_selected : forall w,
  attached (dom w) = true ->
  requests clear_selected w = all_clear_calls (dom w) (host w).
Proof.
  intros w A. unfold requests. rewrite clear_selected_run by exact A. reflexivity.
Qed.

Lemma requests_clearCookies : forall w,
  requests clearCookies w = clear_calls (host w) SurfCookies.
Proof.
  intros w. unfold requests. rewrite clearCookies_run. reflexivity.
Qed.

Lemma In_all_clear_calls : forall d h x call,
  In x clearable -> selected d x = true -> In call (clear_calls h x) ->
  In call (all_clear_calls d h).
Proof.
  intros d h x call Hx Sx Hc. unfold all_clear_calls. apply in_flat_map.
  exists x. split; [assumption|]. now rewrite Sx.
Qed.

Lemma selected_clearable : forall d x, selected d x = true -> In x clearable.
Proof.
  intros d x S. destruct x; simpl; try tauto. discriminate.
Qed.

Lemma In_status_lines : forall h d line,
  In line (status_lines h d)
  <-> exists x, selected d x = true /\ line = status_line x (clear_fails h x).
Proof.
  intros h d line. unfold status_lines. rewrite in_flat_map. split.
  - intros [x [Hx Hl]]. exists x. destruct (selected d x); [|destruct Hl].
    destruct Hl as [<-|[]]. split; reflexivity.
  - intros [x [Sx ->]]. exists x. split; [eapply selected_clearable; eassumption|].
    rewrite Sx. left. reflexivity.
Qed.

(** No two surfaces share a status line, and no surface reports success
    and failure with the same words. *)
Lemma status_line_inj : forall x y a b,
  In x clearable -> In y clearable ->
  status_line x a = status_line y b -> x = y /\ a = b.
Proof.
  intros x y a b Hx Hy E. simpl in Hx, Hy.
  destruct Hx as [<-|[<-|[<-|[<-|[<-|[]]]]]];
    destruct Hy as [<-|[<-|[<-|[<-|[<-|[]]]]]];
    destruct a, b; simpl in E; try discriminate; split; reflexivity.
Qed.

Lemma has_ink_split : forall sep s seg,
  has_ink s = false -> In seg (split sep s) -> has_ink seg = false.
Proof.
  intros sep. induction s as [|a s IH]; intros seg H Hin.
  - simpl in Hin. destruct Hin as [<-|[]]. reflexivity.
  - rewrite has_ink_cons in H. apply orb_false_iff in H. destruct H as [Ha Hs].
    simpl in Hin. destruct (Ascii.eqb a sep).
    + destruct Hin as [<-|Hin]; [reflexivity|]. now apply IH.
    + destruct (split sep s) as [|seg0 rest] eqn:E.
      * destruct Hin as [<-|[]]. rewrite has_ink_cons, Ha. reflexivity.
      * destruct Hin as [<-|Hin].
        -- rewrite has_ink_cons, Ha. simpl. apply IH; [assumption|]. left. reflexivity.
        -- apply IH; [assumption|]. right. assumption.
Qed.

(** A cookie string of white space holds no cookie name. *)
Lemma blank_cookie_names : forall s n,
  truthy (trim s) = false -> In n (cookie_names s) -> truthy n = false.
Proof.
  intros s n B Hn. unfold cookie_names in Hn. apply in_map_iff in Hn.
  destruct Hn as [seg [<- Hseg]]. rewrite truthy_trim in B.
  rewrite cookie_name_blank; [reflexivity|].
  rewrite truthy_trim. eapply has_ink_split; eassumption.
Qed.

(** Every string is the cookie string of some jar: what the probes and
    [clearCookies] are shown to do, they do for every string. *)
Lemma every_string_is_a_cookie_string : forall hn pn str,
  cookie_string hn pn [mkCookie "" str hn true pn false] = str.
Proof.
  intros hn pn str. unfold cookie_string, visible, path_matches. simpl.
  rewrite !String.eqb_refl. reflexivity.
Qed.

Lemma run_onclick_host : forall w,
  attached (dom w) = true ->
  host (snd (run_onclick w)) = after_clear (dom w) (host w).
Proof.
  intros w A. destruct (run_onclick_run w A) as [calls E]. cbv zeta in E.
  rewrite E. destruct (unguarded_read_throws (host w)); reflexivity.
Qed.

Lemma run_onclick_out : forall w,
  attached (dom w) = true ->
  out_innerHTML (dom (snd (run_onclick w)))
  = out_message (status_lines (host w) (dom w)).
Proof.
  intros w A. destruct (run_onclick_run w A) as [calls E]. cbv zeta in E.
  rewrite E. destruct (unguarded_read_throws (host w)); reflexivity.
Qed.


(* ===================================================================== *)
(** ** The properties of the specification                               *)
(* ===================================================================== *)








(** The initial detection ends normally in every host. *)
Lemma detect_never_throws : forall w, exists s w', detect w = (Normal s, w').
Proof.
  intros w. destruct (detect_run w) as [calls E]. rewrite E. eauto.
Qed.

(** [updateStats] throws exactly when one of its two unguarded reads
    does, or when [#stats] is not in the document. *)
Lemma updateStats_throws_iff : forall w,
  fst (updateStats w) = Throw
  <-> unguarded_read_throws (host w) = true \/ attached (dom w) = false.
Proof.
  intros w. destruct (updateStats_run w) as [calls E]. rewrite E.
  destruct (unguarded_read_throws (host w)), (attached (dom w)); simpl;
    split; intros H; try reflexivity; try discriminate; auto;
    destruct H; discriminate.
Qed.

(** C2, the code at the failing input: the example page in a context
    without [indexedDB].  The initial detection ends normally with an
    IndexedDB count of 0 and every other count as it is.  [updateStats]
    throws at [indexedDB.databases], which it reads outside of a [try]:
    it has asked for the caches and the registrations only, the probes
    of localStorage, sessionStorage and the cookies are never made,
    [#stats] is left as it was, and the handler, which awaits
    [updateStats], throws as well. *)
Lemma C2_updateStats_throws_without_indexedDB :
  let w := without_indexedDB (example_world []) in
  fst (detect w) = Normal (mkSummary 2 1 2 1 0 2 (Some (1024, 4096)))
  /\ fst (updateStats w) = Throw
  /\ requests updateStats w = [Caches_keys; Sw_getRegistrations]
  /\ stats_innerHTML (dom (snd (updateStats w))) = stats_innerHTML (dom w)
  /\ fst (run_onclick w) = Throw.
Proof. vm_compute. repeat split; reflexivity. Qed.

(** C3, as stated, fails: on the example page with the service workers
    and the cookies selected both clearings succeed, and neither status
    line reads "cleared". *)
Lemma C3_success_lines_without_cleared :
  let w := example_world ["w"; "k"] in
  fst (clear_operation SurfWorkers w) = Normal tt
  /\ fst (clear_operation SurfCookies w) = Normal tt
  /\ fst (clear_selected w)
     = Normal ["Service workers unregistered"; "Cookie cleanup attempted"]
  /\ includes "cleared" "Service workers unregistered" = false
  /\ includes "cleared" "Cookie cleanup attempted" = false.
Proof. vm_compute. repeat split; reflexivity. Qed.

Lemma length_flat_map_if : forall (A B : Type) (p : A -> bool) (f : A -> B) xs,
  List.length (flat_map (fun x => if p x then [f x] else []) xs)
  = List.length (filter p xs).
Proof.
  intros A B p f xs. induction xs as [|x xs IH]; simpl; [reflexivity|].
  destruct (p x); simpl; now rewrite IH.
Qed.

(** C3, amended: whatever is selected and whichever clearings fail, the
    handler goes through its five blocks.  Its log is [status_lines]: in
    the order of the handler, one line for each selected surface and
    none for the others; the line of a surface tells what became of that
    surface alone, in the words of [status_line]: "localStorage
    cleared", "sessionStorage cleared", "Cache Storage cleared",
    "Service workers unregistered", "Cookie cleanup attempted" when the
    clearing did not throw, and "... failed" when it did ([clear_fails]
    tells when the clearing of a surface throws).  The calls of every
    selected surface are made, whatever happened to the surfaces before
    it. *)
Theorem C3_one_status_line_per_selected_surface : forall w,
  attached (dom w) = true ->
  let log := status_lines (host w) (dom w) in
  fst (clear_selected w) = Normal log
  /\ out_innerHTML (dom (snd (run_onclick w))) = out_message log
  /\ List.length log = List.length (filter (selected (dom w)) clearable)
  /\ (forall x, selected (dom w) x = true ->
        In (status_line x (clear_fails (host w) x)) log
        /\ ~ In (status_line x (negb (clear_fails (host w) x))) log
        /\ incl (clear_calls (host w) x) (requests clear_selected w))
  /\ (forall x failed, In x clearable -> selected (dom w) x = false ->
        ~ In (status_line x failed) log)
  /\ (forall x, fst (clear_operation x w)
                = if clear_fails (host w) x then Throw else Normal tt).
Proof.
  intros w A log. split; [|split; [|split; [|split; [|split]]]].
  - rewrite clear_selected_run by exact A. reflexivity.
  - apply run_onclick_out. exact A.
  - apply length_flat_map_if.
  - intros x Sx. pose proof (selected_clearable _ _ Sx) as Cx. split; [|split].
    + apply In_status_lines. exists x. split; [assumption | reflexivity].
    + intros Hin. apply In_status_lines in Hin. destruct Hin as [y [Sy E]].
      apply status_line_inj in E;
        [|assumption | eapply selected_clearable; eassumption].
      destruct E as [<- E]. destruct (clear_fails (host w) x); discriminate.
    + intros call Hc. rewrite requests_clear_selected by exact A.
      eapply In_all_clear_calls; eassumption.
  - intros x failed Cx Ux Hin. apply In_status_lines in Hin.
    destruct Hin as [y [Sy E]].
    apply status_line_inj in E;
      [|assumption | eapply selected_clearable; eassumption].
    destruct E as [<- _]. congruence.
  - intros x. apply clear_operation_run.
Qed.

(** A run of C3's theorem: localStorage cannot be touched, the caches
    can; both are selected. *)
Lemma C3_witness :
  let w := set_host (set_localStorage None example_host) (example_world ["l"; "c"]) in
  attached (dom w) = true
  /\ fst (clear_selected w) = Normal ["localStorage failed"; "Cache Storage cleared"].
Proof.
  split; [reflexivity|].
  exact (proj1 (C3_one_status_line_per_selected_surface
                  (set_host (set_localStorage None example_host)
                            (example_world ["l"; "c"])) eq_refl)).
Defined.

(** C4: with no checkbox checked the handler writes the "No items
    selected for clearing." message into [#out], asks the host for no
    clearing at all, and leaves the host, and so localStorage,
    sessionStorage, Cache Storage, the service-worker registrations and
    the cookies, as they were. *)
Theorem C4_nothing_selected : forall w,
  attached (dom w) = true ->
  (forall x, selected (dom w) x = false) ->
  out_innerHTML (dom (snd (run_onclick w))) = no_items
  /\ requests clear_selected w = []
  /\ host (snd (run_onclick w)) = host w.
Proof.
  intros w A U. split; [|split].
  - rewrite run_onclick_out by exact A.
    unfold status_lines. cbn [flat_map clearable]. rewrite !U. reflexivity.
  - rewrite requests_clear_selected by exact A.
    unfold all_clear_calls. cbn [flat_map clearable]. rewrite !U. reflexivity.
  - rewrite run_onclick_host by exact A. apply after_clear_none. exact U.
Qed.

Lemma C4_witness :
  attached (dom (example_world [])) = true
  /\ (forall x, selected (dom (example_world [])) x = false)
  /\ out_innerHTML (dom (snd (run_onclick (example_world []))))
     = "<div style='margin-top:8px;opacity:.7'>No items selected for clearing.</div>"
  /\ host (snd (run_onclick (example_world []))) = example_host.
Proof.
  split; [reflexivity|]. split; [intros []; reflexivity|].
  destruct (C4_nothing_selected (example_world []) eq_refl
              (fun x => match x with
                        | SurfLocal | SurfSession | SurfCaches
                        | SurfWorkers | SurfIdb | SurfCookies => eq_refl
                        end)) as (Hout & _ & Hhost).
  split; [exact Hout | exact Hhost].
Defined.

(** C5, the code at the failing input: the example page
    [https://example.com/app/page] with the cookie box checked.  Two
    cookies are visible; [clearCookies] ends without a throw and the
    handler reports "Cookie cleanup attempted"; its assignments name the
    paths [/] and [/app/page] and no other.  The cookie [sid] has the
    path [/app], the default path of the page: it is still in the jar,
    and the count [updateStats] then displays for cookies is 1, not 0.
    The platform permits the removal: the expiring assignment that names
    the path [/app] evicts the cookie. *)
Lemma C5_cookie_survives_cleanup :
  let w := example_world ["k"] in
  entries (host w) SurfCookies = 2
  /\ fst (clear_operation SurfCookies w) = Normal tt
  /\ fst (clear_selected w) = Normal ["Cookie cleanup attempted"]
  /\ fst (run_onclick w) = Normal tt
  /\ requests clear_selected w
     = Cookie_get :: Cookie_get :: Cookie_get
       :: map Cookie_set
            (flat_map (fun n => flat_map (fun dmn =>
               flat_map (fun path => [expiring_domain n path dmn; expiring n path])
                        ["/"; "/app/page"]) ["example.com"; ".example.com"])
               ["sid"; "theme"])
  /\ cookie (host (snd (run_onclick w)))
     = Some [mkCookie "sid" "42" "example.com" true "/app" false]
  /\ stats_innerHTML (dom (snd (run_onclick w)))
     = stats_rows (mkCounts 2 1 2 1 1 1)
  /\ default_path (pathname (host w)) = "/app"
  /\ store_cookie (hostname (host w)) (pathname (host w))
       (parse_set_cookie (expiring "sid" "/app"))
       [mkCookie "sid" "42" "example.com" true "/app" false]
     = [].
Proof. vm_compute. repeat split; reflexivity. Qed.

Lemma displayed_counts_of : forall h x, displayed (counts_of h) x = entries h x.
Proof. intros h x. destruct x; reflexivity. Qed.

(** X12: for localStorage, sessionStorage, Cache Storage and the
    service workers, when the surface is selected and its clearing ends
    without a throw, the handler ends normally and the count it then
    displays for the surface is 0, in a context where the two unguarded
    reads of [updateStats] do not throw. *)
Theorem cleared_surface_displays_zero : forall w x,
  In x [SurfLocal; SurfSession; SurfCaches; SurfWorkers] ->
  attached (dom w) = true ->
  selected (dom w) x = true ->
  fst (clear_operation x w) = Normal tt ->
  unguarded_read_throws (host w) = false ->
  exists w',
    run_onclick w = (Normal tt, w')
    /\ stats_innerHTML (dom w') = stats_rows (counts_of (host w'))
    /\ displayed (counts_of (host w')) x = 0.
Proof.
  intros w x Hx A Sx Ok G.
  assert (F : clear_fails (host w) x = false).
  { rewrite clear_operation_run in Ok. destruct (clear_fails (host w) x);
      [discriminate | reflexivity]. }
  destruct (run_onclick_run w A) as [calls E].
  cbv zeta in E. rewrite G in E. rewrite E.
  eexists. split; [reflexivity|]. split; [reflexivity|].
  cbn [host]. rewrite displayed_counts_of. apply after_clear_selected; assumption.
Qed.

Lemma cleared_surface_displays_zero_witness :
  let w := example_world ["l"; "c"] in
  In SurfCaches [SurfLocal; SurfSession; SurfCaches; SurfWorkers]
  /\ attached (dom w) = true
  /\ selected (dom w) SurfCaches = true
  /\ fst (clear_operation SurfCaches w) = Normal tt
  /\ unguarded_read_throws (host w) = false
  /\ exists w',
       run_onclick w = (Normal tt, w')
       /\ stats_innerHTML (dom w') = stats_rows (counts_of (host w'))
       /\ displayed (counts_of (host w')) SurfCaches = 0.
Proof.
  cbv zeta. split; [simpl; tauto|]. repeat (split; [reflexivity|]).
  apply (cleared_surface_displays_zero (example_world ["l"; "c"]) SurfCaches);
    [simpl; tauto | reflexivity | reflexivity | reflexivity | reflexivity].
Defined.

(** C6: the overlay has one checkbox for each clearable surface, in the
    order localStorage, sessionStorage, Cache Storage, service workers,
    cookies, under the id the handler looks the surface up with, and the
    checkbox carries the [disabled] attribute exactly when the count
    detected for the surface is 0. *)
Theorem C6_checkbox_disabled_iff_count_zero : forall s : summary,
  map (fun html => (input_id html, input_disabled html)) (checkbox_options s)
  = map (fun x => (checkbox_id x, (detected s x =? 0)%nat)) clearable.
Proof.
  intros s. unfold checkbox_options. cbn [map clearable checkbox_id detected].
  destruct (ls s =? 0)%nat, (ss s =? 0)%nat, (c s =? 0)%nat, (sw s =? 0)%nat,
    (ck s =? 0)%nat; vm_compute; reflexivity.
Qed.

(** C7: a selected surface that holds nothing and whose clearing does
    not throw gets its success line in the log the handler shows in
    [#out], and not its failure line. *)
Theorem C7_empty_surface_reports_success : forall w x,
  attached (dom w) = true ->
  selected (dom w) x = true ->
  entries (host w) x = 0 ->
  fst (clear_operation x w) = Normal tt ->
  exists log,
    fst (clear_selected w) = Normal log
    /\ out_innerHTML (dom (snd (run_onclick w))) = results log
    /\ In (status_line x false) log
    /\ ~ In (status_line x true) log.
Proof.
  intros w x A Sx _ Ok.
  assert (F : clear_fails (host w) x = false).
  { rewrite clear_operation_run in Ok. destruct (clear_fails (host w) x);
      [discriminate | reflexivity]. }
  assert (Hin : In (status_line x false) (status_lines (host w) (dom w))).
  { apply In_status_lines. exists x. rewrite F. split; [assumption | reflexivity]. }
  rewrite clear_selected_run, run_onclick_out by exact A.
  exists (status_lines (host w) (dom w)).
  split; [reflexivity|]. split; [|split].
  - unfold out_message. destruct (status_lines (host w) (dom w)); [destruct Hin|].
    reflexivity.
  - exact Hin.
  - clear Hin. intros Hin. apply In_status_lines in Hin. destruct Hin as [y [Sy E]].
    apply status_line_inj in E;
      [| eapply selected_clearable; eassumption
       | eapply selected_clearable; eassumption].
    destruct E as [<- E]. congruence.
Qed.

Lemma C7_witness :
  let w := set_host (set_sessionStorage (Some []) example_host)
                    (example_world ["s"; "k"]) in
  attached (dom w) = true
  /\ selected (dom w) SurfSession = true
  /\ entries (host w) SurfSession = 0
  /\ fst (clear_operation SurfSession w) = Normal tt
  /\ exists log,
       fst (clear_selected w) = Normal log
       /\ out_innerHTML (dom (snd (run_onclick w))) = results log
       /\ In "sessionStorage cleared" log
       /\ ~ In "sessionStorage failed" log.
Proof.
  cbv zeta. repeat (split; [reflexivity|]).
  apply (C7_empty_surface_reports_success
           (set_host (set_sessionStorage (Some []) example_host)
                     (example_world ["s"; "k"])) SurfSession);
    reflexivity.
Defined.

Lemma In_expiring_writes : forall hn pn n dmn path,
  In dmn [hn; "." ++ hn] -> In path ["/"; pn] ->
  In (expiring_domain n path dmn) (expiring_writes hn pn n)
  /\ In (expiring n path) (expiring_writes hn pn n).
Proof.
  intros hn pn n dmn path Hd Hp. unfold expiring_writes.
  split; apply in_flat_map; exists dmn; (split; [assumption|]);
    apply in_flat_map; exists path; (split; [assumption|]); simpl; auto.
Qed.

(** C8: when [document.cookie] can be read, [clearCookies] ends
    normally, and for every name found in the cookie string that is not
    empty, for each of the domains [location.hostname] and
    ["." + location.hostname] and each of the paths ["/"] and
    [location.pathname], it assigns to [document.cookie] the name
    expiring on 1 January 1970 with that path and that domain, and the
    name expiring with that path and no domain.  It assigns nothing
    else: every assignment is one of those of a name that is not empty,
    so empty names are skipped. *)
Theorem C8_clearCookies_expires_every_name : forall w jar,
  cookie (host w) = Some jar ->
  let hn := hostname (host w) in
  let pn := pathname (host w) in
  let names := cookie_names (cookie_string hn pn jar) in
  let asked := requests clearCookies w in
  fst (clearCookies w) = Normal tt
  /\ (forall n dmn path,
        In n names -> truthy n = true ->
        In dmn [hn; "." ++ hn] -> In path ["/"; pn] ->
        In (Cookie_set (n ++ "=; expires=Thu, 01 Jan 1970 00:00:00 GMT; path=" ++ path
                          ++ "; domain=" ++ dmn)) asked
        /\ In (Cookie_set (n ++ "=; expires=Thu, 01 Jan 1970 00:00:00 GMT; path=" ++ path))
              asked)
  /\ (forall v, In (Cookie_set v) asked ->
        exists n, In n names /\ truthy n = true /\ In v (expiring_writes hn pn n)).
Proof.
  intros w jar J hn pn names asked.
  assert (Ha : asked = clear_calls (host w) SurfCookies) by apply requests_clearCookies.
  simpl in Ha. rewrite J in Ha. fold hn pn in Ha.
  set (s := cookie_string hn pn jar) in *.
  split; [|split].
  - rewrite clearCookies_run. simpl. now rewrite J.
  - intros n dmn path Hn Tn Hd Hp.
    destruct (truthy (trim s)) eqn:T.
    + assert (T1 : truthy s = true) by (destruct s; [discriminate T | reflexivity]).
      rewrite T1 in Ha. rewrite Ha.
      assert (W : In n (filter truthy names)) by (apply filter_In; split; assumption).
      destruct (In_expiring_writes hn pn n dmn path Hd Hp) as [W1 W2].
      split; right; right; right; apply in_map; unfold cookie_writes;
        apply in_flat_map; exists n; (split; [exact W|]); assumption.
    + rewrite (blank_cookie_names s n T Hn) in Tn. discriminate.
  - intros v Hv. rewrite Ha in Hv.
    assert (W : In v (cookie_writes hn pn s)).
    { destruct Hv as [Hv|Hv]; [discriminate|].
      destruct (truthy s); [|destruct Hv].
      destruct Hv as [Hv|Hv]; [discriminate|].
      destruct (truthy (trim s)); [|destruct Hv].
      destruct Hv as [Hv|Hv]; [discriminate|].
      apply in_map_iff in Hv. destruct Hv as [v' [E Hv']]. now inversion E; subst. }
    unfold cookie_writes in W. apply in_flat_map in W. destruct W as [n [Hn Hw]].
    apply filter_In in Hn. destruct Hn as [Hn Tn]. exists n. auto.
Qed.

Lemma C8_witness :
  let w := example_world ["k"] in
  cookie (host w)
  = Some [mkCookie "sid" "42" "example.com" true "/app" false;
          mkCookie "theme" "dark" "example.com" true "/" false]
  /\ In (Cookie_set
           "theme=; expires=Thu, 01 Jan 1970 00:00:00 GMT; path=/app/page; domain=.example.com")
        (requests clearCookies w).
Proof.
  cbv zeta. split; [reflexivity|].
  destruct (C8_clearCookies_expires_every_name (example_world ["k"]) _ eq_refl)
    as (_ & Hw & _).
  refine (proj1 (Hw "theme" ".example.com" "/app/page" _ eq_refl _ _));
    simpl; auto.
Defined.

(** C9: a surface whose checkbox is not checked holds after the handler
    what it held before, whatever else is checked and whether or not the
    overlay is in the document; so does IndexedDB, which has no
    checkbox. *)
Theorem C9_unselected_surface_unchanged : forall w x,
  selected (dom w) x = false ->
  content (host (snd (run_onclick w))) x = content (host w) x.
Proof.
  intros w x U. destruct (attached (dom w)) eqn:A.
  - rewrite run_onclick_host by exact A. apply after_clear_unselected. exact U.
  - rewrite run_onclick_detached by exact A. reflexivity.
Qed.

Lemma C9_witness :
  let w := example_world ["l"; "c"; "w"; "k"] in
  selected (dom w) SurfSession = false
  /\ content (host (snd (run_onclick w))) SurfSession = InArea (Some [("tab", "x")]).
Proof.
  cbv zeta. split; [reflexivity|].
  exact (C9_unselected_surface_unchanged (example_world ["l"; "c"; "w"; "k"])
           SurfSession eq_refl).
Defined.

(** C10: in every host the cookie probe of the initial detection and the
    cookie probe of [updateStats] end normally with the same count: the
    number of [";"]-separated segments of the cookie string that hold a
    character that is not white space (0 for an empty or blank string),
    and 0 when [document.cookie] throws. *)
Theorem C10_cookie_counts_agree : forall (w : World) (s : summary),
  exists n,
    fst (detect_ck s w) = Normal (set_ck n s)
    /\ fst (updateStats_cookieCount w) = Normal n
    /\ n = match cookie (host w) with
           | Some jar =>
               nonblank_segments (cookie_string (hostname (host w)) (pathname (host w)) jar)
           | None => 0
           end.
Proof.
  intros w s. exists (entries (host w) SurfCookies).
  destruct (detect_ck_run s w) as [c1 E1].
  destruct (updateStats_cookieCount_run w) as [c2 E2].
  rewrite E1, E2. split; [reflexivity|]. split; [reflexivity|].
  simpl. destruct (cookie (host w)); [apply guarded_count_scan | reflexivity].
Qed.

(* ===================================================================== *)
(** ** Further properties of the script                                   *)
(* ===================================================================== *)

(* --------------------------------------------------------------------- *)
(** *** Detection and the first display                                   *)
(* --------------------------------------------------------------------- *)

Lemma length_filter_split : forall (A : Type) (p : A -> bool) (l : list A),
  List.length l
  = List.length (filter (fun x => negb (p x)) l) + List.length (filter p l).
Proof.
  intros A p. induction l as [|x l IH]; simpl; [reflexivity|].
  destruct (p x); simpl; lia.
Qed.

(** [localStorage.length] counts the keys [Object.keys] lists and the
    shadowed ones. *)
Lemma entries_listed : forall h x, entries h x = listed h x + shadowed_keys h x.
Proof.
  intros h x. destruct x; simpl; try lia.
  - destruct (localStorage h) as [items|]; [|reflexivity].
    unfold own_keys. rewrite <- length_filter_split. now rewrite length_map.
  - destruct (sessionStorage h) as [items|]; [|reflexivity].
    unfold own_keys. rewrite <- length_filter_split. now rewrite length_map.
Qed.

(** X1: the initial detection ends normally in every host, whatever is
    missing, blocked or rejecting, and it only reads (the storage and
    the overlay are as before).  The count it reports for Cache Storage,
    the service workers, IndexedDB and the cookies is the number of
    entries the surface holds, 0 when the surface cannot be probed.  The
    count it reports for localStorage and sessionStorage is the number
    of stored keys [Object.keys] lists: the items of the area but those
    whose key has the name of a member of [Storage.prototype] or
    [Object.prototype] (such as [length] or [getItem]); so it is at most
    the number of items, and 0 when the area cannot be touched.  The
    estimate is reported when [navigator.storage.estimate] exists and
    fulfils. *)
Theorem detect_reports_entries : forall w,
  exists s calls,
    detect w = (Normal s, logged calls w)
    /\ (forall x, detected s x = listed (host w) x)
    /\ (forall x, In x [SurfCaches; SurfWorkers; SurfIdb; SurfCookies] ->
          detected s x = entries (host w) x)
    /\ (forall x, detected s x + shadowed_keys (host w) x = entries (host w) x)
    /\ est s = match storage (host w) with
               | EstValue usage quota => Some (usage, quota)
               | _ => None
               end.
Proof.
  intros w. destruct (detect_run w) as [calls E].
  eexists. exists calls. split; [exact E|]. split; [|split; [|split]].
  - intros x. destruct x; reflexivity.
  - intros x Hx. simpl in Hx.
    destruct Hx as [<-|[<-|[<-|[<-|[]]]]]; reflexivity.
  - intros x. symmetry. etransitivity; [apply entries_listed|]. destruct x; reflexivity.
  - reflexivity.
Qed.

(** X2: [updateStats] only reads the storage: the host, the checkboxes
    and [#out] are as before, however it ends.  When it ends normally,
    [#stats] shows for Cache Storage, the service workers, IndexedDB and
    the cookies the count a detection in the same host reports; for
    localStorage and sessionStorage it shows [length], the number of
    items, which is the count of the detection plus the number of stored
    keys a member of the prototype shadows: the two probes agree on a
    storage area exactly when no key of it is shadowed.  When
    [updateStats] throws, [#stats] is as before. *)
Theorem updateStats_agrees_with_detect : forall w w0 s,
  host w0 = host w ->
  fst (detect w0) = Normal s ->
  let w' := snd (updateStats w) in
  host w' = host w
  /\ checked (dom w') = checked (dom w)
  /\ out_innerHTML (dom w') = out_innerHTML (dom w)
  /\ (fst (updateStats w) = Normal tt ->
      exists n,
        stats_innerHTML (dom w') = stats_rows n
        /\ (forall x, displayed n x = detected s x + shadowed_keys (host w) x)
        /\ (forall x, displayed n x = detected s x <-> shadowed_keys (host w) x = 0))
  /\ (fst (updateStats w) = Throw ->
      stats_innerHTML (dom w') = stats_innerHTML (dom w)).
Proof.
  intros w w0 s Hh D.
  destruct (detect_run w0) as [c0 E0]. rewrite E0 in D. cbn [fst] in D.
  rewrite Hh in D.
  assert (Hs : s = mkSummary (listed (host w) SurfLocal) (listed (host w) SurfSession)
                     (entries (host w) SurfCaches) (entries (host w) SurfWorkers)
                     (entries (host w) SurfIdb) (entries (host w) SurfCookies)
                     (match storage (host w) with
                      | EstValue usage quota => Some (usage, quota)
                      | _ => None
                      end)) by congruence.
  rewrite Hs. clear Hs D E0.
  assert (R : forall x,
             displayed (counts_of (host w)) x
             = detected (mkSummary (listed (host w) SurfLocal) (listed (host w) SurfSession)
                          (entries (host w) SurfCaches) (entries (host w) SurfWorkers)
                          (entries (host w) SurfIdb) (entries (host w) SurfCookies)
                          (match storage (host w) with
                           | EstValue usage quota => Some (usage, quota)
                           | _ => None
                           end)) x
               + shadowed_keys (host w) x).
  { intros x. rewrite displayed_counts_of, entries_listed. destruct x; reflexivity. }
  destruct (updateStats_run w) as [calls E]. cbv zeta. rewrite E.
  destruct (unguarded_read_throws (host w) || negb (attached (dom w))).
  - repeat split; try reflexivity. discriminate.
  - split; [reflexivity|]. split; [reflexivity|]. split; [reflexivity|].
    split; [|discriminate]. intros _. exists (counts_of (host w)).
    split; [reflexivity|]. split; [exact R|].
    intros x. rewrite R. lia.
Qed.

Lemma updateStats_agrees_with_detect_witness :
  let w := mkWorld (mkHost (Some [("length", "5"); ("a", "1")]) None None SwMissing
                           IdbNoDatabases None EstMissing "example.com" "/")
                   (mkDom true [] "" "") [] in
  exists n,
    stats_innerHTML (dom (snd (updateStats w))) = stats_rows n
    /\ (forall x, displayed n x
                  = detected (mkSummary 1 0 0 0 0 0 None) x + shadowed_keys (host w) x)
    /\ (forall x, displayed n x = detected (mkSummary 1 0 0 0 0 0 None) x
                  <-> shadowed_keys (host w) x = 0).
Proof.
  cbv zeta.
  exact (proj1 (proj2 (proj2 (proj2
           (updateStats_agrees_with_detect
              (mkWorld (mkHost (Some [("length", "5"); ("a", "1")]) None None SwMissing
                               IdbNoDatabases None EstMissing "example.com" "/")
                       (mkDom true [] "" "") [])
              (mkWorld (mkHost (Some [("length", "5"); ("a", "1")]) None None SwMissing
                               IdbNoDatabases None EstMissing "example.com" "/")
                       (mkDom true [] "" "") [])
              (mkSummary 1 0 0 0 0 0 None) eq_refl eq_refl)))) eq_refl).
Defined.

(** X3: the checkbox options as the script renders them after its
    detection: in every host the script gets to render them, they are
    the options of the five clearable surfaces in the order of the
    handler, and the option of a surface is rendered [disabled] exactly
    when the detection found no entry in it.  So the option of a surface
    that is missing, blocked or whose enumeration rejects is disabled,
    and so is the option of a storage area all of whose keys are
    shadowed by members of the prototype, though the area is not
    empty. *)
Theorem overlay_options_follow_the_host : forall w,
  exists options w',
    overlay_options w = (Normal options, w')
    /\ host w' = host w
    /\ map (fun html => (input_id html, input_disabled html)) options
       = map (fun x => (checkbox_id x, (listed (host w) x =? 0)%nat)) clearable.
Proof.
  intros w. destruct (detect_run w) as [calls E].
  unfold overlay_options. rewrite run_bind, E. cbv beta iota. unfold ret.
  do 2 eexists. split; [reflexivity|]. split; [reflexivity|].
  unfold checkbox_options. cbn [map clearable checkbox_id ls ss c sw ck].
  change (listed (host w) SurfCaches) with (entries (host w) SurfCaches).
  change (listed (host w) SurfWorkers) with (entries (host w) SurfWorkers).
  change (listed (host w) SurfCookies) with (entries (host w) SurfCookies).
  destruct (listed (host w) SurfLocal =? 0)%nat,
    (listed (host w) SurfSession =? 0)%nat,
    (entries (host w) SurfCaches =? 0)%nat,
    (entries (host w) SurfWorkers =? 0)%nat,
    (entries (host w) SurfCookies =? 0)%nat; vm_compute; reflexivity.
Qed.

(* --------------------------------------------------------------------- *)
(** *** The instructions shown for the browser                            *)
(* --------------------------------------------------------------------- *)

Lemma instructions_distinct :
  String.eqb chrome_instructions firefox_instructions = false
  /\ String.eqb chrome_instructions safari_instructions = false
  /\ String.eqb chrome_instructions general_instructions = false
  /\ String.eqb firefox_instructions safari_instructions = false
  /\ String.eqb firefox_instructions general_instructions = false
  /\ String.eqb safari_instructions general_instructions = false.
Proof. vm_compute. repeat split; reflexivity. Qed.

Lemma test_i_words : forall ua,
  test_i ["Chrome"; "Chromium"; "Brave"; "Edg"; "Opera"] ua
  = test_i ["Chrome"; "Chromium"; "Edg"] ua || test_i ["Brave"; "Opera"] ua
  /\ test_i ["Firefox"; "Safari"] ua = test_i ["Firefox"] ua || test_i ["Safari"] ua
  /\ test_i ["Chrome"; "Chromium"; "Edg"; "Firefox"] ua
     = test_i ["Chrome"; "Chromium"; "Edg"] ua || test_i ["Firefox"] ua.
Proof.
  intros ua. unfold test_i. cbn [existsb].
  repeat split;
    repeat match goal with
           | |- context [includes ?p (lower ua)] =>
               let b := fresh "b" in
               generalize (includes p (lower ua)); intros b
           end;
    repeat match goal with b : bool |- _ => destruct b end; reflexivity.
Qed.

(** X4: which text [getBrowserInstructions] returns, by the words the
    user agent contains (letter case apart).  The Firefox text is
    returned exactly for the user agents that contain [Firefox].  The
    Chrome text is returned only when the user agent contains neither
    [Firefox] nor [Safari]; the Safari text only when it contains
    [Safari] and none of [Chrome], [Chromium], [Edg], [Firefox].  A user
    agent with one of [Chrome], [Chromium], [Edg] and with [Safari], as
    Chrome-based browsers send it, gets the general text whenever it
    does not contain [Firefox]. *)
Theorem getBrowserInstructions_cases : forall ua,
  let firefox := test_i ["Firefox"] ua in
  let safari := test_i ["Safari"] ua in
  let chromium := test_i ["Chrome"; "Chromium"; "Edg"] ua in
  let other := test_i ["Brave"; "Opera"] ua in
  (getBrowserInstructions ua = firefox_instructions <-> firefox = true)
  /\ (getBrowserInstructions ua = chrome_instructions
      <-> (chromium || other) && negb firefox && negb safari = true)
  /\ (getBrowserInstructions ua = safari_instructions
      <-> safari && negb firefox && negb chromium = true)
  /\ (getBrowserInstructions ua = general_instructions
      <-> negb firefox && (if safari then chromium else negb (chromium || other)) = true).
Proof.
  intros ua. cbv zeta. unfold getBrowserInstructions.
  destruct (test_i_words ua) as (-> & -> & ->).
  destruct instructions_distinct as (D1 & D2 & D3 & D4 & D5 & D6).
  apply String.eqb_neq in D1, D2, D3, D4, D5, D6.
  destruct (test_i ["Firefox"] ua), (test_i ["Safari"] ua),
    (test_i ["Chrome"; "Chromium"; "Edg"] ua), (test_i ["Brave"; "Opera"] ua);
    cbn [negb andb orb];
    repeat split; intros H; try reflexivity; try (exfalso; discriminate H);
    try (exfalso; congruence).
Qed.

Lemma getBrowserInstructions_cases_witness :
  getBrowserInstructions
    "Mozilla/5.0 (Windows NT 10.0; Win64; x64) AppleWebKit/537.36 (KHTML, like Gecko) Chrome/120.0.0.0 Safari/537.36"
  = general_instructions.
Proof.
  apply (getBrowserInstructions_cases
           "Mozilla/5.0 (Windows NT 10.0; Win64; x64) AppleWebKit/537.36 (KHTML, like Gecko) Chrome/120.0.0.0 Safari/537.36").
  vm_compute. reflexivity.
Defined.

(* --------------------------------------------------------------------- *)
(** *** Strings without a separator, and trimmed strings                  *)
(* --------------------------------------------------------------------- *)

Lemma append_assoc_string : forall a b c : string, (a ++ b) ++ c = a ++ b ++ c.
Proof. induction a as [|x a IH]; intros; simpl; [reflexivity|now rewrite IH]. Qed.

Lemma lacks_app : forall a s t, lacks a (s ++ t) = lacks a s && lacks a t.
Proof.
  intros a. induction s as [|b s IH]; intros t; simpl; [reflexivity|].
  rewrite IH. now rewrite andb_assoc.
Qed.

Lemma split_lacks : forall sep s, lacks sep s = true -> split sep s = [s].
Proof.
  intros sep. induction s as [|a s IH]; intros H; simpl in *; [reflexivity|].
  apply andb_true_iff in H. destruct H as [Ha Hs]. apply negb_true_iff in Ha.
  rewrite Ha, (IH Hs). reflexivity.
Qed.

Lemma split_app_sep : forall sep a b,
  lacks sep a = true -> split sep (a ++ String sep b) = a :: split sep b.
Proof.
  intros sep. induction a as [|x a IH]; intros b H; simpl in *.
  - now rewrite Ascii.eqb_refl.
  - apply andb_true_iff in H. destruct H as [Hx Ha]. apply negb_true_iff in Hx.
    rewrite Hx, (IH b Ha). reflexivity.
Qed.

Lemma cut_lacks : forall sep s, lacks sep s = true -> cut sep s = (s, None).
Proof.
  intros sep. induction s as [|a s IH]; intros H; simpl in *; [reflexivity|].
  apply andb_true_iff in H. destruct H as [Ha Hs]. apply negb_true_iff in Ha.
  rewrite Ha, (IH Hs). reflexivity.
Qed.

Lemma cut_app_sep : forall sep a b,
  lacks sep a = true -> cut sep (a ++ String sep b) = (a, Some b).
Proof.
  intros sep. induction a as [|x a IH]; intros b H; simpl in *.
  - now rewrite Ascii.eqb_refl.
  - apply andb_true_iff in H. destruct H as [Hx Ha]. apply negb_true_iff in Hx.
    rewrite Hx, (IH b Ha). reflexivity.
Qed.

Lemma cut_fst_lacks_sep : forall sep s, lacks sep (fst (cut sep s)) = true.
Proof.
  intros sep. induction s as [|a s IH]; simpl; [reflexivity|].
  destruct (Ascii.eqb a sep) eqn:E; [reflexivity|].
  destruct (cut sep s) as [before rest]. simpl in *. now rewrite E, IH.
Qed.

Lemma lacks_cut_fst : forall a sep s, lacks a s = true -> lacks a (fst (cut sep s)) = true.
Proof.
  intros a sep. induction s as [|b s IH]; intros H; simpl in *; [reflexivity|].
  apply andb_true_iff in H. destruct H as [Hb Hs].
  destruct (Ascii.eqb b sep); [reflexivity|].
  destruct (cut sep s) as [before rest]. simpl in *. now rewrite Hb, IH.
Qed.

Lemma lacks_trimStart : forall a s, lacks a s = true -> lacks a (trimStart s) = true.
Proof.
  intros a. induction s as [|b s IH]; intros H; [reflexivity|].
  simpl trimStart. destruct (is_whitespace b); [|exact H].
  simpl in H. apply andb_true_iff in H. now apply IH.
Qed.

Lemma lacks_trimEnd : forall a s, lacks a s = true -> lacks a (trimEnd s) = true.
Proof.
  intros a. induction s as [|b s IH]; intros H; [reflexivity|].
  simpl in H. apply andb_true_iff in H. destruct H as [Hb Hs].
  specialize (IH Hs). simpl trimEnd.
  destruct (trimEnd s) as [|x t].
  - destruct (is_whitespace b); [reflexivity|]. simpl. now rewrite Hb.
  - change (lacks a (String b (String x t))) with (negb (Ascii.eqb b a) && lacks a (String x t)).
    now rewrite Hb, IH.
Qed.

Lemma lacks_trim : forall a s, lacks a s = true -> lacks a (trim s) = true.
Proof. intros a s H. unfold trim. now apply lacks_trimEnd, lacks_trimStart. Qed.

Lemma split_segments_lack : forall sep s seg,
  In seg (split sep s) -> lacks sep seg = true.
Proof.
  intros sep. induction s as [|a s IH]; intros seg H; simpl in H.
  - destruct H as [<-|[]]. reflexivity.
  - destruct (Ascii.eqb a sep) eqn:E.
    + destruct H as [<-|H]; [reflexivity|]. now apply IH.
    + destruct (split sep s) as [|seg0 rest] eqn:S.
      * exfalso. eapply split_not_nil; eassumption.
      * destruct H as [<-|H].
        -- simpl. rewrite E. simpl. apply IH. now left.
        -- apply IH. now right.
Qed.

Lemma trimStart_length : forall s,
  trimStart s = s \/ String.length (trimStart s) < String.length s.
Proof.
  induction s as [|a s IH]; [now left|]. simpl.
  destruct (is_whitespace a); [|now left].
  right. cbn [String.length]. destruct IH as [->|IH]; lia.
Qed.

Lemma trimEnd_length : forall s, String.length (trimEnd s) <= String.length s.
Proof.
  induction s as [|a s IH]; [reflexivity|]. simpl.
  destruct (trimEnd s) as [|x t].
  - destruct (is_whitespace a); simpl; lia.
  - simpl in *. lia.
Qed.

Lemma trimmed_inv : forall s, trimmed s = true -> trimStart s = s /\ trimEnd s = s.
Proof.
  intros s H. apply String.eqb_eq in H. unfold trim in H.
  assert (L := trimEnd_length (trimStart s)). rewrite H in L.
  destruct (trimStart_length s) as [E|E]; [|lia].
  rewrite E in H. now split.
Qed.

Lemma trimmed_trim : forall s, trimmed s = true -> trim s = s.
Proof. intros s H. now apply String.eqb_eq. Qed.

Lemma trimEnd_idem : forall s, trimEnd (trimEnd s) = trimEnd s.
Proof.
  induction s as [|a s IH]; [reflexivity|]. simpl.
  destruct (trimEnd s) as [|x t] eqn:E.
  - destruct (is_whitespace a) eqn:W; [reflexivity|]. simpl. now rewrite W.
  - change (trimEnd (String a (String x t)))
      with (match trimEnd (String x t) with
            | EmptyString => if is_whitespace a then EmptyString else String a EmptyString
            | String y u => String a (String y u)
            end).
    rewrite IH. reflexivity.
Qed.

Lemma trimStart_trimEnd : forall s,
  trimStart s = s -> trimStart (trimEnd s) = trimEnd s.
Proof.
  intros [|a s] H; [reflexivity|]. simpl in H.
  destruct (is_whitespace a) eqn:W.
  - exfalso. destruct (trimStart_length s) as [E|E].
    + rewrite E in H. apply (f_equal String.length) in H. simpl in H. lia.
    + rewrite H in E. simpl in E. lia.
  - cbn [trimEnd]. destruct (trimEnd s); rewrite ?W; cbn [trimStart]; rewrite ?W; reflexivity.
Qed.

Lemma trimStart_idem : forall s, trimStart (trimStart s) = trimStart s.
Proof.
  induction s as [|a s IH]; [reflexivity|]. simpl.
  destruct (is_whitespace a) eqn:W; [exact IH|]. simpl. now rewrite W.
Qed.

Lemma trim_idem : forall s, trim (trim s) = trim s.
Proof.
  intros s. unfold trim.
  rewrite (trimStart_trimEnd (trimStart s)) by apply trimStart_idem.
  apply trimEnd_idem.
Qed.

Lemma trimmed_dot : forall s,
  truthy s = true -> trimmed s = true -> trim ("." ++ s) = "." ++ s.
Proof.
  intros s T H. destruct (trimmed_inv s H) as [_ E].
  unfold trim. simpl. rewrite E. destruct s; [discriminate|reflexivity].
Qed.

(** The name [clearCookies] finds in a segment of the cookie string is
    empty or plain. *)
Lemma cookie_name_plain : forall s x,
  In x (split ";" s) -> plain_name (cookie_name x) = truthy (cookie_name x).
Proof.
  intros s x H. unfold plain_name, cookie_name, trimmed.
  rewrite trim_idem, String.eqb_refl.
  rewrite (lacks_trim ";"), (lacks_trim "=").
  - now rewrite !andb_true_r.
  - apply cut_fst_lacks_sep.
  - apply lacks_cut_fst, lacks_trim. eapply split_segments_lack. eassumption.
Qed.

(* --------------------------------------------------------------------- *)
(** *** What the assignments of [clearCookies] mean to the cookie jar     *)
(* --------------------------------------------------------------------- *)

Lemma parse_attribute_expires : forall sc,
  parse_attribute sc " expires=Thu, 01 Jan 1970 00:00:00 GMT"
  = mkSetCookie (sc_name sc) (sc_value sc) true (sc_path sc) (sc_domain sc).
Proof. reflexivity. Qed.

Lemma parse_attribute_path : forall sc p,
  plain_path p = true ->
  parse_attribute sc (" path=" ++ p)
  = mkSetCookie (sc_name sc) (sc_value sc) (sc_expired sc) (Some p) (sc_domain sc).
Proof.
  intros sc p H. unfold plain_path in H.
  apply andb_true_iff in H. destruct H as [H _].
  apply andb_true_iff in H. destruct H as [P T].
  unfold parse_attribute.
  change (cut "=" (" path=" ++ p)) with (" path", Some p).
  cbv beta iota. rewrite (trimmed_trim p T), P. reflexivity.
Qed.

Lemma parse_attribute_domain : forall sc dmn,
  trim dmn = dmn ->
  truthy (strip_dot dmn) = true ->
  parse_attribute sc (" domain=" ++ dmn)
  = mkSetCookie (sc_name sc) (sc_value sc) (sc_expired sc) (sc_path sc)
                (Some (strip_dot dmn)).
Proof.
  intros sc dmn T S. unfold parse_attribute.
  change (cut "=" (" domain=" ++ dmn)) with (" domain", Some dmn).
  cbv beta iota. rewrite T, S. reflexivity.
Qed.

Lemma plain_path_lacks : forall p, plain_path p = true -> lacks ";" (" path=" ++ p) = true.
Proof.
  intros p H. unfold plain_path in H. apply andb_true_iff in H. destruct H as [_ L].
  rewrite lacks_app, L. reflexivity.
Qed.

Lemma plain_name_inv : forall n,
  plain_name n = true ->
  truthy n = true /\ trim n = n /\ lacks ";" n = true /\ lacks "=" n = true.
Proof.
  intros n H. unfold plain_name in H.
  apply andb_true_iff in H. destruct H as [H E].
  apply andb_true_iff in H. destruct H as [H S].
  apply andb_true_iff in H. destruct H as [T R].
  repeat split; try assumption. now apply trimmed_trim.
Qed.

Lemma plain_hostname_inv : forall hn,
  plain_hostname hn = true ->
  truthy hn = true /\ trimmed hn = true /\ lacks ";" hn = true /\ strip_dot hn = hn.
Proof.
  intros hn H. unfold plain_hostname in H.
  apply andb_true_iff in H. destruct H as [H D].
  apply andb_true_iff in H. destruct H as [H S].
  apply andb_true_iff in H. destruct H as [T R].
  repeat split; try assumption.
  destruct hn as [|a hn]; [reflexivity|]. simpl in D |- *.
  destruct (Ascii.eqb a ".") eqn:E; [|reflexivity].
  apply Ascii.eqb_eq in E. subst a. simpl in D. destruct hn; discriminate.
Qed.

Lemma expiring_segments : forall n path,
  plain_name n = true -> plain_path path = true ->
  split ";" (expiring n path)
  = [n ++ "="; " expires=Thu, 01 Jan 1970 00:00:00 GMT"; " path=" ++ path].
Proof.
  intros n path N P. destruct (plain_name_inv n N) as (_ & _ & S & _).
  unfold expiring.
  change (n ++ "=; expires=Thu, 01 Jan 1970 00:00:00 GMT; path=" ++ path)
    with (n ++ "=" ++ String ";" (" expires=Thu, 01 Jan 1970 00:00:00 GMT"
                                  ++ String ";" (" path=" ++ path))).
  rewrite <- append_assoc_string.
  rewrite split_app_sep by (rewrite lacks_app, S; reflexivity).
  rewrite split_app_sep by reflexivity.
  rewrite split_lacks by (now apply plain_path_lacks).
  reflexivity.
Qed.

Lemma expiring_domain_segments : forall n path dmn,
  plain_name n = true -> plain_path path = true -> lacks ";" dmn = true ->
  split ";" (expiring_domain n path dmn)
  = [n ++ "="; " expires=Thu, 01 Jan 1970 00:00:00 GMT"; " path=" ++ path;
     " domain=" ++ dmn].
Proof.
  intros n path dmn N P D. destruct (plain_name_inv n N) as (_ & _ & S & _).
  unfold expiring_domain.
  replace (n ++ "=; expires=Thu, 01 Jan 1970 00:00:00 GMT; path=" ++ path ++ "; domain=" ++ dmn)
    with ((n ++ "=") ++ String ";" (" expires=Thu, 01 Jan 1970 00:00:00 GMT"
                                  ++ String ";" ((" path=" ++ path)
                                  ++ String ";" (" domain=" ++ dmn)))).
  - rewrite split_app_sep by (rewrite lacks_app, S; reflexivity).
    rewrite split_app_sep by reflexivity.
    rewrite split_app_sep by (now apply plain_path_lacks).
    rewrite split_lacks by (rewrite lacks_app, D; reflexivity).
    reflexivity.
  - rewrite !append_assoc_string. reflexivity.
Qed.

Lemma parse_name_value : forall n,
  plain_name n = true ->
  match cut "=" (n ++ "=") with
  | (n0, Some x) => (trim n0, trim x)
  | (x, None) => (EmptyString, trim x)
  end = (n, "").
Proof.
  intros n N. destruct (plain_name_inv n N) as (_ & T & _ & E).
  rewrite cut_app_sep by exact E. now rewrite T.
Qed.

Lemma parse_expiring_strings : forall n path hn,
  plain_name n = true ->
  plain_path path = true ->
  plain_hostname hn = true ->
  parse_set_cookie (expiring n path) = mkSetCookie n "" true (Some path) None
  /\ parse_set_cookie (expiring_domain n path hn)
     = mkSetCookie n "" true (Some path) (Some hn)
  /\ parse_set_cookie (expiring_domain n path ("." ++ hn))
     = mkSetCookie n "" true (Some path) (Some hn).
Proof.
  intros n path hn N P H.
  destruct (plain_hostname_inv hn H) as (T & R & S & D).
  unfold parse_set_cookie. repeat split.
  - rewrite expiring_segments by assumption.
    rewrite (parse_name_value n N). cbn [fold_left].
    rewrite parse_attribute_expires, parse_attribute_path by exact P. reflexivity.
  - rewrite expiring_domain_segments by assumption.
    rewrite (parse_name_value n N). cbn [fold_left].
    rewrite parse_attribute_expires, parse_attribute_path by exact P.
    rewrite parse_attribute_domain.
    + rewrite D. reflexivity.
    + now apply trimmed_trim.
    + now rewrite D.
  - rewrite expiring_domain_segments by assumption.
    rewrite (parse_name_value n N). cbn [fold_left].
    rewrite parse_attribute_expires, parse_attribute_path by exact P.
    rewrite parse_attribute_domain.
    + reflexivity.
    + now apply trimmed_dot.
    + exact T.
Qed.

(* --------------------------------------------------------------------- *)
(** *** The order of the cookie string                                    *)
(* --------------------------------------------------------------------- *)

Lemma In_insert_by_path : forall x c l,
  In x (insert_by_path c l) <-> x = c \/ In x l.
Proof.
  intros x c. induction l as [|d l IH]; simpl.
  - split; intros [H|H]; auto.
  - destruct (Nat.ltb (String.length (ck_path c)) (String.length (ck_path d))); simpl.
    + rewrite IH. split; intros H; intuition auto.
    + split; intros H; intuition auto.
Qed.

Lemma In_by_path_length : forall x l, In x (by_path_length l) <-> In x l.
Proof.
  intros x. induction l as [|c l IH]; simpl; [tauto|].
  rewrite In_insert_by_path, IH. split; intros [H|H]; auto.
Qed.

Lemma list_sum_insert_by_path : forall (f : Cookie -> nat) c l,
  list_sum (map f (insert_by_path c l)) = f c + list_sum (map f l).
Proof.
  intros f c. induction l as [|d l IH]; simpl; [reflexivity|].
  destruct (Nat.ltb (String.length (ck_path c)) (String.length (ck_path d))); simpl.
  - change (fold_right Nat.add 0 (map f (insert_by_path c l)))
      with (list_sum (map f (insert_by_path c l))).
    rewrite IH. unfold list_sum. lia.
  - reflexivity.
Qed.

Lemma list_sum_by_path_length : forall (f : Cookie -> nat) l,
  list_sum (map f (by_path_length l)) = list_sum (map f l).
Proof.
  intros f. induction l as [|c l IH]; simpl; [reflexivity|].
  rewrite list_sum_insert_by_path, IH. reflexivity.
Qed.

Lemma forallb_by_path_length : forall (p : Cookie -> bool) l,
  forallb p l = true -> forallb p (by_path_length l) = true.
Proof.
  intros p l H. apply forallb_forall. intros x Hx.
  apply (proj1 (In_by_path_length x l)) in Hx. exact (proj1 (forallb_forall p l) H x Hx).
Qed.

(* --------------------------------------------------------------------- *)
(** *** What the assignments of [clearCookies] do to the jar              *)
(* --------------------------------------------------------------------- *)

Lemma filter_and : forall (A : Type) (p r : A -> bool) (l : list A),
  filter p (filter r l) = filter (fun x => r x && p x) l.
Proof.
  intros A p r. induction l as [|x l IH]; simpl; [reflexivity|].
  destruct (r x); simpl; [destruct (p x)|]; now rewrite IH.
Qed.

Lemma filter_all : forall (A : Type) (p : A -> bool) (l : list A),
  (forall x, In x l -> p x = true) -> filter p l = l.
Proof.
  intros A p. induction l as [|x l IH]; intros H; simpl; [reflexivity|].
  rewrite (H x) by now left. rewrite IH; [reflexivity|].
  intros y Hy. apply H. now right.
Qed.

Lemma filter_none : forall (A : Type) (p : A -> bool) (l : list A),
  (forall x, In x l -> p x = false) -> filter p l = [].
Proof.
  intros A p. induction l as [|x l IH]; intros H; simpl; [reflexivity|].
  rewrite (H x) by now left. apply IH. intros y Hy. apply H. now right.
Qed.

Lemma existsb_pointwise : forall (A : Type) (p r : A -> bool) (l : list A),
  (forall x, p x = r x) -> existsb p l = existsb r l.
Proof.
  intros A p r l H. induction l as [|x l IH]; simpl; [reflexivity|].
  now rewrite H, IH.
Qed.

Lemma domain_matches_refl : forall hn, domain_matches hn hn = true.
Proof. intros hn. unfold domain_matches. now rewrite String.eqb_refl. Qed.

Lemma same_cookie_refl : forall a, same_cookie a a = true.
Proof. intros a. unfold same_cookie. now rewrite !String.eqb_refl. Qed.

Lemma same_cookie_inv : forall a b,
  same_cookie a b = true ->
  ck_name a = ck_name b /\ ck_domain a = ck_domain b /\ ck_path a = ck_path b.
Proof.
  intros a b H. unfold same_cookie in H.
  apply andb_true_iff in H. destruct H as [H P].
  apply andb_true_iff in H. destruct H as [N D].
  apply String.eqb_eq in N, D, P. auto.
Qed.

Lemma same_cookie_congr : forall a b c,
  same_cookie a b = true -> same_cookie c a = same_cookie c b.
Proof.
  intros a b c H. destruct (same_cookie_inv a b H) as (N & D & P).
  unfold same_cookie. now rewrite N, D, P.
Qed.

(** Cookies of the same name, domain and path are kept together. *)
Lemma kept_by_platform_congr : forall jar a b,
  same_cookie a b = true -> kept_by_platform jar a = kept_by_platform jar b.
Proof.
  intros jar a b H. unfold kept_by_platform, behind_http_only.
  destruct (same_cookie_inv a b H) as (N & _). rewrite N. f_equal.
  induction jar as [|old jar IH]; simpl; [reflexivity|].
  rewrite IH. now rewrite (same_cookie_congr a b old H).
Qed.

Lemma http_only_kept : forall jar old,
  In old jar -> ck_http_only old = true -> kept_by_platform jar old = true.
Proof.
  intros jar old I H. unfold kept_by_platform, behind_http_only.
  apply orb_true_iff. right.
  apply existsb_exists. exists old. split; [exact I|].
  now rewrite same_cookie_refl, H.
Qed.

(** A filter that leaves the http-only cookies in the jar changes
    nothing in what the platform keeps. *)
Lemma kept_by_platform_filter : forall (p : Cookie -> bool) jar c,
  (forall old, In old jar -> ck_http_only old = true -> p old = true) ->
  kept_by_platform (filter p jar) c = kept_by_platform jar c.
Proof.
  intros p jar c H. unfold kept_by_platform, behind_http_only. f_equal.
  induction jar as [|old jar IH]; simpl; [reflexivity|].
  assert (IH' := IH (fun o Ho => H o (or_intror Ho))).
  destruct (p old) eqn:P; simpl; rewrite IH'; [reflexivity|].
  destruct (ck_http_only old) eqn:T.
  - rewrite (H old (or_introl eq_refl) T) in P. discriminate.
  - now rewrite andb_false_r.
Qed.

Lemma kept_by_platform_evict : forall k jar c,
  kept_by_platform (evict k jar) c = kept_by_platform jar c.
Proof.
  intros k jar c. unfold evict. apply kept_by_platform_filter.
  intros old I T. rewrite (http_only_kept jar old I T).
  now rewrite andb_false_r.
Qed.

(** An expiring assignment of a name that is not empty, for the host
    name of the page, with or without the [domain] attribute. *)
Lemma store_cookie_expired : forall hn pn n path (dmn : bool) jar,
  truthy n = true ->
  store_cookie hn pn (mkSetCookie n "" true (Some path)
                        (if dmn then Some hn else None)) jar
  = evict (mkCookie n "" hn false path false) jar.
Proof.
  intros hn pn n path dmn jar T. unfold store_cookie, evict.
  cbn [sc_name sc_value sc_expired sc_path sc_domain]. rewrite T. cbn [negb andb].
  set (k := mkCookie n "" hn false path false).
  assert (Same : forall old,
            same_cookie old (mkCookie n "" (if dmn then hn else hn)
                                      (if dmn then false else true) path false)
            = same_cookie old k) by (intros old; destruct dmn; reflexivity).
  assert (Name : forall c, same_cookie c k = true -> ck_name c = n)
    by (intros c H; apply (same_cookie_inv c k H)).
  destruct (protected_name n) eqn:P.
  - symmetry. apply filter_all. intros c _.
    destruct (same_cookie c k) eqn:S; [|reflexivity].
    unfold kept_by_platform. now rewrite (Name c S), P.
  - replace (match (if dmn then Some hn else None) with Some dm => dm | None => hn end)
      with hn by (destruct dmn; reflexivity).
    rewrite domain_matches_refl. cbn [negb].
    replace (match (if dmn then Some hn else None) with Some _ => false | None => true end)
      with (if dmn then false else true) by (destruct dmn; reflexivity).
    replace (mkCookie n "" hn (if dmn then false else true) path false)
      with (mkCookie n "" (if dmn then hn else hn) (if dmn then false else true) path false)
      by (destruct dmn; reflexivity).
    rewrite (existsb_pointwise _ _ (fun old => same_cookie old k && ck_http_only old))
      by (intros old; now rewrite Same).
    rewrite (filter_ext _ (fun old => negb (same_cookie old k)))
      by (intros old; now rewrite Same).
    destruct (existsb (fun old => same_cookie old k && ck_http_only old) jar) eqn:B.
    + symmetry. apply filter_all. intros c _.
      destruct (same_cookie c k) eqn:S; [|reflexivity].
      apply existsb_exists in B. destruct B as [old [I B]].
      apply andb_true_iff in B. destruct B as [So Ho].
      assert (K : kept_by_platform jar old = true) by now apply http_only_kept.
      rewrite <- (kept_by_platform_congr jar old c); [now rewrite K|].
      rewrite (same_cookie_congr c k old S). exact So.
    + apply filter_ext. intros c.
      destruct (same_cookie c k) eqn:S; [|reflexivity].
      unfold kept_by_platform, behind_http_only. rewrite (Name c S), P. cbn [orb andb].
      replace (existsb (fun old => same_cookie old c && ck_http_only old) jar) with false;
        [reflexivity|].
      symmetry. rewrite <- B. apply existsb_pointwise. intros old.
      now rewrite (same_cookie_congr c k old S).
Qed.

(** Evictions compose: what a run of them evicts are the cookies of one
    of the names, domains and paths, but the ones the platform keeps. *)
Lemma evict_all : forall ks jar,
  fold_left (fun j k => evict k j) ks jar
  = filter (fun c => negb (existsb (same_cookie c) ks && negb (kept_by_platform jar c))) jar.
Proof.
  induction ks as [|k ks IH]; intros jar; cbn [fold_left existsb].
  - symmetry. apply filter_all. reflexivity.
  - rewrite IH.
    rewrite (filter_ext _ (fun c => negb (existsb (same_cookie c) ks
                                          && negb (kept_by_platform jar c))))
      by (intros c; now rewrite kept_by_platform_evict).
    unfold evict. rewrite filter_and. apply filter_ext. intros c.
    destruct (same_cookie c k), (existsb (same_cookie c) ks), (kept_by_platform jar c);
      reflexivity.
Qed.

Lemma store_expiring_writes : forall hn pn n jar,
  plain_hostname hn = true -> plain_path pn = true -> plain_name n = true ->
  store_all hn pn (expiring_writes hn pn n) jar
  = fold_left (fun j k => evict k j) (write_keys hn pn n) jar.
Proof.
  intros hn pn n jar H P N.
  assert (R : plain_path "/" = true) by reflexivity.
  destruct (parse_expiring_strings n "/" hn N R H) as (A1 & A2 & A3).
  destruct (parse_expiring_strings n pn hn N P H) as (B1 & B2 & B3).
  destruct (plain_name_inv n N) as (T & _).
  unfold expiring_writes, store_all, write_keys. cbn [flat_map app fold_left].
  rewrite A1, A2, A3, B1, B2, B3.
  rewrite !(store_cookie_expired hn pn n _ true) by exact T.
  rewrite !(store_cookie_expired hn pn n _ false) by exact T.
  reflexivity.
Qed.

Lemma store_cookie_writes : forall hn pn names jar,
  plain_hostname hn = true -> plain_path pn = true ->
  (forall n, In n names -> plain_name n = true) ->
  store_all hn pn (flat_map (expiring_writes hn pn) names) jar
  = fold_left (fun j k => evict k j) (flat_map (write_keys hn pn) names) jar.
Proof.
  intros hn pn names jar H P. revert jar.
  induction names as [|n names IH]; intros jar N; [reflexivity|].
  cbn [flat_map]. rewrite store_all_app, fold_left_app.
  rewrite store_expiring_writes by (try assumption; apply N; now left).
  apply IH. intros m Hm. apply N. now right.
Qed.

Lemma existsb_write_keys : forall hn pn names c,
  existsb (same_cookie c) (flat_map (write_keys hn pn) names)
  = existsb (String.eqb (ck_name c)) names
    && String.eqb (ck_domain c) hn
    && (String.eqb (ck_path c) "/" || String.eqb (ck_path c) pn).
Proof.
  intros hn pn names c. induction names as [|n names IH]; [reflexivity|].
  cbn [flat_map]. rewrite existsb_app, IH.
  unfold write_keys, same_cookie. cbn [existsb ck_name ck_domain ck_path].
  destruct (String.eqb (ck_name c) n), (existsb (String.eqb (ck_name c)) names),
    (String.eqb (ck_domain c) hn), (String.eqb (ck_path c) "/"),
    (String.eqb (ck_path c) pn); reflexivity.
Qed.

Lemma names_found_plain : forall h n, In n (names_found h) -> plain_name n = true.
Proof.
  intros h n H. unfold names_found in H.
  destruct (cookie h) as [jar|]; [|destruct H].
  apply filter_In in H. destruct H as [H T].
  unfold cookie_names in H. apply in_map_iff in H. destruct H as [x [<- Hx]].
  rewrite (cookie_name_plain _ x Hx). exact T.
Qed.

Lemma plain_location_inv : forall h,
  plain_location h = true ->
  plain_hostname (hostname h) = true /\ plain_path (pathname h) = true.
Proof. intros h H. now apply andb_true_iff in H. Qed.

(** The jar the cookie block leaves, on a page with a plain location. *)
Lemma cleared_cookies : forall h jar,
  cookie h = Some jar ->
  plain_location h = true ->
  cookie (cleared h SurfCookies)
  = Some (filter (fun c => negb (targeted (hostname h) (pathname h) (names_found h) jar c))
                 jar).
Proof.
  intros h jar E L. destruct (plain_location_inv h L) as [H P].
  assert (N := names_found_plain h). unfold names_found in *.
  unfold cleared. rewrite E in *.
  destruct (truthy (trim (cookie_string (hostname h) (pathname h) jar))) eqn:T.
  - cbn [cookie set_cookie]. f_equal. unfold cookie_writes.
    rewrite store_cookie_writes by assumption. rewrite evict_all.
    apply filter_ext. intros c. unfold targeted. now rewrite existsb_write_keys.
  - rewrite E. f_equal. symmetry. apply filter_all. intros c _.
    unfold targeted.
    rewrite (filter_none _ truthy (cookie_names _)); [reflexivity|].
    intros n Hn. eapply blank_cookie_names; eassumption.
Qed.

Lemma prefix_lower : forall a b, prefix a b = true -> prefix (lower a) (lower b) = true.
Proof.
  induction a as [|x a IH]; intros b H; [destruct b; reflexivity|].
  destruct b as [|y b]; [discriminate H|]. simpl in H |- *.
  destruct (ascii_dec x y) as [->|N]; [|discriminate H].
  destruct (ascii_dec (to_lower y) (to_lower y)) as [_|N]; [now apply IH|].
  exfalso. now apply N.
Qed.

Lemma protected_name_prefix_like : forall n,
  prefix_like n = false -> protected_name n = false.
Proof.
  intros n H. unfold prefix_like in H. apply orb_false_iff in H. destruct H as [S T].
  unfold protected_name.
  destruct (prefix "__Secure-" n) eqn:P1.
  - apply prefix_lower in P1. change (lower "__Secure-") with "__secure-" in P1. congruence.
  - destruct (prefix "__Host-" n) eqn:P2; [|reflexivity].
    apply prefix_lower in P2. change (lower "__Host-") with "__host-" in P2. congruence.
Qed.

(** X6: what [clearCookies] does to the cookies of the page, in the
    cookie model of this file (RFC 6265: eviction by name, domain and
    path; an http-only cookie is out of a script's reach).  On a page
    with a plain location whose cookies can be read and have no name
    that begins with [__Secure-] or [__Host-] in any letter case,
    [clearCookies] ends normally and the jar it leaves is the jar it
    found without the cookies with one of the names found in
    [document.cookie], stored for the very host name of the page, with
    the path ["/"] or the path of the page, but those behind an
    http-only cookie.  So it never adds a cookie and never changes one,
    and a cookie it removes is one of these; a cookie with another
    name, a cookie stored for a parent domain, a cookie with another
    path and an http-only cookie stay. *)
Theorem clearCookies_evicts_targeted : forall w jar,
  cookie (host w) = Some jar ->
  plain_location (host w) = true ->
  forallb (fun c => negb (prefix_like (ck_name c))) jar = true ->
  let hn := hostname (host w) in
  let pn := pathname (host w) in
  fst (clearCookies w) = Normal tt
  /\ cookie (host (snd (clearCookies w)))
     = Some (filter (fun c => negb (existsb (String.eqb (ck_name c)) (names_found (host w))
                                   && String.eqb (ck_domain c) hn
                                   && (String.eqb (ck_path c) "/" || String.eqb (ck_path c) pn)
                                   && negb (behind_http_only jar c)))
                    jar).
Proof.
  intros w jar E L F hn pn. rewrite clearCookies_run. cbn [fst snd host logged set_host].
  split.
  - unfold clear_fails. now rewrite E.
  - rewrite (cleared_cookies _ jar E L). f_equal. apply filter_ext_in. intros c Hc.
    unfold targeted, kept_by_platform.
    rewrite protected_name_prefix_like; [reflexivity|].
    apply negb_true_iff. exact (proj1 (forallb_forall _ jar) F c Hc).
Qed.

Lemma clearCookies_evicts_targeted_witness :
  let jar := [mkCookie "sid" "42" "example.com" true "/app" false;
              mkCookie "theme" "dark" "example.com" true "/" false;
              mkCookie "theme" "dark" "example.com" true "/app/page" true;
              mkCookie "lang" "en" "example.com" false "/app/page" false] in
  let w := mkWorld (mkHost None None None SwMissing IdbNoDatabases (Some jar) EstMissing
                           "example.com" "/app/page")
                   (mkDom true [] "" "") [] in
  fst (clearCookies w) = Normal tt
  /\ cookie (host (snd (clearCookies w)))
     = Some [mkCookie "sid" "42" "example.com" true "/app" false;
             mkCookie "theme" "dark" "example.com" true "/app/page" true].
Proof.
  cbv zeta.
  apply (clearCookies_evicts_targeted
           (mkWorld (mkHost None None None SwMissing IdbNoDatabases
                       (Some [mkCookie "sid" "42" "example.com" true "/app" false;
                              mkCookie "theme" "dark" "example.com" true "/" false;
                              mkCookie "theme" "dark" "example.com" true "/app/page" true;
                              mkCookie "lang" "en" "example.com" false "/app/page" false])
                       EstMissing "example.com" "/app/page")
                    (mkDom true [] "" "") [])
           [mkCookie "sid" "42" "example.com" true "/app" false;
            mkCookie "theme" "dark" "example.com" true "/" false;
            mkCookie "theme" "dark" "example.com" true "/app/page" true;
            mkCookie "lang" "en" "example.com" false "/app/page" false]);
    reflexivity.
Defined.

(* --------------------------------------------------------------------- *)
(** *** The cookie string, cookie by cookie                               *)
(* --------------------------------------------------------------------- *)

Lemma split_app : forall sep a b,
  split sep (a ++ String sep b) = (split sep a ++ split sep b)%list.
Proof.
  intros sep. induction a as [|x a IH]; intros b; simpl.
  - now rewrite Ascii.eqb_refl.
  - destruct (Ascii.eqb x sep); rewrite IH; [reflexivity|].
    destruct (split sep a) as [|seg rest] eqn:E; [|reflexivity].
    exfalso. eapply split_not_nil; eassumption.
Qed.

Lemma cookie_names_app : forall a b,
  cookie_names (a ++ String ";" b) = (cookie_names a ++ cookie_names b)%list.
Proof. intros a b. unfold cookie_names. now rewrite split_app, map_app. Qed.

Lemma cookie_names_space : forall s, cookie_names (String " " s) = cookie_names s.
Proof.
  intros s. unfold cookie_names. simpl.
  destruct (split ";" s) as [|seg rest] eqn:E; [|reflexivity].
  exfalso. eapply split_not_nil; eassumption.
Qed.

Lemma scan_segments_app : forall a ink b,
  scan_segments ink (a ++ String ";" b) = scan_segments ink a + scan_segments false b.
Proof.
  induction a as [|x a IH]; intros ink b; simpl.
  - reflexivity.
  - destruct (Ascii.eqb x ";"); rewrite IH; lia.
Qed.

(** The names found in a cookie string are the names found in the
    pairs it is joined from. *)
Lemma names_of_join : forall l,
  filter truthy (cookie_names (join "; " l))
  = filter truthy (flat_map cookie_names l).
Proof.
  induction l as [|x l IH]; [reflexivity|].
  destruct l as [|y l].
  - cbn [join flat_map]. now rewrite app_nil_r.
  - change (join "; " (x :: y :: l)) with (x ++ String ";" (String " " (join "; " (y :: l)))).
    rewrite cookie_names_app, cookie_names_space, filter_app, IH.
    change (flat_map cookie_names (x :: y :: l))
      with (cookie_names x ++ flat_map cookie_names (y :: l))%list.
    now rewrite filter_app.
Qed.

(** The count of a cookie string is the sum of the counts of the pairs
    it is joined from. *)
Lemma count_of_join : forall l,
  nonblank_segments (join "; " l) = list_sum (map nonblank_segments l).
Proof.
  induction l as [|x l IH]; [reflexivity|].
  destruct l as [|y l].
  - unfold nonblank_segments. simpl. lia.
  - change (join "; " (x :: y :: l)) with (x ++ String ";" (String " " (join "; " (y :: l)))).
    unfold nonblank_segments in *. rewrite scan_segments_app.
    change (scan_segments false (String " " (join "; " (y :: l))))
      with (scan_segments false (join "; " (y :: l))).
    rewrite IH. reflexivity.
Qed.

Lemma list_sum_filter : forall (A : Type) (f : A -> nat) (p : A -> bool) (l : list A),
  list_sum (map f (filter p l)) <= list_sum (map f l).
Proof.
  intros A f p. induction l as [|x l IH]; simpl; [lia|].
  destruct (p x); simpl; lia.
Qed.

Lemma filter_swap : forall (A : Type) (p r : A -> bool) (l : list A),
  filter p (filter r l) = filter r (filter p l).
Proof.
  intros A p r l. rewrite !filter_and. apply filter_ext. intros x. apply andb_comm.
Qed.

Lemma entries_cookies : forall h jar,
  cookie h = Some jar ->
  entries h SurfCookies
  = list_sum (map nonblank_segments
                  (map cookie_pair (filter (visible (hostname h) (pathname h)) jar))).
Proof.
  intros h jar E. unfold entries. rewrite E, guarded_count_scan.
  unfold cookie_string. rewrite count_of_join, !map_map.
  rewrite (list_sum_by_path_length (fun c => nonblank_segments (cookie_pair c))).
  reflexivity.
Qed.

(** A plain cookie shows as one segment with its name. *)
Lemma trimStart_app : forall n s,
  truthy n = true -> trimStart n = n -> trimStart (n ++ s) = n ++ s.
Proof.
  intros [|a n] s T H; [discriminate|]. simpl in *.
  destruct (is_whitespace a); [|reflexivity].
  exfalso. destruct (trimStart_length n) as [E|E].
  - rewrite E in H. apply (f_equal String.length) in H. simpl in H. lia.
  - rewrite H in E. simpl in E. lia.
Qed.

Lemma cut_cons : forall sep a s,
  Ascii.eqb a sep = false ->
  cut sep (String a s) = (String a (fst (cut sep s)), snd (cut sep s)).
Proof. intros sep a s H. simpl. rewrite H. now destruct (cut sep s). Qed.

Lemma cut_trimEnd : forall n s,
  lacks "=" n = true -> fst (cut "=" (trimEnd (n ++ String "=" s))) = n.
Proof.
  induction n as [|a n IH]; intros s L.
  - cbn [append trimEnd]. destruct (trimEnd s); reflexivity.
  - simpl in L. apply andb_true_iff in L. destruct L as [La Ln].
    apply negb_true_iff in La. specialize (IH s Ln).
    cbn [append trimEnd].
    destruct (trimEnd (n ++ String "=" s)) as [|x t] eqn:E.
    + exfalso. clear - E.
      assert (T : truthy (trimEnd (n ++ String "=" s)) = true).
      { clear E. induction n as [|b n IHn].
        - simpl. destruct (trimEnd s); reflexivity.
        - cbn [append trimEnd]. destruct (trimEnd (n ++ String "=" s)); [discriminate|reflexivity]. }
      rewrite E in T. discriminate.
    + rewrite cut_cons by exact La. cbn [fst]. now rewrite IH.
Qed.

Lemma plain_cookie_pair : forall c,
  plain_cookie c = true ->
  cookie_names (cookie_pair c) = [ck_name c]
  /\ nonblank_segments (cookie_pair c) = 1.
Proof.
  intros c H. unfold plain_cookie in H. apply andb_true_iff in H. destruct H as [N V].
  assert (R := N). unfold plain_name in R.
  apply andb_true_iff in R. destruct R as [R _].
  apply andb_true_iff in R. destruct R as [R _].
  apply andb_true_iff in R. destruct R as [_ R].
  destruct (trimmed_inv _ R) as [S _].
  destruct (plain_name_inv _ N) as (T & Tr & Ls & Le).
  unfold cookie_pair. rewrite T.
  assert (L : lacks ";" (ck_name c ++ "=" ++ ck_value c) = true)
    by (rewrite !lacks_app, Ls, V; reflexivity).
  split.
  - unfold cookie_names. rewrite split_lacks by exact L. cbn [map]. f_equal.
    unfold cookie_name, trim. rewrite trimStart_app by assumption.
    change ("=" ++ ck_value c) with (String "=" (ck_value c)).
    rewrite cut_trimEnd by exact Le. exact Tr.
  - rewrite <- count_segments_scan. unfold count_segments.
    rewrite split_lacks by exact L. cbn [filter].
    unfold trim. rewrite trimStart_app by assumption.
    destruct (ck_name c) as [|a n]; [discriminate|].
    simpl in S. destruct (is_whitespace a) eqn:W.
    + exfalso. destruct (trimStart_length n) as [E|E].
      * rewrite E in S. apply (f_equal String.length) in S. simpl in S. lia.
      * rewrite S in E. simpl in E. lia.
    + change (String a n ++ "=" ++ ck_value c) with (String a (n ++ "=" ++ ck_value c)).
      now rewrite trimEnd_ink.
Qed.

Lemma plain_pairs : forall l,
  forallb plain_cookie l = true ->
  filter truthy (flat_map cookie_names (map cookie_pair l)) = map ck_name l
  /\ list_sum (map nonblank_segments (map cookie_pair l)) = List.length l.
Proof.
  induction l as [|c l IH]; intros H; [split; reflexivity|].
  cbn [forallb] in H. apply andb_true_iff in H. destruct H as [Hc Hl].
  destruct (IH Hl) as [IH1 IH2]. destruct (plain_cookie_pair c Hc) as [N S].
  cbn [map flat_map list_sum fold_right length].
  rewrite N. cbn [app filter].
  unfold plain_cookie in Hc. apply andb_true_iff in Hc. destruct Hc as [Hn _].
  destruct (plain_name_inv _ Hn) as (T & _). rewrite T, IH1.
  split; [reflexivity|].
  change (fold_right Nat.add 0 (map nonblank_segments (map cookie_pair l)))
    with (list_sum (map nonblank_segments (map cookie_pair l))).
  rewrite S, IH2. reflexivity.
Qed.

Lemma names_found_join : forall h jar,
  cookie h = Some jar ->
  names_found h
  = filter truthy
      (flat_map cookie_names
         (map cookie_pair
              (by_path_length (filter (visible (hostname h) (pathname h)) jar)))).
Proof.
  intros h jar E. unfold names_found. rewrite E. unfold cookie_string.
  apply names_of_join.
Qed.

(** X7: on a page whose visible cookies are plain (a name that is not
    empty, has no white space around it and neither [";"] nor ["="] in
    it; a value without [";"]), the initial detection counts exactly the
    cookies visible to the page, and the names [clearCookies] finds in
    [document.cookie] are exactly the names of these cookies, in the
    order of the cookie string: the cookies with longer paths first,
    and among paths of the same length the cookies created earlier
    first. *)
Theorem plain_cookies_counted_and_named : forall w jar s,
  cookie (host w) = Some jar ->
  forallb plain_cookie (filter (visible (hostname (host w)) (pathname (host w))) jar) = true ->
  fst (detect w) = Normal s ->
  ck s = List.length (filter (visible (hostname (host w)) (pathname (host w))) jar)
  /\ names_found (host w)
     = map ck_name
           (by_path_length (filter (visible (hostname (host w)) (pathname (host w))) jar)).
Proof.
  intros w jar s E P D.
  destruct (detect_run w) as [calls R]. rewrite R in D. cbn [fst] in D.
  injection D as <-. cbn [ck].
  destruct (plain_pairs _ P) as [_ S].
  destruct (plain_pairs _ (forallb_by_path_length _ _ P)) as [N _]. split.
  - rewrite <- S. exact (entries_cookies _ jar E).
  - rewrite (names_found_join _ jar E). exact N.
Qed.

Lemma plain_cookies_counted_and_named_witness :
  let jar := [mkCookie "theme" "dark" "example.com" true "/" false;
              mkCookie "sid" "42" "example.com" true "/app" false;
              mkCookie "token" "x" "example.com" true "/" true] in
  let w := mkWorld (mkHost None None None SwMissing IdbNoDatabases (Some jar) EstMissing
                           "example.com" "/app/page")
                   (mkDom true [] "" "") [] in
  ck (mkSummary 0 0 0 0 0 2 None) = 2
  /\ names_found (host w) = ["sid"; "theme"].
Proof.
  cbv zeta.
  apply (plain_cookies_counted_and_named
           (mkWorld (mkHost None None None SwMissing IdbNoDatabases
                       (Some [mkCookie "theme" "dark" "example.com" true "/" false;
                              mkCookie "sid" "42" "example.com" true "/app" false;
                              mkCookie "token" "x" "example.com" true "/" true])
                       EstMissing "example.com" "/app/page")
                    (mkDom true [] "" "") [])
           [mkCookie "theme" "dark" "example.com" true "/" false;
            mkCookie "sid" "42" "example.com" true "/app" false;
            mkCookie "token" "x" "example.com" true "/" true]);
    reflexivity.
Defined.

(* --------------------------------------------------------------------- *)
(** *** What a click can and cannot do to the storage                     *)
(* --------------------------------------------------------------------- *)

Lemma filter_length_le : forall (A : Type) (p : A -> bool) (l : list A),
  List.length (filter p l) <= List.length l.
Proof.
  intros A p. induction l as [|x l IH]; simpl; [lia|].
  destruct (p x); simpl; lia.
Qed.

Lemma delete_each_length : forall rejects ks names,
  List.length (delete_each rejects ks names) <= List.length names.
Proof.
  intros rejects. induction ks as [|k ks IH]; intros names; simpl; [lia|].
  destruct (rejected k rejects); [lia|].
  etransitivity; [apply IH|apply filter_length_le].
Qed.

Lemma entries_congr : forall h g x,
  content h x = content g x ->
  hostname h = hostname g ->
  pathname h = pathname g ->
  entries h x = entries g x.
Proof.
  intros h g x C Hh Hp. destruct h, g. simpl in Hh, Hp. subst.
  destruct x; simpl in *; inversion C; subst; reflexivity.
Qed.

Lemma location_after_clear : forall d h,
  hostname (after_clear d h) = hostname h /\ pathname (after_clear d h) = pathname h.
Proof.
  intros d h. unfold after_clear. cbn [fold_left clearable].
  destruct (selected d SurfLocal), (selected d SurfSession), (selected d SurfCaches),
    (selected d SurfWorkers), (selected d SurfCookies);
    repeat (rewrite (proj1 (location_cleared _ _)));
    repeat (rewrite (proj2 (location_cleared _ _))); split; reflexivity.
Qed.

Lemma storage_cleared : forall h x, storage (cleared h x) = storage h.
Proof.
  intros h x. destruct h. destruct x; simpl; break_match; reflexivity.
Qed.

Lemma storage_after_clear : forall d h, storage (after_clear d h) = storage h.
Proof.
  intros d h. unfold after_clear. cbn [fold_left clearable].
  destruct (selected d SurfLocal), (selected d SurfSession), (selected d SurfCaches),
    (selected d SurfWorkers), (selected d SurfCookies);
    rewrite ?storage_cleared; reflexivity.
Qed.

(** The clearing block of a surface leaves at most the entries it
    found. *)
Lemma entries_cleared_le : forall h x,
  (x = SurfCookies -> plain_location h = true) ->
  entries (cleared h x) x <= entries h x.
Proof.
  intros h x L. destruct x.
  - destruct h as [l s cs sw i k e hn pn]. simpl. destruct l; simpl; lia.
  - destruct h as [l s cs sw i k e hn pn]. simpl. destruct s; simpl; lia.
  - destruct h as [l s cs sw i k e hn pn]. simpl.
    destruct cs as [[names kr rj]|]; simpl; [|lia].
    destruct kr; simpl; [lia|]. apply delete_each_length.
  - destruct h as [l s cs sw i k e hn pn]. simpl.
    destruct sw as [| |[regs gr rj]]; simpl; try lia.
    destruct gr; simpl; [lia|]. apply delete_each_length.
  - reflexivity.
  - specialize (L eq_refl).
    destruct (cookie h) as [jar|] eqn:E.
    + assert (C := cleared_cookies h jar E L).
      rewrite (entries_cookies _ _ C), (entries_cookies _ _ E).
      rewrite (proj1 (location_cleared h SurfCookies)), (proj2 (location_cleared h SurfCookies)).
      rewrite filter_swap, !map_map. apply list_sum_filter.
    + unfold cleared. rewrite E. lia.
Qed.

Lemma entries_after_clear_le : forall d h x,
  (selected d SurfCookies = true -> plain_location h = true) ->
  entries (after_clear d h) x <= entries h x.
Proof.
  intros d h x L. destruct (location_after_clear d h) as [Hh Hp].
  destruct (selected d x) eqn:S.
  - rewrite (entries_congr (after_clear d h) (cleared h x) x).
    + apply entries_cleared_le. intros ->. now apply L.
    + now apply after_clear_content.
    + rewrite Hh. symmetry. apply location_cleared.
    + rewrite Hp. symmetry. apply location_cleared.
  - rewrite (entries_congr (after_clear d h) h x); [lia| |assumption|assumption].
    now apply after_clear_unselected.
Qed.

(** X8: a click never makes a surface hold more.  With the overlay in
    the document, and a plain location when the cookie box is checked,
    every one of the six surfaces holds after the handler at most the
    entries a probe found in it before, whatever is selected and
    whatever fails. *)
Theorem run_onclick_never_adds : forall w x,
  attached (dom w) = true ->
  (selected (dom w) SurfCookies = true -> plain_location (host w) = true) ->
  entries (host (snd (run_onclick w))) x <= entries (host w) x.
Proof.
  intros w x A L. rewrite run_onclick_host by exact A.
  now apply entries_after_clear_le.
Qed.

Lemma run_onclick_never_adds_witness :
  entries (host (snd (run_onclick (example_world ["c"; "k"])))) SurfCookies
  <= entries (host (example_world ["c"; "k"])) SurfCookies.
Proof.
  apply (run_onclick_never_adds (example_world ["c"; "k"]) SurfCookies);
    [reflexivity|intros _; reflexivity].
Defined.

Lemma host_ext : forall h g,
  (forall x, content h x = content g x) ->
  storage h = storage g ->
  hostname h = hostname g ->
  pathname h = pathname g ->
  h = g.
Proof.
  intros h g C S Hh Hp. destruct h, g. simpl in S, Hh, Hp. subst.
  assert (C1 := C SurfLocal). assert (C2 := C SurfSession).
  assert (C3 := C SurfCaches). assert (C4 := C SurfWorkers).
  assert (C5 := C SurfIdb). assert (C6 := C SurfCookies).
  simpl in *. inversion C1. inversion C2. inversion C3. inversion C4.
  inversion C5. inversion C6. subst. reflexivity.
Qed.

(** The names a deleting loop leaves are left by a second run of the
    loop as well: the loop stops again at the first rejected name. *)
Lemma delete_each_again : forall rejects ks done,
  (forall p, In p done -> rejected p rejects = false) ->
  let left := delete_each rejects ks
                (filter (fun n => negb (existsb (String.eqb n) done)) ks) in
  delete_each rejects left left = left.
Proof.
  intros rejects. induction ks as [|k ks IH]; intros done D; cbv zeta.
  - reflexivity.
  - cbn [delete_each]. destruct (rejected k rejects) eqn:R.
    + cbn [filter].
      assert (N : existsb (String.eqb k) done = false).
      { destruct (existsb (String.eqb k) done) eqn:X; [|reflexivity].
        apply existsb_exists in X. destruct X as [p [Hp Ep]].
        apply String.eqb_eq in Ep. subst p. rewrite (D k Hp) in R. discriminate. }
      rewrite N. cbn [negb delete_each]. now rewrite R.
    + cbn [filter].
      assert (F : filter (fun n => negb (String.eqb n k))
                    (if negb (existsb (String.eqb k) done)
                     then k :: filter (fun n => negb (existsb (String.eqb n) done)) ks
                     else filter (fun n => negb (existsb (String.eqb n) done)) ks)
                  = filter (fun n => negb (existsb (String.eqb n) (k :: done))) ks).
      { destruct (negb (existsb (String.eqb k) done)); cbn [filter];
          rewrite ?String.eqb_refl; cbn [negb];
          rewrite filter_and; apply filter_ext; intros n; cbn [existsb];
          destruct (String.eqb n k), (existsb (String.eqb n) done); reflexivity. }
      rewrite F. apply (IH (k :: done)).
      intros p [<-|Hp]; [exact R|now apply D].
Qed.

Lemma delete_each_twice : forall rejects ks,
  delete_each rejects (delete_each rejects ks ks) (delete_each rejects ks ks)
  = delete_each rejects ks ks.
Proof.
  intros rejects ks.
  assert (H := delete_each_again rejects ks [] (fun p (F : In p []) => match F with end)).
  cbv zeta in H. cbn [existsb negb] in H.
  rewrite (filter_all _ (fun _ => true) ks) in H by reflexivity. exact H.
Qed.

Lemma targeted_names : forall hn pn names names' jar jar' c,
  (forall n, In n names' -> In n names) ->
  kept_by_platform jar' c = kept_by_platform jar c ->
  targeted hn pn names jar c = false -> targeted hn pn names' jar' c = false.
Proof.
  intros hn pn names names' jar jar' c I K T. unfold targeted in *. rewrite K.
  destruct (existsb (String.eqb (ck_name c)) names') eqn:X; [|reflexivity].
  apply existsb_exists in X. destruct X as [n [Hn En]].
  assert (Y : existsb (String.eqb (ck_name c)) names = true)
    by (apply existsb_exists; exists n; split; [now apply I|exact En]).
  rewrite Y in T. exact T.
Qed.

(** The cookies a first cleanup leaves are not targeted by a second. *)
Lemma cleared_cookies_again : forall h jar,
  cookie h = Some jar ->
  plain_location h = true ->
  cookie (cleared (cleared h SurfCookies) SurfCookies) = cookie (cleared h SurfCookies).
Proof.
  intros h jar E L.
  assert (C := cleared_cookies h jar E L).
  destruct (location_cleared h SurfCookies) as [Hh Hp].
  assert (L' : plain_location (cleared h SurfCookies) = true)
    by (unfold plain_location; rewrite Hh, Hp; exact L).
  rewrite (cleared_cookies _ _ C L'), C. f_equal.
  apply filter_all. intros c Hc. apply filter_In in Hc. destruct Hc as [_ Hc].
  apply negb_true_iff in Hc. apply negb_true_iff. rewrite Hh, Hp.
  apply (targeted_names _ _ (names_found h) _ jar); [| |exact Hc].
  - intros n Hn.
    rewrite (names_found_join _ _ C) in Hn. rewrite (names_found_join _ _ E).
    rewrite Hh, Hp in Hn.
    apply filter_In in Hn. destruct Hn as [Hn T]. apply filter_In. split; [|exact T].
    apply in_flat_map in Hn. destruct Hn as [pair [Hpair Hn]].
    apply in_flat_map. exists pair. split; [|exact Hn].
    apply in_map_iff in Hpair. destruct Hpair as [ck [<- Hck]].
    apply in_map. apply In_by_path_length. apply (proj1 (In_by_path_length _ _)) in Hck.
    apply filter_In in Hck. destruct Hck as [Hck V].
    apply filter_In in Hck. destruct Hck as [Hck _].
    apply filter_In. now split.
  - apply kept_by_platform_filter. intros old I T.
    unfold targeted. rewrite (http_only_kept jar old I T).
    now rewrite andb_false_r.
Qed.

Lemma cleared_again : forall h x,
  (x = SurfCookies -> plain_location h = true) ->
  content (cleared (cleared h x) x) x = content (cleared h x) x.
Proof.
  intros h x L. destruct x.
  - destruct h as [l s cs sw i k e hn pn]. simpl. destruct l; reflexivity.
  - destruct h as [l s cs sw i k e hn pn]. simpl. destruct s; reflexivity.
  - destruct h as [l s cs sw i k e hn pn]. simpl.
    destruct cs as [[names kr rj]|]; simpl; [|reflexivity].
    destruct kr eqn:K; simpl; rewrite ?K; [reflexivity|].
    now rewrite delete_each_twice.
  - destruct h as [l s cs sw i k e hn pn]. simpl.
    destruct sw as [| |[regs gr rj]]; simpl; try reflexivity.
    destruct gr eqn:K; simpl; rewrite ?K; [reflexivity|].
    now rewrite delete_each_twice.
  - reflexivity.
  - specialize (L eq_refl). cbn [content].
    destruct (cookie h) as [jar|] eqn:E.
    + now rewrite (cleared_cookies_again h jar E L).
    + assert (H1 : cleared h SurfCookies = h) by (unfold cleared; now rewrite E).
      now rewrite !H1.
Qed.

Lemma after_clear_again : forall d h,
  (selected d SurfCookies = true -> plain_location h = true) ->
  after_clear d (after_clear d h) = after_clear d h.
Proof.
  intros d h L. destruct (location_after_clear d h) as [Hh Hp].
  apply host_ext.
  - intros x. destruct (selected d x) eqn:S.
    + rewrite after_clear_content by exact S.
      rewrite (content_cleared_congr (after_clear d h) (cleared h x) x).
      * rewrite cleared_again by (intros ->; now apply L).
        symmetry. now apply after_clear_content.
      * now apply after_clear_content.
      * rewrite Hh. symmetry. apply location_cleared.
      * rewrite Hp. symmetry. apply location_cleared.
    + now apply after_clear_unselected.
  - apply storage_after_clear.
  - apply location_after_clear.
  - apply location_after_clear.
Qed.

Lemma after_clear_checked : forall d d' h,
  checked d' = checked d -> after_clear d' h = after_clear d h.
Proof.
  intros d d' h C. unfold after_clear, selected, is_checked. now rewrite C.
Qed.

Lemma run_onclick_dom : forall w,
  attached (dom w) = true ->
  attached (dom (snd (run_onclick w))) = true
  /\ checked (dom (snd (run_onclick w))) = checked (dom w).
Proof.
  intros w A. destruct (run_onclick_run w A) as [calls E]. cbv zeta in E.
  rewrite E. destruct (unguarded_read_throws (host w)); cbn [snd dom];
    unfold set_stats, set_out; cbn [attached checked]; split; assumption || reflexivity.
Qed.

(** X9: a second click with the same boxes checked changes nothing in
    the storage.  With the overlay in the document, and a plain location
    when the cookie box is checked: what the first run of the handler
    leaves, a second run leaves as it is, whatever is selected and
    whatever fails (a deleting loop stops again at the name it stopped
    at, and the cookies the first cleanup could not evict are not
    targeted by the second). *)
Theorem run_onclick_twice : forall w,
  attached (dom w) = true ->
  (selected (dom w) SurfCookies = true -> plain_location (host w) = true) ->
  host (snd (run_onclick (snd (run_onclick w)))) = host (snd (run_onclick w)).
Proof.
  intros w A L. destruct (run_onclick_dom w A) as [A' C].
  rewrite (run_onclick_host (snd (run_onclick w))) by exact A'.
  rewrite (after_clear_checked (dom w)) by exact C.
  rewrite run_onclick_host by exact A.
  now apply after_clear_again.
Qed.

Lemma run_onclick_twice_witness :
  host (snd (run_onclick (snd (run_onclick (example_world ["l"; "c"; "k"])))))
  = host (snd (run_onclick (example_world ["l"; "c"; "k"]))).
Proof.
  apply (run_onclick_twice (example_world ["l"; "c"; "k"]));
    [reflexivity|intros _; reflexivity].
Defined.

Lemma filter_absent : forall k ks,
  existsb (String.eqb k) ks = false ->
  filter (fun n => negb (String.eqb n k)) ks = ks.
Proof.
  intros k. induction ks as [|x ks IH]; intros H; simpl in *; [reflexivity|].
  apply orb_false_iff in H. destruct H as [Hx Hk].
  rewrite String.eqb_sym, Hx. simpl. now rewrite IH.
Qed.

(** With distinct names, a deleting loop leaves the names from the
    first rejected one on. *)
Lemma delete_each_distinct : forall rejects ks,
  distinct ks = true -> delete_each rejects ks ks = from_rejected rejects ks.
Proof.
  intros rejects. induction ks as [|k ks IH]; intros D; [reflexivity|].
  cbn [distinct] in D. apply andb_true_iff in D. destruct D as [Dk Dks].
  apply negb_true_iff in Dk.
  cbn [delete_each from_rejected]. destruct (rejected k rejects); [reflexivity|].
  cbn [filter]. rewrite String.eqb_refl. cbn [negb].
  rewrite filter_absent by exact Dk. now apply IH.
Qed.

Lemma from_rejected_nil : forall rejects ks,
  existsb (fun k => rejected k rejects) ks
  = match from_rejected rejects ks with [] => false | _ :: _ => true end.
Proof.
  intros rejects. induction ks as [|k ks IH]; [reflexivity|].
  cbn [existsb from_rejected]. destruct (rejected k rejects); [reflexivity|exact IH].
Qed.

(** X10: a deletion that is rejected stops the clearing of its surface
    half way.  With the overlay in the document and the Cache Storage
    box checked, on a page whose caches can be listed and have distinct
    names: the caches listed before the first one whose deletion is
    rejected are gone after the handler, that one and all the caches
    listed after it are still there, and the log in [#out] has the line
    [Cache Storage failed] exactly when a cache is left, and the line
    [Cache Storage cleared] otherwise. *)
Theorem run_onclick_stops_at_rejected_cache : forall w names rejects,
  attached (dom w) = true ->
  selected (dom w) SurfCaches = true ->
  caches (host w) = Some (mkCacheStorage names false rejects) ->
  distinct names = true ->
  let left := from_rejected rejects names in
  caches (host (snd (run_onclick w))) = Some (mkCacheStorage left false rejects)
  /\ In (status_line SurfCaches (match left with [] => false | _ :: _ => true end))
        (status_lines (host w) (dom w))
  /\ out_innerHTML (dom (snd (run_onclick w)))
     = out_message (status_lines (host w) (dom w)).
Proof.
  intros w names rejects A S E D. cbv zeta.
  rewrite run_onclick_host, run_onclick_out by exact A.
  repeat split.
  - assert (C := after_clear_content (dom w) (host w) SurfCaches S).
    cbn [content] in C. injection C as C. rewrite C.
    unfold cleared. rewrite E. cbn [keys_rejects cache_names delete_rejects].
    now rewrite delete_each_distinct.
  - apply In_status_lines. exists SurfCaches. split; [exact S|].
    unfold clear_fails. rewrite E. cbn [keys_rejects cache_names delete_rejects orb].
    now rewrite from_rejected_nil.
Qed.

Lemma run_onclick_stops_at_rejected_cache_witness :
  let w := mkWorld (mkHost None None (Some (mkCacheStorage ["v1"; "v2"; "v3"] false ["v2"]))
                           SwMissing IdbNoDatabases None EstMissing "example.com" "/")
                   (mkDom true ["c"] "" "") [] in
  caches (host (snd (run_onclick w))) = Some (mkCacheStorage ["v2"; "v3"] false ["v2"])
  /\ In "Cache Storage failed" (status_lines (host w) (dom w))
  /\ out_innerHTML (dom (snd (run_onclick w)))
     = out_message (status_lines (host w) (dom w)).
Proof.
  apply (run_onclick_stops_at_rejected_cache
           (mkWorld (mkHost None None (Some (mkCacheStorage ["v1"; "v2"; "v3"] false ["v2"]))
                            SwMissing IdbNoDatabases None EstMissing "example.com" "/")
                    (mkDom true ["c"] "" "") [])
           ["v1"; "v2"; "v3"] ["v2"]);
    reflexivity.
Defined.

(* --------------------------------------------------------------------- *)
(** *** Reading the counts back from [#stats]                             *)
(* --------------------------------------------------------------------- *)

Lemma number_to_string_inj : forall n m,
  number_to_string n = number_to_string m -> n = m.
Proof.
  intros n m H. unfold number_to_string in H.
  assert (U : Some (Nat.to_uint n) = Some (Nat.to_uint m))
    by (rewrite <- !NilEmpty.usu; now rewrite H).
  injection U as U.
  rewrite <- (DecimalNat.Unsigned.of_to n), <- (DecimalNat.Unsigned.of_to m).
  now rewrite U.
Qed.

Lemma digits_lack : forall a d,
  (N_of_ascii a <? 48)%N || (57 <? N_of_ascii a)%N = true ->
  lacks a (NilEmpty.string_of_uint d) = true.
Proof.
  intros a d H. induction d; cbn [NilEmpty.string_of_uint lacks]; rewrite ?IHd;
    try reflexivity;
    rewrite andb_true_r; apply negb_true_iff;
    match goal with
    | |- Ascii.eqb ?x a = false =>
        destruct (Ascii.eqb x a) eqn:E; [|reflexivity];
        apply Ascii.eqb_eq in E; subst a; discriminate H
    end.
Qed.

Lemma append_inv_head : forall p a b : string, p ++ a = p ++ b -> a = b.
Proof.
  induction p as [|x p IH]; intros a b H; [exact H|].
  simpl in H. injection H as H. now apply IH.
Qed.

Lemma append_nil_r : forall s : string, s ++ "" = s.
Proof. induction s as [|a s IH]; simpl; [reflexivity|now rewrite IH]. Qed.

(** A row can be read back: the value ends at the first ["<"]. *)
Lemma row_inj : forall a b1 b2 r1 r2,
  lacks "<" b1 = true -> lacks "<" b2 = true ->
  row a b1 ++ r1 = row a b2 ++ r2 ->
  b1 = b2 /\ r1 = r2.
Proof.
  intros a b1 b2 r1 r2 L1 L2 H. unfold row in H.
  rewrite !append_assoc_string in H.
  do 7 apply append_inv_head in H.
  change ("</div></div>" ++ r1) with (String "<" ("/div></div>" ++ r1)) in H.
  change ("</div></div>" ++ r2) with (String "<" ("/div></div>" ++ r2)) in H.
  apply (f_equal (cut "<")) in H.
  rewrite !cut_app_sep in H by assumption.
  injection H as Hb Hr. now split.
Qed.

Lemma stats_rows_inj : forall n m, stats_rows n = stats_rows m -> n = m.
Proof.
  intros [n1 n2 n3 n4 n5 n6] [m1 m2 m3 m4 m5 m6] H. unfold stats_rows in H.
  cbn [lsCount ssCount cachesCount swCount idbCount cookieCount] in H.
  rewrite <- (append_nil_r (row "Cookies (visible)" (number_to_string n6))) in H.
  rewrite <- (append_nil_r (row "Cookies (visible)" (number_to_string m6))) in H.
  assert (D : forall k, lacks "<" (number_to_string k) = true)
    by (intros k; apply digits_lack; reflexivity).
  apply row_inj in H; [|apply D|apply D]. destruct H as [H1 H].
  apply row_inj in H; [|apply D|apply D]. destruct H as [H2 H].
  apply row_inj in H; [|apply D|apply D]. destruct H as [H3 H].
  apply row_inj in H; [|apply D|apply D]. destruct H as [H4 H].
  apply row_inj in H; [|apply D|apply D]. destruct H as [H5 H].
  apply row_inj in H; [|apply D|apply D]. destruct H as [H6 _].
  apply number_to_string_inj in H1, H2, H3, H4, H5, H6. now subst.
Qed.

(** X11: the display of [updateStats] can be read back.  When
    [updateStats] ends normally in two hosts and leaves the same HTML in
    [#stats], every one of the six surfaces holds the same number of
    entries in the two hosts: different counts never show as the same
    rows. *)
Theorem stats_display_determines_counts : forall w1 w2,
  fst (updateStats w1) = Normal tt ->
  fst (updateStats w2) = Normal tt ->
  stats_innerHTML (dom (snd (updateStats w1)))
  = stats_innerHTML (dom (snd (updateStats w2))) ->
  forall x, entries (host w1) x = entries (host w2) x.
Proof.
  intros w1 w2 N1 N2 H x.
  destruct (updateStats_run w1) as [c1 E1]. destruct (updateStats_run w2) as [c2 E2].
  rewrite E1 in N1, H. rewrite E2 in N2, H.
  destruct (unguarded_read_throws (host w1) || negb (attached (dom w1))); [discriminate N1|].
  destruct (unguarded_read_throws (host w2) || negb (attached (dom w2))); [discriminate N2|].
  cbn [snd dom set_dom set_stats stats_innerHTML] in H.
  apply stats_rows_inj in H.
  rewrite <- !displayed_counts_of. now rewrite H.
Qed.

Lemma stats_display_determines_counts_witness :
  entries (host (example_world ["l"])) SurfCaches
  = entries (host (example_world [])) SurfCaches.
Proof.
  apply (stats_display_determines_counts (example_world ["l"]) (example_world []));
    reflexivity.
Defined.
